(** * BFD daemon northbound configuration callbacks

    A shallow embedding of [bfdd/bfdd_nb_config.c]: the callbacks that the
    northbound layer runs for every change of the BFD configuration tree, in
    the phases VALIDATE, PREPARE, APPLY and ABORT.

    The callbacks work on C objects shared with the BFD engine.  They are
    modelled by explicit state passing over a [world]: a heap of session and
    profile objects addressed by pointers, the engine's key registry, the
    northbound running-configuration entries, and the trace of the engine
    functions that were called.  A callback that dereferences a dangling or
    null pointer, or trips an assertion of the northbound library, has no
    result ([None]). *)

From Stdlib Require Import ZArith String List Bool Lia.
From stdpp Require Import base option gmap strings list.
Import ListNotations.

Open Scope string_scope.
Open Scope list_scope.
Open Scope Z_scope.

(** ** Data model *)

Module Model.

(** Pointers to heap objects; a nullable C pointer is an [option ptr]. *)
Definition ptr : Type := positive.

(** Data nodes are identified by their XPath. *)
Definition xpath : Type := string.

(** Address families of <sys/socket.h>. *)
Inductive sa_family_t : Type := AF_UNSPEC | AF_INET | AF_INET6.

#[global] Instance sa_family_eq_dec : EqDecision sa_family_t.
Proof. solve_decision. Defined.

(** A parsed network address: the family and the address bytes read as one
    big-endian number (32 bits for IPv4, 128 bits for IPv6).  This one record
    stands for [struct sockaddr_any] and for the address part of
    [struct prefix]. *)
Record sockaddr_any : Type := Sockaddr { sa_family : sa_family_t; sa_addr : Z }.

#[global] Instance sockaddr_any_eq_dec : EqDecision sockaddr_any.
Proof. solve_decision. Defined.

(** [memset(&lsa, 0, sizeof(lsa))] *)
Definition sockaddr_zero : sockaddr_any := Sockaddr AF_UNSPEC 0.

(** Byte [i] (0 is the first byte on the wire) of a 128-bit address. *)
Definition s6_addr (a : Z) (i : Z) : Z :=
  Z.land (Z.shiftr a (8 * (15 - i))) 255.

(** Modelled from the spec: the macro [IN6_IS_ADDR_LINKLOCAL] comes from
    <netinet/in.h>; a link-local address is one in fe80::/10. *)
Definition IN6_IS_ADDR_LINKLOCAL (a : Z) : bool :=
  (s6_addr a 0 =? 254) && (Z.land (s6_addr a 1) 192 =? 128).

(** *** Session keys *)

(** Modelled from the spec: [struct bfd_key] is declared in bfd.h; section 3
    gives it as the tuple (peer_addr, local_addr, multihop, ifname?,
    vrfname), and the code reads its [family]. *)
Record bfd_key : Type := BfdKey {
  family : sa_family_t;
  peer : Z;
  local : Z;
  mhop : bool;
  ifname : option string;
  vrfname : string
}.

#[global] Instance bfd_key_eq_dec : EqDecision bfd_key.
Proof. solve_decision. Defined.

Definition bfd_key_tuple (k : bfd_key) :
    sa_family_t * Z * Z * bool * option string * string :=
  (family k, peer k, local k, mhop k, ifname k, vrfname k).

Definition sa_family_code (f : sa_family_t) : nat :=
  match f with AF_UNSPEC => 0%nat | AF_INET => 2%nat | AF_INET6 => 10%nat end.

Definition sa_family_of_code (n : nat) : option sa_family_t :=
  match n with
  | 0%nat => Some AF_UNSPEC
  | 2%nat => Some AF_INET
  | 10%nat => Some AF_INET6
  | _ => None
  end.

#[global] Instance sa_family_countable : Countable sa_family_t.
Proof.
  apply (inj_countable sa_family_code sa_family_of_code).
  intros []; reflexivity.
Defined.

#[global] Instance bfd_key_countable : Countable bfd_key.
Proof.
  apply (inj_countable' bfd_key_tuple
           (fun t => let '(f, p, l, m, i, v) := t in BfdKey f p l m i v)).
  intros []; reflexivity.
Defined.

Definition bfd_key_zero : bfd_key := BfdKey AF_UNSPEC 0 0 false None "".

(** Modelled from the spec: [gen_bfd_key] is defined in bfd.c; it packs its
    arguments into the key, the family being the peer address's. *)
Definition gen_bfd_key (psa lsa : sockaddr_any) (mhop : bool)
    (ifname : option string) (vrfname : string) : bfd_key :=
  {| family := sa_family psa;
     peer := sa_addr psa;
     local := sa_addr lsa;
     mhop := mhop;
     ifname := ifname;
     vrfname := vrfname |}.

(** *** Profiles and sessions *)

(** Modelled from the spec: [struct bfd_profile] (bfd.h) with the fields of
    section 3 that the callbacks assign. *)
Record bfd_profile : Type := BfdProfile {
  detection_multiplier : Z;
  min_tx : Z;
  min_rx : Z;
  min_echo_rx : Z;
  admin_shutdown : bool;
  passive : bool;
  echo_mode : bool;
  minimum_ttl : Z
}.

(** The installed timers the callbacks compare against: the three members of
    [bs->timers] that the source reads. *)
Record bfd_timers : Type := BfdTimers {
  desired_min_tx : Z;
  required_min_rx : Z;
  required_min_echo : Z
}.

(** Modelled from the spec: [struct bfd_session] (bfd.h) with the members
    the callbacks use.  [refcount] is the spec's integer count of co-owners,
    so [refcount++] and [refcount--] are plus and minus one; [my_discr]
    stands for [discrs.my_discr]. *)
Record bfd_session : Type := BfdSession {
  key : bfd_key;
  flags : Z;
  refcount : Z;
  peer_profile : bfd_profile;
  timers : bfd_timers;
  my_discr : Z
}.

(** Session flag bits (bfd.h). *)
Definition BFD_SESS_FLAG_MH : Z := Z.shiftl 1 2.
Definition BFD_SESS_FLAG_IPV6 : Z := Z.shiftl 1 4.
Definition BFD_SESS_FLAG_CONFIG : Z := Z.shiftl 1 8.

(** Default TTL floor of multi-hop sessions (bfd.h). *)
Definition BFD_DEF_MHOP_TTL : Z := 254.

(** The flag macros of lib/zebra.h. *)
Definition CHECK_FLAG (v f : Z) : Z := Z.land v f.
Definition SET_FLAG (v f : Z) : Z := Z.lor v f.
Definition UNSET_FLAG (v f : Z) : Z := Z.land v (Z.lnot f).

Definition set_flags (f : Z) (bs : bfd_session) : bfd_session :=
  {| key := key bs; flags := f; refcount := refcount bs;
     peer_profile := peer_profile bs; timers := timers bs;
     my_discr := my_discr bs |}.

Definition set_refcount (n : Z) (bs : bfd_session) : bfd_session :=
  {| key := key bs; flags := flags bs; refcount := n;
     peer_profile := peer_profile bs; timers := timers bs;
     my_discr := my_discr bs |}.

Definition set_key (k : bfd_key) (bs : bfd_session) : bfd_session :=
  {| key := k; flags := flags bs; refcount := refcount bs;
     peer_profile := peer_profile bs; timers := timers bs;
     my_discr := my_discr bs |}.

Definition set_my_discr (d : Z) (bs : bfd_session) : bfd_session :=
  {| key := key bs; flags := flags bs; refcount := refcount bs;
     peer_profile := peer_profile bs; timers := timers bs;
     my_discr := d |}.

Definition set_peer_profile (pp : bfd_profile) (bs : bfd_session) : bfd_session :=
  {| key := key bs; flags := flags bs; refcount := refcount bs;
     peer_profile := pp; timers := timers bs;
     my_discr := my_discr bs |}.

Definition bfd_profile_zero : bfd_profile :=
  BfdProfile 0 0 0 0 false false false 0.

Definition bfd_session_zero : bfd_session :=
  {| key := bfd_key_zero; flags := 0; refcount := 0;
     peer_profile := bfd_profile_zero; timers := BfdTimers 0 0 0;
     my_discr := 0 |}.

(** *** Configuration tree *)

(** An entry of the [single-hop] or [multi-hop] list.  The address leaves
    hold the parsed value of their canonical string, so that comparing two
    leaves as strings is comparing these values; [dn_xpath] identifies the
    node. *)
Record lyd_node : Type := LydNode {
  dn_xpath : xpath;
  dest_addr : sockaddr_any;
  source_addr : option sockaddr_any;
  interface : string;
  vrf : string
}.

(** The [sessions] container: the entries of its two lists. *)
Record sessions_node : Type := SessionsNode {
  single_hop : list lyd_node;
  multi_hop : list lyd_node
}.

(** A leaf below a list entry: the XPaths of the leaf and of its ancestors,
    nearest first, and the typed value of the leaf. *)
Record lyd_leaf (A : Type) : Type := LydLeaf {
  lf_xpaths : list xpath;
  lf_value : A
}.
Arguments LydLeaf {A} _ _.
Arguments lf_xpaths {A} _.
Arguments lf_value {A} _.

(** *** Northbound interface (lib/northbound.h) *)

Inductive nb_event : Type :=
  NB_EV_VALIDATE | NB_EV_PREPARE | NB_EV_ABORT | NB_EV_APPLY.

Inductive nb_error : Type :=
  | NB_OK
  | NB_ERR
  | NB_ERR_NO_CHANGES
  | NB_ERR_NOT_FOUND
  | NB_ERR_LOCKED
  | NB_ERR_VALIDATION
  | NB_ERR_RESOURCE
  | NB_ERR_INCONSISTENCY.

#[global] Instance nb_error_eq_dec : EqDecision nb_error.
Proof. solve_decision. Defined.

Inductive yang_iter_ret : Type := YANG_ITER_CONTINUE | YANG_ITER_STOP.

(** Arguments of a create callback.  [cr_sessions] is the [sessions]
    container above [cr_dnode] in the candidate tree; [cr_resource] is
    [args->resource->ptr] and [cr_errmsg] the caller's error buffer, both
    written through pointers and so returned with the result. *)
Record nb_cb_create_args : Type := CreateArgs {
  cr_event : nb_event;
  cr_dnode : lyd_node;
  cr_sessions : sessions_node;
  cr_resource : option ptr;
  cr_errmsg : string
}.

Definition set_errmsg (m : string) (a : nb_cb_create_args) : nb_cb_create_args :=
  {| cr_event := cr_event a; cr_dnode := cr_dnode a;
     cr_sessions := cr_sessions a; cr_resource := cr_resource a;
     cr_errmsg := m |}.

Definition set_resource (r : option ptr) (a : nb_cb_create_args) : nb_cb_create_args :=
  {| cr_event := cr_event a; cr_dnode := cr_dnode a;
     cr_sessions := cr_sessions a; cr_resource := r;
     cr_errmsg := cr_errmsg a |}.

(** *** The world *)

(** Calls into the BFD engine made by the callbacks modelled here, in the
    order they were made. *)
Inductive engine_call : Type :=
  | Call_bfd_session_new (p : ptr)
  | Call_bs_registrate (p : ptr)
  | Call_bfd_session_free (p : ptr)
  | Call_bfd_session_apply (p : ptr)
  | Call_bfd_profile_update (p : ptr).

#[global] Instance engine_call_eq_dec : EqDecision engine_call.
Proof. solve_decision. Defined.

Record world : Type := World {
  w_sessions : gmap ptr bfd_session;   (* live session objects *)
  w_profiles : gmap ptr bfd_profile;   (* live profile objects *)
  w_key_hash : gmap bfd_key ptr;       (* the engine's session registry *)
  w_running : gmap xpath ptr;          (* northbound running entries *)
  w_discrs : list (option Z);          (* the engine's coming answers to
                                          registration requests *)
  w_calls : list engine_call           (* engine calls made so far *)
}.

End Model.
Export Model.

(** ** State passing *)

(** A computation on the world that may have no result (the process stops
    on a failed assertion or a bad pointer). *)
Definition M (A : Type) : Type := world -> option (A * world).

Definition ret {A : Type} (a : A) : M A := fun w => Some (a, w).

Definition bind {A B : Type} (m : M A) (k : A -> M B) : M B :=
  fun w => match m w with
           | Some (a, w') => k a w'
           | None => None
           end.

Definition crash {A : Type} : M A := fun _ => None.

Notation "'do' x <~ m ; k" := (bind m (fun x => k))
  (at level 10, x name, m at level 100, k at level 200).
Notation "m ;; k" := (bind m (fun _ => k))
  (at level 100, k at level 200, right associativity).

Definition gets {A : Type} (f : world -> A) : M A := fun w => Some (f w, w).

Definition modify (f : world -> world) : M unit := fun w => Some (tt, f w).

(** [*p] for a pointer that must be valid. *)
Definition deref {A : Type} (o : option A) : M A :=
  match o with
  | Some a => ret a
  | None => crash
  end.

Definition with_sessions (f : gmap ptr bfd_session -> gmap ptr bfd_session)
    (w : world) : world :=
  {| w_sessions := f (w_sessions w); w_profiles := w_profiles w;
     w_key_hash := w_key_hash w; w_running := w_running w;
     w_discrs := w_discrs w; w_calls := w_calls w |}.

Definition with_profiles (f : gmap ptr bfd_profile -> gmap ptr bfd_profile)
    (w : world) : world :=
  {| w_sessions := w_sessions w; w_profiles := f (w_profiles w);
     w_key_hash := w_key_hash w; w_running := w_running w;
     w_discrs := w_discrs w; w_calls := w_calls w |}.

Definition with_key_hash (f : gmap bfd_key ptr -> gmap bfd_key ptr)
    (w : world) : world :=
  {| w_sessions := w_sessions w; w_profiles := w_profiles w;
     w_key_hash := f (w_key_hash w); w_running := w_running w;
     w_discrs := w_discrs w; w_calls := w_calls w |}.

Definition with_running (f : gmap xpath ptr -> gmap xpath ptr)
    (w : world) : world :=
  {| w_sessions := w_sessions w; w_profiles := w_profiles w;
     w_key_hash := w_key_hash w; w_running := f (w_running w);
     w_discrs := w_discrs w; w_calls := w_calls w |}.

Definition with_discrs (f : list (option Z) -> list (option Z))
    (w : world) : world :=
  {| w_sessions := w_sessions w; w_profiles := w_profiles w;
     w_key_hash := w_key_hash w; w_running := w_running w;
     w_discrs := f (w_discrs w); w_calls := w_calls w |}.

Definition with_calls (f : list engine_call -> list engine_call)
    (w : world) : world :=
  {| w_sessions := w_sessions w; w_profiles := w_profiles w;
     w_key_hash := w_key_hash w; w_running := w_running w;
     w_discrs := w_discrs w; w_calls := f (w_calls w) |}.

(** Record one call of an engine function. *)
Definition called (c : engine_call) : M unit :=
  modify (with_calls (fun l => l ++ [c])).

(** Read and write a session or a profile through a pointer. *)
Definition load_session (p : ptr) : M bfd_session :=
  do o <~ gets (fun w => w_sessions w !! p); deref o.

Definition store_session (p : ptr) (f : bfd_session -> bfd_session) : M unit :=
  do bs <~ load_session p;
  modify (with_sessions (insert p (f bs))).

Definition load_profile (p : ptr) : M bfd_profile :=
  do o <~ gets (fun w => w_profiles w !! p); deref o.

Definition store_profile (p : ptr) (f : bfd_profile -> bfd_profile) : M unit :=
  do bp <~ load_profile p;
  modify (with_profiles (insert p (f bp))).

(** ** The collaborators: northbound library and BFD engine *)

(** Modelled from the spec: [nb_running_set_entry] (lib/northbound.c) binds a
    data node to a user pointer in the running-configuration map. *)
Definition nb_running_set_entry (dnode : xpath) (entry : ptr) : M unit :=
  modify (with_running (insert dnode entry)).

(** Modelled from the spec: [nb_running_unset_entry] (lib/northbound.c)
    unbinds the node and returns what was bound; it asserts that there was
    an entry. *)
Definition nb_running_unset_entry (dnode : xpath) : M ptr :=
  do o <~ gets (fun w => w_running w !! dnode);
  do entry <~ deref o;
  modify (with_running (delete dnode)) ;;
  ret entry.

(** The entry of the nearest node on [xpaths] that has one. *)
Fixpoint running_find (running : gmap xpath ptr) (xpaths : list xpath)
    : option ptr :=
  match xpaths with
  | [] => None
  | x :: rest =>
      match running !! x with
      | Some entry => Some entry
      | None => running_find running rest
      end
  end.

(** Modelled from the spec: [nb_running_get_entry(dnode, NULL, true)]
    (lib/northbound.c) returns the entry of the node or of its closest
    ancestor that has one, and aborts when there is none. *)
Definition nb_running_get_entry {A : Type} (dnode : lyd_leaf A) : M ptr :=
  do o <~ gets (fun w => running_find (w_running w) (lf_xpaths dnode));
  deref o.

(** Modelled from the spec: [bfd_key_lookup] (bfd.c) is the registry's
    [lookup(K) -> S?]. *)
Definition bfd_key_lookup (bk : bfd_key) : M (option ptr) :=
  gets (fun w => w_key_hash w !! bk).

(** An address no live object occupies. *)
Definition fresh_ptr (w : world) : ptr :=
  fresh (dom (w_sessions w) ∪ dom (w_profiles w)).

(** Modelled from the spec: [bfd_session_new] (bfd.c) allocates a session
    object; it is not yet in the registry and has no discriminator. *)
Definition bfd_session_new : M ptr :=
  do p <~ gets fresh_ptr;
  modify (with_sessions (insert p bfd_session_zero)) ;;
  called (Call_bfd_session_new p) ;;
  ret p.

(** Modelled from the spec: [bfd_session_free] (bfd.c) is the engine's
    [free(S)], full teardown: the object leaves the registry and the heap. *)
Definition bfd_session_free (p : ptr) : M unit :=
  do bs <~ load_session p;
  modify (with_key_hash (fun h =>
            if decide (h !! key bs = Some p) then delete (key bs) h else h)) ;;
  modify (with_sessions (delete p)) ;;
  called (Call_bfd_session_free p).

(** Modelled from the spec: [bs_registrate] (bfd.c) is the engine's
    [register(S) -> S | null]: it enters the session in the registry and
    assigns [discrs.my_discr].  The engine's answer is the head of
    [w_discrs]: a discriminator, or a refusal (null). *)
Definition bs_registrate (p : ptr) : M (option ptr) :=
  do bs <~ load_session p;
  called (Call_bs_registrate p) ;;
  do answers <~ gets w_discrs;
  modify (with_discrs (drop 1)) ;;
  match answers with
  | Some d :: _ =>
      modify (with_key_hash (insert (key bs) p)) ;;
      store_session p (set_my_discr d) ;;
      ret (Some p)
  | _ => ret None
  end.

(** Modelled from the spec: [bfd_session_apply] (bfd.c) is the engine's
    [session_apply(S)], the re-evaluation of a session against its
    [peer_profile]; what the engine installs is its own business, the call
    is recorded. *)
Definition bfd_session_apply (p : ptr) : M unit :=
  do _ <~ load_session p;
  called (Call_bfd_session_apply p).

(** Modelled from the spec: [bfd_profile_update] (bfd.c) is the engine's
    [profile_update(P)] notification. *)
Definition bfd_profile_update (p : ptr) : M unit :=
  do _ <~ load_profile p;
  called (Call_bfd_profile_update p).

(** ** Helpers of the source file *)

(** [strtosa] on a leaf that holds a parsed address. *)
Definition strtosa (a : sockaddr_any) : sockaddr_any := a.

Definition bfd_session_get_key (mhop : bool) (dnode : lyd_node) : bfd_key :=
  (* Required destination parameter. *)
  let psa := strtosa (dest_addr dnode) in
  (* Get optional source address. *)
  let lsa :=
    match source_addr dnode with
    | Some s => strtosa s
    | None => sockaddr_zero
    end in
  let ifname := interface dnode in
  let vrfname := vrf dnode in
  let ifname := if String.eqb ifname "*" then None else Some ifname in
  (* Generate the corresponding key. *)
  gen_bfd_key psa lsa mhop ifname vrfname.

(** [count] is a C [int]; it counts entries of one configuration list, far
    below the range of the type, so [count++] is plus one. *)
Record session_iter : Type := SessionIter {
  count : Z;
  wildcard : bool
}.

Definition session_iter_cb (dnode : lyd_node) (iter : session_iter)
    : yang_iter_ret * session_iter :=
  let ifname := interface dnode in
  let iter :=
    if String.eqb ifname "*"
    then {| count := count iter; wildcard := true |}
    else iter in
  let iter := {| count := count iter + 1; wildcard := wildcard iter |} in
  (YANG_ITER_CONTINUE, iter).

(** Modelled from the spec: [yang_dnode_iterate] (lib/yang.c) calls [cb] on
    the nodes an XPath selects, in document order, until one call does not
    return [YANG_ITER_CONTINUE]. *)
Fixpoint yang_dnode_iterate {A : Type}
    (cb : lyd_node -> A -> yang_iter_ret * A) (arg : A)
    (selected : list lyd_node) : A :=
  match selected with
  | [] => arg
  | dnode :: rest =>
      match cb dnode arg with
      | (YANG_ITER_CONTINUE, arg') => yang_dnode_iterate cb arg' rest
      | (YANG_ITER_STOP, arg') => arg'
      end
  end.

(** The nodes selected by
    [./single-hop[dest-addr='%s'][vrf='%s']] below [sessions]. *)
Definition select_single_hop (sessions : sessions_node)
    (dest : sockaddr_any) (vrfname : string) : list lyd_node :=
  filter (fun n => dest_addr n = dest ∧ vrf n = vrfname)
         (single_hop sessions).

(** The nodes selected by
    [./multi-hop[source-addr='%s'][dest-addr='%s'][vrf='%s']]. *)
Definition select_multi_hop (sessions : sessions_node)
    (source dest : sockaddr_any) (vrfname : string) : list lyd_node :=
  filter (fun n => source_addr n = Some source ∧ dest_addr n = dest
                   ∧ vrf n = vrfname)
         (multi_hop sessions).

Definition errmsg_link_local : string :=
  "When using link-local you must specify an interface".

Definition errmsg_wildcard : string :=
  "It is not allowed to configure the same peer with and without ifname".

(** [yang_dnode_get_prefix] on a leaf that holds a parsed address. *)
Definition yang_dnode_get_prefix (a : sockaddr_any) : sockaddr_any := a.

(** ** Session create and destroy *)

Definition bfd_session_create (args : nb_cb_create_args) (mhop : bool)
    : M (nb_error * nb_cb_create_args) :=
  let dnode := cr_dnode args in
  match cr_event args with
  | NB_EV_VALIDATE =>
      (* When dest-addr is IPv6 and link-local we must require interface
         name, otherwise we can't figure which interface to use to send
         the packets. *)
      let p := yang_dnode_get_prefix (dest_addr dnode) in
      let ifname := interface dnode in
      if bool_decide (sa_family p = AF_INET6)
         && IN6_IS_ADDR_LINKLOCAL (sa_addr p)
         && String.eqb ifname "*"
      then ret (NB_ERR_VALIDATION, set_errmsg errmsg_link_local args)
      else
        let iter := {| count := 0; wildcard := false |} in
        let sess_dnode := cr_sessions args in
        let dest := dest_addr dnode in
        let vrfname := vrf dnode in
        do iter <~
          (if mhop
           then
             do source <~ deref (source_addr dnode);
             ret (yang_dnode_iterate session_iter_cb iter
                    (select_multi_hop sess_dnode source dest vrfname))
           else
             ret (yang_dnode_iterate session_iter_cb iter
                    (select_single_hop sess_dnode dest vrfname)));
        if wildcard iter && (count iter >? 1)
        then ret (NB_ERR_VALIDATION, set_errmsg errmsg_wildcard args)
        else ret (NB_OK, args)

  | NB_EV_PREPARE =>
      let bk := bfd_session_get_key mhop dnode in
      do found <~ bfd_key_lookup bk;
      match found with
      | Some bs =>
          (* This session was already configured by another daemon.
             Now it is configured also by CLI. *)
          store_session bs
            (fun s => set_flags (SET_FLAG (flags s) BFD_SESS_FLAG_CONFIG) s) ;;
          store_session bs (fun s => set_refcount (refcount s + 1) s) ;;
          ret (NB_OK, set_resource (Some bs) args)
      | None =>
          do bs <~ bfd_session_new;
          (* Fill the session key. *)
          store_session bs (set_key (bfd_session_get_key mhop dnode)) ;;
          (* Set configuration flags. *)
          store_session bs (set_refcount 1) ;;
          store_session bs
            (fun s => set_flags (SET_FLAG (flags s) BFD_SESS_FLAG_CONFIG) s) ;;
          (if mhop
           then store_session bs
                  (fun s => set_flags (SET_FLAG (flags s) BFD_SESS_FLAG_MH) s)
           else ret tt) ;;
          do s <~ load_session bs;
          (if bool_decide (family (key s) = AF_INET6)
           then store_session bs
                  (fun s => set_flags (SET_FLAG (flags s) BFD_SESS_FLAG_IPV6) s)
           else ret tt) ;;
          ret (NB_OK, set_resource (Some bs) args)
      end

  | NB_EV_APPLY =>
      do bs <~ deref (cr_resource args);
      do s <~ load_session bs;
      (* Only attempt to registrate if freshly allocated. *)
      do refused <~
        (if my_discr s =? 0
         then do r <~ bs_registrate bs; ret (bool_decide (r = None))
         else ret false);
      if (refused : bool)
      then ret (NB_ERR_RESOURCE, args)
      else
        nb_running_set_entry (dn_xpath dnode) bs ;;
        ret (NB_OK, args)

  | NB_EV_ABORT =>
      do bs <~ deref (cr_resource args);
      do s <~ load_session bs;
      (if refcount s <=? 1 then bfd_session_free bs else ret tt) ;;
      ret (NB_OK, args)
  end.

Definition bfd_session_destroy (event : nb_event) (dnode : lyd_node)
    (mhop : bool) : M nb_error :=
  match event with
  | NB_EV_VALIDATE =>
      let bk := bfd_session_get_key mhop dnode in
      do found <~ bfd_key_lookup bk;
      match found with
      | None => ret NB_ERR_INCONSISTENCY
      | Some _ => ret NB_OK
      end

  | NB_EV_PREPARE =>
      (* NOTHING *)
      ret NB_OK

  | NB_EV_APPLY =>
      do bs <~ nb_running_unset_entry (dn_xpath dnode);
      do s <~ load_session bs;
      (* CLI is not using this session anymore. *)
      if CHECK_FLAG (flags s) BFD_SESS_FLAG_CONFIG =? 0
      then ret NB_OK
      else
        store_session bs
          (fun s => set_flags (UNSET_FLAG (flags s) BFD_SESS_FLAG_CONFIG) s) ;;
        store_session bs (fun s => set_refcount (refcount s - 1) s) ;;
        do s <~ load_session bs;
        (* There are still daemons using it. *)
        if refcount s >? 0
        then ret NB_OK
        else bfd_session_free bs ;; ret NB_OK

  | NB_EV_ABORT =>
      (* NOTHING *)
      ret NB_OK
  end.

(** Arguments of the modify and destroy callbacks: the event and the data
    node the change is about. *)
Record nb_cb_modify_args (A : Type) : Type := ModifyArgs {
  md_event : nb_event;
  md_dnode : lyd_leaf A
}.
Arguments ModifyArgs {A} _ _.
Arguments md_event {A} _.
Arguments md_dnode {A} _.

Record nb_cb_destroy_args (N : Type) : Type := DestroyArgs {
  ds_event : nb_event;
  ds_dnode : N
}.
Arguments DestroyArgs {N} _ _.
Arguments ds_event {N} _.
Arguments ds_dnode {N} _.

(** XPath: /frr-bfdd:bfdd/bfd/sessions/single-hop *)
Definition bfdd_bfd_sessions_single_hop_create (args : nb_cb_create_args)
    : M (nb_error * nb_cb_create_args) :=
  bfd_session_create args false.

Definition bfdd_bfd_sessions_single_hop_destroy
    (args : nb_cb_destroy_args lyd_node) : M nb_error :=
  bfd_session_destroy (ds_event args) (ds_dnode args) false.

(** XPath: /frr-bfdd:bfdd/bfd/sessions/multi-hop *)
Definition bfdd_bfd_sessions_multi_hop_create (args : nb_cb_create_args)
    : M (nb_error * nb_cb_create_args) :=
  bfd_session_create args true.

Definition bfdd_bfd_sessions_multi_hop_destroy
    (args : nb_cb_destroy_args lyd_node) : M nb_error :=
  bfd_session_destroy (ds_event args) (ds_dnode args) true.

(** XPath: /frr-bfdd:bfdd/bfd/sessions/single-hop/source-addr *)
Definition bfdd_bfd_sessions_single_hop_source_addr_modify
    (args : nb_cb_modify_args sockaddr_any) : M nb_error :=
  ret NB_OK.

Definition bfdd_bfd_sessions_single_hop_source_addr_destroy
    (args : nb_cb_destroy_args (lyd_leaf sockaddr_any)) : M nb_error :=
  ret NB_OK.

(** ** Profile fields *)

Definition set_detection_multiplier (v : Z) (bp : bfd_profile) : bfd_profile :=
  {| detection_multiplier := v; min_tx := min_tx bp; min_rx := min_rx bp;
     min_echo_rx := min_echo_rx bp; admin_shutdown := admin_shutdown bp;
     passive := passive bp; echo_mode := echo_mode bp;
     minimum_ttl := minimum_ttl bp |}.

Definition set_min_tx (v : Z) (bp : bfd_profile) : bfd_profile :=
  {| detection_multiplier := detection_multiplier bp; min_tx := v;
     min_rx := min_rx bp; min_echo_rx := min_echo_rx bp;
     admin_shutdown := admin_shutdown bp; passive := passive bp;
     echo_mode := echo_mode bp; minimum_ttl := minimum_ttl bp |}.

Definition set_min_rx (v : Z) (bp : bfd_profile) : bfd_profile :=
  {| detection_multiplier := detection_multiplier bp; min_tx := min_tx bp;
     min_rx := v; min_echo_rx := min_echo_rx bp;
     admin_shutdown := admin_shutdown bp; passive := passive bp;
     echo_mode := echo_mode bp; minimum_ttl := minimum_ttl bp |}.

Definition set_min_echo_rx (v : Z) (bp : bfd_profile) : bfd_profile :=
  {| detection_multiplier := detection_multiplier bp; min_tx := min_tx bp;
     min_rx := min_rx bp; min_echo_rx := v;
     admin_shutdown := admin_shutdown bp; passive := passive bp;
     echo_mode := echo_mode bp; minimum_ttl := minimum_ttl bp |}.

Definition set_admin_shutdown (v : bool) (bp : bfd_profile) : bfd_profile :=
  {| detection_multiplier := detection_multiplier bp; min_tx := min_tx bp;
     min_rx := min_rx bp; min_echo_rx := min_echo_rx bp;
     admin_shutdown := v; passive := passive bp;
     echo_mode := echo_mode bp; minimum_ttl := minimum_ttl bp |}.

Definition set_passive (v : bool) (bp : bfd_profile) : bfd_profile :=
  {| detection_multiplier := detection_multiplier bp; min_tx := min_tx bp;
     min_rx := min_rx bp; min_echo_rx := min_echo_rx bp;
     admin_shutdown := admin_shutdown bp; passive := v;
     echo_mode := echo_mode bp; minimum_ttl := minimum_ttl bp |}.

Definition set_echo_mode (v : bool) (bp : bfd_profile) : bfd_profile :=
  {| detection_multiplier := detection_multiplier bp; min_tx := min_tx bp;
     min_rx := min_rx bp; min_echo_rx := min_echo_rx bp;
     admin_shutdown := admin_shutdown bp; passive := passive bp;
     echo_mode := v; minimum_ttl := minimum_ttl bp |}.

Definition set_minimum_ttl (v : Z) (bp : bfd_profile) : bfd_profile :=
  {| detection_multiplier := detection_multiplier bp; min_tx := min_tx bp;
     min_rx := min_rx bp; min_echo_rx := min_echo_rx bp;
     admin_shutdown := admin_shutdown bp; passive := passive bp;
     echo_mode := echo_mode bp; minimum_ttl := v |}.

(** The typed readers of lib/yang_wrappers.c on a leaf. *)
Definition yang_dnode_get_uint8 (dnode : lyd_leaf Z) : Z := lf_value dnode.
Definition yang_dnode_get_uint32 (dnode : lyd_leaf Z) : Z := lf_value dnode.
Definition yang_dnode_get_bool (dnode : lyd_leaf bool) : bool := lf_value dnode.

(** ** Profile callbacks *)

(** XPath: /frr-bfdd:bfdd/bfd/profile/detection-multiplier *)
Definition bfdd_bfd_profile_detection_multiplier_modify
    (args : nb_cb_modify_args Z) : M nb_error :=
  match md_event args with
  | NB_EV_APPLY =>
      do bp <~ nb_running_get_entry (md_dnode args);
      store_profile bp
        (set_detection_multiplier (yang_dnode_get_uint8 (md_dnode args))) ;;
      bfd_profile_update bp ;;
      ret NB_OK
  | _ => ret NB_OK
  end.

(** XPath: /frr-bfdd:bfdd/bfd/profile/desired-transmission-interval *)
Definition bfdd_bfd_profile_desired_transmission_interval_modify
    (args : nb_cb_modify_args Z) : M nb_error :=
  match md_event args with
  | NB_EV_VALIDATE =>
      let min_tx := yang_dnode_get_uint32 (md_dnode args) in
      if (min_tx <? 10000) || (min_tx >? 60000000)
      then ret NB_ERR_VALIDATION
      else ret NB_OK
  | NB_EV_PREPARE =>
      (* NOTHING *)
      ret NB_OK
  | NB_EV_APPLY =>
      let min_tx' := yang_dnode_get_uint32 (md_dnode args) in
      do bp <~ nb_running_get_entry (md_dnode args);
      do p <~ load_profile bp;
      if min_tx p =? min_tx'
      then ret NB_OK
      else
        store_profile bp (set_min_tx min_tx') ;;
        bfd_profile_update bp ;;
        ret NB_OK
  | NB_EV_ABORT =>
      (* NOTHING *)
      ret NB_OK
  end.

(** XPath: /frr-bfdd:bfdd/bfd/profile/required-receive-interval *)
Definition bfdd_bfd_profile_required_receive_interval_modify
    (args : nb_cb_modify_args Z) : M nb_error :=
  match md_event args with
  | NB_EV_VALIDATE =>
      let min_rx := yang_dnode_get_uint32 (md_dnode args) in
      if (min_rx <? 10000) || (min_rx >? 60000000)
      then ret NB_ERR_VALIDATION
      else ret NB_OK
  | NB_EV_PREPARE =>
      (* NOTHING *)
      ret NB_OK
  | NB_EV_APPLY =>
      let min_rx' := yang_dnode_get_uint32 (md_dnode args) in
      do bp <~ nb_running_get_entry (md_dnode args);
      do p <~ load_profile bp;
      if min_rx p =? min_rx'
      then ret NB_OK
      else
        store_profile bp (set_min_rx min_rx') ;;
        bfd_profile_update bp ;;
        ret NB_OK
  | NB_EV_ABORT =>
      (* NOTHING *)
      ret NB_OK
  end.

(** XPath: /frr-bfdd:bfdd/bfd/profile/administrative-down *)
Definition bfdd_bfd_profile_administrative_down_modify
    (args : nb_cb_modify_args bool) : M nb_error :=
  match md_event args with
  | NB_EV_APPLY =>
      let shutdown := yang_dnode_get_bool (md_dnode args) in
      do bp <~ nb_running_get_entry (md_dnode args);
      do p <~ load_profile bp;
      if Bool.eqb (admin_shutdown p) shutdown
      then ret NB_OK
      else
        store_profile bp (set_admin_shutdown shutdown) ;;
        bfd_profile_update bp ;;
        ret NB_OK
  | _ => ret NB_OK
  end.

(** XPath: /frr-bfdd:bfdd/bfd/profile/passive-mode *)
Definition bfdd_bfd_profile_passive_mode_modify
    (args : nb_cb_modify_args bool) : M nb_error :=
  match md_event args with
  | NB_EV_APPLY =>
      let passive' := yang_dnode_get_bool (md_dnode args) in
      do bp <~ nb_running_get_entry (md_dnode args);
      do p <~ load_profile bp;
      if Bool.eqb (passive p) passive'
      then ret NB_OK
      else
        store_profile bp (set_passive passive') ;;
        bfd_profile_update bp ;;
        ret NB_OK
  | _ => ret NB_OK
  end.

(** XPath: /frr-bfdd:bfdd/bfd/profile/minimum-ttl *)
Definition bfdd_bfd_profile_minimum_ttl_modify
    (args : nb_cb_modify_args Z) : M nb_error :=
  match md_event args with
  | NB_EV_APPLY =>
      let minimum_ttl' := yang_dnode_get_uint8 (md_dnode args) in
      do bp <~ nb_running_get_entry (md_dnode args);
      do p <~ load_profile bp;
      if minimum_ttl p =? minimum_ttl'
      then ret NB_OK
      else
        store_profile bp (set_minimum_ttl minimum_ttl') ;;
        bfd_profile_update bp ;;
        ret NB_OK
  | _ => ret NB_OK
  end.

Definition bfdd_bfd_profile_minimum_ttl_destroy
    (args : nb_cb_destroy_args (lyd_leaf Z)) : M nb_error :=
  match ds_event args with
  | NB_EV_APPLY =>
      do bp <~ nb_running_get_entry (ds_dnode args);
      store_profile bp (set_minimum_ttl BFD_DEF_MHOP_TTL) ;;
      bfd_profile_update bp ;;
      ret NB_OK
  | _ => ret NB_OK
  end.

(** XPath: /frr-bfdd:bfdd/bfd/profile/echo-mode *)
Definition bfdd_bfd_profile_echo_mode_modify
    (args : nb_cb_modify_args bool) : M nb_error :=
  match md_event args with
  | NB_EV_APPLY =>
      let echo := yang_dnode_get_bool (md_dnode args) in
      do bp <~ nb_running_get_entry (md_dnode args);
      do p <~ load_profile bp;
      if Bool.eqb (echo_mode p) echo
      then ret NB_OK
      else
        store_profile bp (set_echo_mode echo) ;;
        bfd_profile_update bp ;;
        ret NB_OK
  | _ => ret NB_OK
  end.

(** XPath:
    /frr-bfdd:bfdd/bfd/profile/desired-echo-echo-transmission-interval *)
Definition bfdd_bfd_profile_desired_echo_transmission_interval_modify
    (args : nb_cb_modify_args Z) : M nb_error :=
  match md_event args with
  | NB_EV_VALIDATE =>
      let min_rx := yang_dnode_get_uint32 (md_dnode args) in
      if (min_rx <? 10000) || (min_rx >? 60000000)
      then ret NB_ERR_VALIDATION
      else ret NB_OK
  | NB_EV_PREPARE =>
      (* NOTHING *)
      ret NB_OK
  | NB_EV_APPLY =>
      let min_rx := yang_dnode_get_uint32 (md_dnode args) in
      do bp <~ nb_running_get_entry (md_dnode args);
      do p <~ load_profile bp;
      if min_echo_rx p =? min_rx
      then ret NB_OK
      else
        store_profile bp (set_min_echo_rx min_rx) ;;
        bfd_profile_update bp ;;
        ret NB_OK
  | NB_EV_ABORT =>
      (* NOTHING *)
      ret NB_OK
  end.

(** ** Session field callbacks *)

(** [bs->peer_profile.<field> = v] *)
Definition store_peer_profile (bs : ptr) (f : bfd_profile -> bfd_profile)
    : M unit :=
  store_session bs (fun s => set_peer_profile (f (peer_profile s)) s).

(** XPath: /frr-bfdd:bfdd/bfd/sessions/single-hop/detection-multiplier *)
Definition bfdd_bfd_sessions_single_hop_detection_multiplier_modify
    (args : nb_cb_modify_args Z) : M nb_error :=
  let detection_multiplier := yang_dnode_get_uint8 (md_dnode args) in
  match md_event args with
  | NB_EV_VALIDATE => ret NB_OK
  | NB_EV_PREPARE =>
      (* NOTHING *)
      ret NB_OK
  | NB_EV_APPLY =>
      do bs <~ nb_running_get_entry (md_dnode args);
      store_peer_profile bs (set_detection_multiplier detection_multiplier) ;;
      bfd_session_apply bs ;;
      ret NB_OK
  | NB_EV_ABORT =>
      (* NOTHING *)
      ret NB_OK
  end.

(** XPath:
    /frr-bfdd:bfdd/bfd/sessions/single-hop/desired-transmission-interval *)
Definition bfdd_bfd_sessions_single_hop_desired_transmission_interval_modify
    (args : nb_cb_modify_args Z) : M nb_error :=
  let tx_interval := yang_dnode_get_uint32 (md_dnode args) in
  match md_event args with
  | NB_EV_VALIDATE =>
      if (tx_interval <? 10000) || (tx_interval >? 60000000)
      then ret NB_ERR_VALIDATION
      else ret NB_OK
  | NB_EV_PREPARE =>
      (* NOTHING *)
      ret NB_OK
  | NB_EV_APPLY =>
      do bs <~ nb_running_get_entry (md_dnode args);
      do s <~ load_session bs;
      if tx_interval =? desired_min_tx (timers s)
      then ret NB_OK
      else
        store_peer_profile bs (set_min_tx tx_interval) ;;
        bfd_session_apply bs ;;
        ret NB_OK
  | NB_EV_ABORT =>
      (* NOTHING *)
      ret NB_OK
  end.

(** XPath:
    /frr-bfdd:bfdd/bfd/sessions/single-hop/required-receive-interval *)
Definition bfdd_bfd_sessions_single_hop_required_receive_interval_modify
    (args : nb_cb_modify_args Z) : M nb_error :=
  let rx_interval := yang_dnode_get_uint32 (md_dnode args) in
  match md_event args with
  | NB_EV_VALIDATE =>
      if (rx_interval <? 10000) || (rx_interval >? 60000000)
      then ret NB_ERR_VALIDATION
      else ret NB_OK
  | NB_EV_PREPARE =>
      (* NOTHING *)
      ret NB_OK
  | NB_EV_APPLY =>
      do bs <~ nb_running_get_entry (md_dnode args);
      do s <~ load_session bs;
      if rx_interval =? required_min_rx (timers s)
      then ret NB_OK
      else
        store_peer_profile bs (set_min_rx rx_interval) ;;
        bfd_session_apply bs ;;
        ret NB_OK
  | NB_EV_ABORT =>
      (* NOTHING *)
      ret NB_OK
  end.

(** XPath: /frr-bfdd:bfdd/bfd/sessions/single-hop/administrative-down *)
Definition bfdd_bfd_sessions_single_hop_administrative_down_modify
    (args : nb_cb_modify_args bool) : M nb_error :=
  let shutdown := yang_dnode_get_bool (md_dnode args) in
  match md_event args with
  | NB_EV_VALIDATE | NB_EV_PREPARE => ret NB_OK
  | NB_EV_ABORT => ret NB_OK
  | NB_EV_APPLY =>
      do bs <~ nb_running_get_entry (md_dnode args);
      store_peer_profile bs (set_admin_shutdown shutdown) ;;
      bfd_session_apply bs ;;
      ret NB_OK
  end.

(** XPath: /frr-bfdd:bfdd/bfd/sessions/single-hop/passive-mode *)
Definition bfdd_bfd_sessions_single_hop_passive_mode_modify
    (args : nb_cb_modify_args bool) : M nb_error :=
  match md_event args with
  | NB_EV_VALIDATE | NB_EV_PREPARE => ret NB_OK
  | NB_EV_ABORT => ret NB_OK
  | NB_EV_APPLY =>
      let passive := yang_dnode_get_bool (md_dnode args) in
      do bs <~ nb_running_get_entry (md_dnode args);
      store_peer_profile bs (set_passive passive) ;;
      bfd_session_apply bs ;;
      ret NB_OK
  end.

(** XPath: /frr-bfdd:bfdd/bfd/sessions/single-hop/echo-mode *)
Definition bfdd_bfd_sessions_single_hop_echo_mode_modify
    (args : nb_cb_modify_args bool) : M nb_error :=
  let echo := yang_dnode_get_bool (md_dnode args) in
  match md_event args with
  | NB_EV_VALIDATE | NB_EV_PREPARE => ret NB_OK
  | NB_EV_ABORT => ret NB_OK
  | NB_EV_APPLY =>
      do bs <~ nb_running_get_entry (md_dnode args);
      store_peer_profile bs (set_echo_mode echo) ;;
      bfd_session_apply bs ;;
      ret NB_OK
  end.

(** XPath: /frr-bfdd:bfdd/bfd/sessions/single-hop/
    desired-echo-transmission-interval *)
Definition bfdd_bfd_sessions_single_hop_desired_echo_transmission_interval_modify
    (args : nb_cb_modify_args Z) : M nb_error :=
  let echo_interval := yang_dnode_get_uint32 (md_dnode args) in
  match md_event args with
  | NB_EV_VALIDATE =>
      if (echo_interval <? 10000) || (echo_interval >? 60000000)
      then ret NB_ERR_VALIDATION
      else ret NB_OK
  | NB_EV_PREPARE =>
      (* NOTHING *)
      ret NB_OK
  | NB_EV_APPLY =>
      do bs <~ nb_running_get_entry (md_dnode args);
      do s <~ load_session bs;
      if echo_interval =? required_min_echo (timers s)
      then ret NB_OK
      else
        store_peer_profile bs (set_min_echo_rx echo_interval) ;;
        bfd_session_apply bs ;;
        ret NB_OK
  | NB_EV_ABORT =>
      (* NOTHING *)
      ret NB_OK
  end.

(** XPath: /frr-bfdd:bfdd/bfd/sessions/multi-hop/minimum-ttl *)
Definition bfdd_bfd_sessions_multi_hop_minimum_ttl_modify
    (args : nb_cb_modify_args Z) : M nb_error :=
  match md_event args with
  | NB_EV_VALIDATE | NB_EV_PREPARE => ret NB_OK
  | NB_EV_ABORT => ret NB_OK
  | NB_EV_APPLY =>
      do bs <~ nb_running_get_entry (md_dnode args);
      store_peer_profile bs
        (set_minimum_ttl (yang_dnode_get_uint8 (md_dnode args))) ;;
      bfd_session_apply bs ;;
      ret NB_OK
  end.

Definition bfdd_bfd_sessions_multi_hop_minimum_ttl_destroy
    (args : nb_cb_destroy_args (lyd_leaf Z)) : M nb_error :=
  match ds_event args with
  | NB_EV_VALIDATE | NB_EV_PREPARE => ret NB_OK
  | NB_EV_ABORT => ret NB_OK
  | NB_EV_APPLY =>
      do bs <~ nb_running_get_entry (ds_dnode args);
      store_peer_profile bs (set_minimum_ttl BFD_DEF_MHOP_TTL) ;;
      bfd_session_apply bs ;;
      ret NB_OK
  end.

(** * Specification vocabulary

    Definitions used to state the properties of the callbacks: views of
    a run, the checks of VALIDATE named apart, and concrete scenarios. *)

(** The engine calls made between two worlds of one run. *)
Definition calls_since (w w' : world) : list engine_call :=
  drop (length (w_calls w)) (w_calls w').

(** ** Interval range validation *)

(** The six callbacks that set an interval: three on a profile, three on a
    session. *)
Definition interval_modify_callbacks : list (nb_cb_modify_args Z -> M nb_error) :=
  [ bfdd_bfd_profile_desired_transmission_interval_modify;
    bfdd_bfd_profile_required_receive_interval_modify;
    bfdd_bfd_profile_desired_echo_transmission_interval_modify;
    bfdd_bfd_sessions_single_hop_desired_transmission_interval_modify;
    bfdd_bfd_sessions_single_hop_required_receive_interval_modify;
    bfdd_bfd_sessions_single_hop_desired_echo_transmission_interval_modify ].

(** The range check all six share. *)
Definition interval_verdict (v : Z) : nb_error :=
  if (v <? 10000) || (v >? 60000000) then NB_ERR_VALIDATION else NB_OK.

(** ** Validation of a session create *)

(** The first check of VALIDATE: an IPv6 link-local destination together
    with the wildcard interface. *)
Definition link_local_without_interface (dnode : lyd_node) : bool :=
  bool_decide (sa_family (dest_addr dnode) = AF_INET6)
  && IN6_IS_ADDR_LINKLOCAL (sa_addr (dest_addr dnode))
  && String.eqb (interface dnode) "*".

(** The entries that share (source-addr for multi-hop,) dest-addr and vrf
    with the node being created; a multi-hop node without its source-addr
    leaf has none to enumerate. *)
Definition session_siblings (args : nb_cb_create_args) (mhop : bool)
    : option (list lyd_node) :=
  let dnode := cr_dnode args in
  if mhop
  then match source_addr dnode with
       | Some source =>
           Some (select_multi_hop (cr_sessions args) source
                   (dest_addr dnode) (vrf dnode))
       | None => None
       end
  else Some (select_single_hop (cr_sessions args) (dest_addr dnode) (vrf dnode)).

Definition is_wildcard (n : lyd_node) : bool := String.eqb (interface n) "*".

(** The second check of VALIDATE on the enumerated siblings. *)
Definition wildcard_verdict (args : nb_cb_create_args) (sibs : list lyd_node)
    : nb_error * nb_cb_create_args :=
  if existsb is_wildcard sibs && (Z.of_nat (length sibs) >? 1)
  then (NB_ERR_VALIDATION, set_errmsg errmsg_wildcard args)
  else (NB_OK, args).


(** ** PREPARE of a session create *)

(** The flags PREPARE gives a session it allocates. *)
Definition new_session_flags (mhop : bool) (k : bfd_key) : Z :=
  let f := SET_FLAG 0 BFD_SESS_FLAG_CONFIG in
  let f := if mhop then SET_FLAG f BFD_SESS_FLAG_MH else f in
  if bool_decide (family k = AF_INET6) then SET_FLAG f BFD_SESS_FLAG_IPV6 else f.

(** The session PREPARE leaves behind when it allocates. *)
Definition new_session (mhop : bool) (k : bfd_key) : bfd_session :=
  {| key := k; flags := new_session_flags mhop k; refcount := 1;
     peer_profile := bfd_profile_zero; timers := BfdTimers 0 0 0;
     my_discr := 0 |}.

(** The session PREPARE leaves behind when it adopts [s]. *)
Definition adopted_session (s : bfd_session) : bfd_session :=
  set_refcount (refcount s + 1)
    (set_flags (SET_FLAG (flags s) BFD_SESS_FLAG_CONFIG) s).

(** The canonical key of a node, written out component by component. *)
Definition canonical_key (mhop : bool) (dnode : lyd_node) : bfd_key :=
  {| family := sa_family (dest_addr dnode);
     peer := sa_addr (dest_addr dnode);
     local := match source_addr dnode with
              | Some source => sa_addr source
              | None => 0
              end;
     mhop := mhop;
     ifname := if decide (interface dnode = "*") then None
               else Some (interface dnode);
     vrfname := vrf dnode |}.

(** ** Committed changes *)

(** Modelled from the spec: the transaction engine of lib/northbound.c
    (section 4.4), for a candidate that holds one create: the change goes
    through VALIDATE, PREPARE and APPLY in this order, the resource slot
    filled by PREPARE is handed to APPLY, and the first phase that does not
    return [NB_OK] ends the run with its error.  The change is committed
    when the run returns [NB_OK]; what the host does after a failure is not
    part of this run. *)
Definition nb_commit_create
    (cb : nb_cb_create_args -> M (nb_error * nb_cb_create_args))
    (dnode : lyd_node) (sessions : sessions_node) : M nb_error :=
  do v <~ cb (CreateArgs NB_EV_VALIDATE dnode sessions None "");
  match fst v with
  | NB_OK =>
      do pr <~ cb (CreateArgs NB_EV_PREPARE dnode sessions None "");
      match fst pr with
      | NB_OK =>
          do ap <~ cb (CreateArgs NB_EV_APPLY dnode sessions
                         (cr_resource (snd pr)) "");
          ret (fst ap)
      | e => ret e
      end
  | e => ret e
  end.

(** Modelled from the spec: the same run for a candidate that holds one
    destroy. *)
Definition nb_commit_destroy
    (cb : nb_cb_destroy_args lyd_node -> M nb_error) (dnode : lyd_node)
    : M nb_error :=
  do v <~ cb (DestroyArgs NB_EV_VALIDATE dnode);
  match v with
  | NB_OK =>
      do pr <~ cb (DestroyArgs NB_EV_PREPARE dnode);
      match pr with
      | NB_OK => cb (DestroyArgs NB_EV_APPLY dnode)
      | e => ret e
      end
  | e => ret e
  end.

(** The session destroy's APPLY leaves behind when it gives up the
    configuration's reference on [s]. *)
Definition released_session (s : bfd_session) : bfd_session :=
  set_refcount (refcount s - 1)
    (set_flags (UNSET_FLAG (flags s) BFD_SESS_FLAG_CONFIG) s).

(** ** Scalar fields *)

(** The world after a profile field was assigned and the engine told. *)
Definition profile_updated (bp : ptr) (p' : bfd_profile) (w : world) : world :=
  with_calls (fun l => l ++ [Call_bfd_profile_update bp])
    (with_profiles (insert bp p') w).

(** The world after a field of a session's [peer_profile] was assigned and
    the session re-applied. *)
Definition session_applied (bs : ptr) (s : bfd_session)
    (pp : bfd_profile) (w : world) : world :=
  with_calls (fun l => l ++ [Call_bfd_session_apply bs])
    (with_sessions (insert bs (set_peer_profile pp s)) w).

(** ** The scalar callbacks, grouped by the type of their leaf *)

(** XPath: /frr-bfdd:bfdd/bfd *)
Definition bfdd_bfd_create (args : nb_cb_create_args) : M nb_error :=
  (* NOTHING *)
  ret NB_OK.

(** The modify callbacks of the integer leaves of a profile and of a
    session.  A session has two more leaves, profile and source-addr, whose
    values are a name and an address: their callbacks are not in these
    lists. *)
Definition profile_modify_callbacks_Z
    : list (nb_cb_modify_args Z -> M nb_error) :=
  [ bfdd_bfd_profile_detection_multiplier_modify;
    bfdd_bfd_profile_desired_transmission_interval_modify;
    bfdd_bfd_profile_required_receive_interval_modify;
    bfdd_bfd_profile_minimum_ttl_modify;
    bfdd_bfd_profile_desired_echo_transmission_interval_modify ].

Definition session_modify_callbacks_Z
    : list (nb_cb_modify_args Z -> M nb_error) :=
  [ bfdd_bfd_sessions_single_hop_detection_multiplier_modify;
    bfdd_bfd_sessions_single_hop_desired_transmission_interval_modify;
    bfdd_bfd_sessions_single_hop_required_receive_interval_modify;
    bfdd_bfd_sessions_single_hop_desired_echo_transmission_interval_modify;
    bfdd_bfd_sessions_multi_hop_minimum_ttl_modify ].

(** The modify callbacks of the boolean leaves. *)
Definition profile_modify_callbacks_bool
    : list (nb_cb_modify_args bool -> M nb_error) :=
  [ bfdd_bfd_profile_administrative_down_modify;
    bfdd_bfd_profile_passive_mode_modify;
    bfdd_bfd_profile_echo_mode_modify ].

Definition session_modify_callbacks_bool
    : list (nb_cb_modify_args bool -> M nb_error) :=
  [ bfdd_bfd_sessions_single_hop_administrative_down_modify;
    bfdd_bfd_sessions_single_hop_passive_mode_modify;
    bfdd_bfd_sessions_single_hop_echo_mode_modify ].

(** The destroy callbacks of the minimum-ttl leaves. *)
Definition minimum_ttl_destroy_callbacks
    : list (nb_cb_destroy_args (lyd_leaf Z) -> M nb_error) :=
  [ bfdd_bfd_profile_minimum_ttl_destroy;
    bfdd_bfd_sessions_multi_hop_minimum_ttl_destroy ].

(** Modelled from the spec: the transaction engine of lib/northbound.c
    (section 4.4) for a candidate that holds one modify: VALIDATE, PREPARE
    and APPLY in this order, stopping at the first phase that does not
    return [NB_OK]. *)
Definition nb_commit_modify {A : Type}
    (cb : nb_cb_modify_args A -> M nb_error) (dnode : lyd_leaf A)
    : M nb_error :=
  do v <~ cb (ModifyArgs NB_EV_VALIDATE dnode);
  match v with
  | NB_OK =>
      do pr <~ cb (ModifyArgs NB_EV_PREPARE dnode);
      match pr with
      | NB_OK => cb (ModifyArgs NB_EV_APPLY dnode)
      | e => ret e
      end
  | e => ret e
  end.

(** The three intervals of a parameter block lie in the configurable
    range. *)
Definition intervals_in_range (p : bfd_profile) : Prop :=
  10000 <= min_tx p <= 60000000
  /\ 10000 <= min_rx p <= 60000000
  /\ 10000 <= min_echo_rx p <= 60000000.

(** The engine's next answer to a registration is a refusal. *)
Definition engine_refuses (w : world) : bool :=
  match w_discrs w with
  | Some _ :: _ => false
  | _ => true
  end.

(** The profile setters that compare before they assign: all but
    detection-multiplier. *)
Definition comparing_profile_callbacks_Z
    : list (nb_cb_modify_args Z -> M nb_error) :=
  [ bfdd_bfd_profile_desired_transmission_interval_modify;
    bfdd_bfd_profile_required_receive_interval_modify;
    bfdd_bfd_profile_minimum_ttl_modify;
    bfdd_bfd_profile_desired_echo_transmission_interval_modify ].

(** The interval setters of a profile and of a session, each with the
    field of the parameter block it assigns. *)
Definition profile_interval_callbacks
    : list ((nb_cb_modify_args Z -> M nb_error) * (bfd_profile -> Z)) :=
  [ (bfdd_bfd_profile_desired_transmission_interval_modify, min_tx);
    (bfdd_bfd_profile_required_receive_interval_modify, min_rx);
    (bfdd_bfd_profile_desired_echo_transmission_interval_modify, min_echo_rx) ].

Definition session_interval_callbacks
    : list ((nb_cb_modify_args Z -> M nb_error) * (bfd_profile -> Z)) :=
  [ (bfdd_bfd_sessions_single_hop_desired_transmission_interval_modify, min_tx);
    (bfdd_bfd_sessions_single_hop_required_receive_interval_modify, min_rx);
    (bfdd_bfd_sessions_single_hop_desired_echo_transmission_interval_modify,
     min_echo_rx) ].

(** ** The peer group of a session entry *)

(** The list of the candidate tree a create enumerates: the multi-hop
    entries for a multi-hop create, the single-hop entries otherwise. *)
Definition session_entries (mhop : bool) (sessions : sessions_node)
    : list lyd_node :=
  if mhop then multi_hop sessions else single_hop sessions.

(** The entry [n] is configured for the same peer as [dnode]: same
    dest-addr, same vrf and, between multi-hop entries, same source-addr. *)
Definition same_peer (mhop : bool) (dnode n : lyd_node) : Prop :=
  dest_addr n = dest_addr dnode
  /\ vrf n = vrf dnode
  /\ (mhop = true -> source_addr n = source_addr dnode).

#[global] Instance same_peer_dec (mhop : bool) (dnode n : lyd_node)
  : Decision (same_peer mhop dnode n).
Proof. unfold same_peer. apply _. Defined.

(** The entries of [l] configured for the same peer as [dnode], in the
    order of [l]. *)
Fixpoint peer_group (mhop : bool) (dnode : lyd_node) (l : list lyd_node)
    : list lyd_node :=
  match l with
  | [] => []
  | n :: rest =>
      if decide (same_peer mhop dnode n)
      then n :: peer_group mhop dnode rest
      else peer_group mhop dnode rest
  end.

(** ** Callbacks that only call the engine *)

(** A profile list entry: its path and its key leaf ./name. *)
Record profile_node : Type := ProfileNode {
  pn_xpath : xpath;
  pn_name : string
}.

(** [struct nb_cb_create_args] as the profile create reads it: the phase
    and the profile list entry. *)
Record nb_cb_profile_create_args : Type := ProfileCreateArgs {
  pc_event : nb_event;
  pc_dnode : profile_node
}.

Definition yang_dnode_get_string (dnode : lyd_leaf string) : string :=
  lf_value dnode.

Section Engine.

(** The functions of bfd.c these callbacks call are not part of the
    sources: the callbacks are given for any of them. *)
Variable bfd_sessions_remove_manual : M unit.
Variable bfd_profile_new : string -> M ptr.
Variable bfd_profile_free : ptr -> M unit.
Variable bfd_profile_apply : string -> ptr -> M unit.
Variable bfd_profile_remove : ptr -> M unit.

(** XPath: /frr-bfdd:bfdd/bfd *)
Definition bfdd_bfd_destroy {N : Type} (args : nb_cb_destroy_args N)
    : M nb_error :=
  match ds_event args with
  | NB_EV_VALIDATE =>
      (* NOTHING *)
      ret NB_OK
  | NB_EV_PREPARE =>
      (* NOTHING *)
      ret NB_OK
  | NB_EV_APPLY =>
      bfd_sessions_remove_manual ;;
      ret NB_OK
  | NB_EV_ABORT =>
      (* NOTHING *)
      ret NB_OK
  end.

(** XPath: /frr-bfdd:bfdd/bfd/profile *)
Definition bfdd_bfd_profile_create (args : nb_cb_profile_create_args)
    : M nb_error :=
  match pc_event args with
  | NB_EV_APPLY =>
      let name := pn_name (pc_dnode args) in
      do bp <~ bfd_profile_new name;
      nb_running_set_entry (pn_xpath (pc_dnode args)) bp ;;
      ret NB_OK
  | _ => ret NB_OK
  end.

Definition bfdd_bfd_profile_destroy (args : nb_cb_destroy_args profile_node)
    : M nb_error :=
  match ds_event args with
  | NB_EV_APPLY =>
      do bp <~ nb_running_unset_entry (pn_xpath (ds_dnode args));
      bfd_profile_free bp ;;
      ret NB_OK
  | _ => ret NB_OK
  end.

(** XPath: /frr-bfdd:bfdd/bfd/sessions/single-hop/profile *)
Definition bfdd_bfd_sessions_single_hop_profile_modify
    (args : nb_cb_modify_args string) : M nb_error :=
  match md_event args with
  | NB_EV_APPLY =>
      do bs <~ nb_running_get_entry (md_dnode args);
      bfd_profile_apply (yang_dnode_get_string (md_dnode args)) bs ;;
      ret NB_OK
  | _ => ret NB_OK
  end.

Definition bfdd_bfd_sessions_single_hop_profile_destroy
    (args : nb_cb_destroy_args (lyd_leaf string)) : M nb_error :=
  match ds_event args with
  | NB_EV_APPLY =>
      do bs <~ nb_running_get_entry (ds_dnode args);
      bfd_profile_remove bs ;;
      ret NB_OK
  | _ => ret NB_OK
  end.

End Engine.
(** ** Scenarios *)

Module Scenario.

Definition world_empty : world :=
  {| w_sessions := ∅; w_profiles := ∅; w_key_hash := ∅; w_running := ∅;
     w_discrs := []; w_calls := [] |}.

(** 10.0.0.1 and fe80::1 *)
Definition addr_10_0_0_1 : sockaddr_any := Sockaddr AF_INET 167772161.
Definition addr_fe80_1 : sockaddr_any :=
  Sockaddr AF_INET6 (Z.shiftl 65152 112 + 1).

Definition sh_wild : lyd_node :=
  LydNode "single-hop[10.0.0.1][*][default]" addr_10_0_0_1 None "*" "default".

Definition sh_eth0 : lyd_node :=
  LydNode "single-hop[10.0.0.1][eth0][default]" addr_10_0_0_1 None "eth0"
          "default".

Definition sh_ll_wild : lyd_node :=
  LydNode "single-hop[fe80::1][*][default]" addr_fe80_1 None "*" "default".

Definition sh_ll_eth0 : lyd_node :=
  LydNode "single-hop[fe80::1][eth0][default]" addr_fe80_1 None "eth0"
          "default".

Definition create_args (event : nb_event) (dnode : lyd_node)
    (siblings : list lyd_node) (resource : option ptr) : nb_cb_create_args :=
  {| cr_event := event; cr_dnode := dnode;
     cr_sessions := SessionsNode siblings [];
     cr_resource := resource; cr_errmsg := "" |}.

(** A session the engine discovered on its own for the peer of [sh_wild]:
    registered, one owner, not configured. *)
Definition engine_session : bfd_session :=
  {| key := bfd_session_get_key false sh_wild; flags := 0; refcount := 1;
     peer_profile := bfd_profile_zero; timers := BfdTimers 0 0 0;
     my_discr := 7 |}.

Definition world_engine_owned : world :=
  {| w_sessions := {[ 1%positive := engine_session ]};
     w_profiles := ∅;
     w_key_hash := {[ bfd_session_get_key false sh_wild := 1%positive ]};
     w_running := ∅; w_discrs := [Some 8]; w_calls := [] |}.

(** A session as PREPARE allocates it for [sh_wild], not yet registered;
    the engine will answer the next registration with discriminator 8, or
    refuse it. *)
Definition prepared_session : bfd_session :=
  {| key := bfd_session_get_key false sh_wild;
     flags := BFD_SESS_FLAG_CONFIG; refcount := 1;
     peer_profile := bfd_profile_zero; timers := BfdTimers 0 0 0;
     my_discr := 0 |}.

Definition world_prepared (answers : list (option Z)) : world :=
  {| w_sessions := {[ 1%positive := prepared_session ]};
     w_profiles := ∅; w_key_hash := ∅; w_running := ∅;
     w_discrs := answers;
     w_calls := [Call_bfd_session_new 1%positive] |}.

(** A profile named fast, bound to its list entry. *)
Definition profile_fast : bfd_profile :=
  {| detection_multiplier := 3; min_tx := 300000; min_rx := 300000;
     min_echo_rx := 50000; admin_shutdown := false; passive := false;
     echo_mode := false; minimum_ttl := 254 |}.

Definition world_profile : world :=
  {| w_sessions := ∅;
     w_profiles := {[ 2%positive := profile_fast ]};
     w_key_hash := ∅;
     w_running := {[ "profile[fast]" := 2%positive ]};
     w_discrs := []; w_calls := [] |}.

(** A leaf of the profile fast. *)
Definition profile_leaf {A : Type} (name : string) (v : A) : lyd_leaf A :=
  LydLeaf ["profile[fast]/" +:+ name; "profile[fast]"] v.

(** A configured, registered session for [sh_wild] whose installed timers
    and whose [peer_profile] agree, bound to its list entry. *)
Definition configured_session : bfd_session :=
  {| key := bfd_session_get_key false sh_wild;
     flags := BFD_SESS_FLAG_CONFIG; refcount := 1;
     peer_profile := profile_fast;
     timers := BfdTimers 300000 300000 50000;
     my_discr := 7 |}.

Definition world_configured : world :=
  {| w_sessions := {[ 1%positive := configured_session ]};
     w_profiles := ∅;
     w_key_hash := {[ bfd_session_get_key false sh_wild := 1%positive ]};
     w_running := {[ dn_xpath sh_wild := 1%positive ]};
     w_discrs := []; w_calls := [] |}.

(** A leaf of the session entry [sh_wild]. *)
Definition session_leaf {A : Type} (name : string) (v : A) : lyd_leaf A :=
  LydLeaf [dn_xpath sh_wild +:+ "/" +:+ name; dn_xpath sh_wild] v.

End Scenario.

(** A candidate tree with several peers, single-hop and multi-hop. *)
Module Peers.

(** 10.0.0.2, 10.0.0.8 and 10.0.0.9 *)
Definition addr_10_0_0_2 : sockaddr_any := Sockaddr AF_INET 167772162.
Definition addr_10_0_0_8 : sockaddr_any := Sockaddr AF_INET 167772168.
Definition addr_10_0_0_9 : sockaddr_any := Sockaddr AF_INET 167772169.

(** Another peer, and the peer of [Scenario.sh_wild] in another vrf, both
    with the wildcard interface. *)
Definition sh_other_wild : lyd_node :=
  LydNode "single-hop[10.0.0.2][*][default]" addr_10_0_0_2 None "*" "default".

Definition sh_wild_red : lyd_node :=
  LydNode "single-hop[10.0.0.1][*][red]" Scenario.addr_10_0_0_1 None "*" "red".

(** The multi-hop peer 10.0.0.1 reached from 10.0.0.9, with and without
    interface, and the same destination reached from 10.0.0.8. *)
Definition mh_wild : lyd_node :=
  LydNode "multi-hop[10.0.0.9][10.0.0.1][*][default]" Scenario.addr_10_0_0_1
          (Some addr_10_0_0_9) "*" "default".

Definition mh_eth0 : lyd_node :=
  LydNode "multi-hop[10.0.0.9][10.0.0.1][eth0][default]"
          Scenario.addr_10_0_0_1 (Some addr_10_0_0_9) "eth0" "default".

Definition mh_other_source : lyd_node :=
  LydNode "multi-hop[10.0.0.8][10.0.0.1][eth1][default]"
          Scenario.addr_10_0_0_1 (Some addr_10_0_0_8) "eth1" "default".

(** VALIDATE of the create of [dnode] in the tree that holds the given
    single-hop and multi-hop entries. *)
Definition validate_args (dnode : lyd_node)
    (single multi : list lyd_node) : nb_cb_create_args :=
  {| cr_event := NB_EV_VALIDATE; cr_dnode := dnode;
     cr_sessions := SessionsNode single multi;
     cr_resource := None; cr_errmsg := "" |}.

End Peers.

(** * Properties of the callbacks *)

(** ** Reasoning about runs *)

(** Unfold the plumbing of [M] and of the heap accessors. *)
Ltac unfold_M :=
  cbv beta iota delta
    [bind ret gets modify crash deref called load_session store_session
     load_profile store_profile store_peer_profile].

Lemma bind_Some {A B : Type} (m : M A) (k : A -> M B) (w w' : world) (a : A) :
  m w = Some (a, w') -> bind m k w = k a w'.
Proof. unfold bind. intros ->. reflexivity. Qed.

Lemma load_session_run (p : ptr) (w : world) (s : bfd_session) :
  w_sessions w !! p = Some s -> load_session p w = Some (s, w).
Proof. intros H. unfold_M. rewrite H. reflexivity. Qed.

Lemma store_session_run (p : ptr) (f : bfd_session -> bfd_session)
    (w : world) (s : bfd_session) :
  w_sessions w !! p = Some s ->
  store_session p f w = Some (tt, with_sessions (insert p (f s)) w).
Proof. intros H. unfold_M. rewrite H. reflexivity. Qed.

Lemma load_profile_run (p : ptr) (w : world) (bp : bfd_profile) :
  w_profiles w !! p = Some bp -> load_profile p w = Some (bp, w).
Proof. intros H. unfold_M. rewrite H. reflexivity. Qed.

Lemma store_profile_run (p : ptr) (f : bfd_profile -> bfd_profile)
    (w : world) (bp : bfd_profile) :
  w_profiles w !! p = Some bp ->
  store_profile p f w = Some (tt, with_profiles (insert p (f bp)) w).
Proof. intros H. unfold_M. rewrite H. reflexivity. Qed.

(** Resolve a heap lookup in a world built by the [with_] updates. *)
Ltac lookup_now :=
  cbn [w_sessions w_profiles w_key_hash w_running w_discrs w_calls
       with_sessions with_profiles with_key_hash with_running with_discrs
       with_calls];
  first [ eassumption | apply lookup_insert_eq
        | rewrite lookup_insert_ne by congruence; eassumption ].

(** Run the next load or store of a sequence. *)
Ltac run_step :=
  first
    [ erewrite bind_Some by (apply store_session_run; lookup_now)
    | erewrite bind_Some by (apply load_session_run; lookup_now)
    | erewrite bind_Some by (apply store_profile_run; lookup_now)
    | erewrite bind_Some by (apply load_profile_run; lookup_now) ].

Ltac run := repeat (cbv beta iota; run_step); cbv beta iota.

Lemma calls_since_refl w : calls_since w w = [].
Proof. unfold calls_since. apply drop_all. Qed.

Lemma calls_since_app w w' l :
  w_calls w' = w_calls w ++ l -> calls_since w w' = l.
Proof. unfold calls_since. intros ->. apply drop_app_length. Qed.


Lemma calls_since_same w w' :
  w_calls w' = w_calls w -> calls_since w w' = [].
Proof. unfold calls_since. intros ->. apply drop_all. Qed.

Lemma nb_running_get_entry_run {A : Type} (dnode : lyd_leaf A) (w : world)
    (p : ptr) :
  running_find (w_running w) (lf_xpaths dnode) = Some p ->
  nb_running_get_entry dnode w = Some (p, w).
Proof.
  intros H. unfold nb_running_get_entry. unfold_M. rewrite H. reflexivity.
Qed.

Lemma bfd_profile_update_run (p : ptr) (w : world) (bp : bfd_profile) :
  w_profiles w !! p = Some bp ->
  bfd_profile_update p w
  = Some (tt, with_calls (fun l => l ++ [Call_bfd_profile_update p]) w).
Proof. intros H. unfold bfd_profile_update. run. reflexivity. Qed.

Lemma bfd_session_apply_run (p : ptr) (w : world) (s : bfd_session) :
  w_sessions w !! p = Some s ->
  bfd_session_apply p w
  = Some (tt, with_calls (fun l => l ++ [Call_bfd_session_apply p]) w).
Proof. intros H. unfold bfd_session_apply. run. reflexivity. Qed.

Lemma bfd_session_free_run (p : ptr) (w : world) (s : bfd_session) :
  w_sessions w !! p = Some s ->
  bfd_session_free p w
  = Some (tt,
          with_calls (fun l => l ++ [Call_bfd_session_free p])
            (with_sessions (delete p)
               (with_key_hash
                  (fun h => if decide (h !! key s = Some p)
                            then delete (key s) h else h)
                  w))).
Proof. intros Hs. unfold bfd_session_free. run. reflexivity. Qed.
(** ** Source address callbacks *)

(** C10: for every argument (every phase, every data node) and every world,
    the single-hop source-addr modify and destroy callbacks return [NB_OK]
    and leave the world as it is: no session, profile, registry entry or
    running entry changes and no engine function is called. *)
Theorem source_addr_callbacks_change_nothing :
  forall (margs : nb_cb_modify_args sockaddr_any)
         (dargs : nb_cb_destroy_args (lyd_leaf sockaddr_any)) (w : world),
    bfdd_bfd_sessions_single_hop_source_addr_modify margs w = Some (NB_OK, w)
    /\ bfdd_bfd_sessions_single_hop_source_addr_destroy dargs w = Some (NB_OK, w)
    /\ calls_since w w = [].
Proof.
  intros margs dargs w. split; [|split].
  - reflexivity.
  - reflexivity.
  - apply calls_since_refl.
Qed.

(** ** Interval range validation *)

Lemma interval_verdict_error v :
  interval_verdict v = NB_ERR_VALIDATION <-> v < 10000 \/ 60000000 < v.
Proof.
  unfold interval_verdict.
  destruct (Z.ltb_spec v 10000), (Z.gtb_spec v 60000000); simpl;
    split; intros; try discriminate; try lia; auto.
Qed.

Lemma interval_verdict_ok v :
  interval_verdict v = NB_OK <-> 10000 <= v <= 60000000.
Proof.
  unfold interval_verdict.
  destruct (Z.ltb_spec v 10000), (Z.gtb_spec v 60000000); simpl;
    split; intros; try discriminate; try lia; auto.
Qed.

(** C6: for each of the six interval callbacks, every leaf and every world,
    VALIDATE returns, changes nothing, and its result is
    [NB_ERR_VALIDATION] exactly when the value is below 10000 or above
    60000000 and [NB_OK] exactly when it lies in [10000, 60000000]; the two
    bounds themselves are accepted. *)
Theorem interval_validate_range :
  Forall (fun cb : nb_cb_modify_args Z -> M nb_error =>
            forall (dnode : lyd_leaf Z) (w : world),
              cb (ModifyArgs NB_EV_VALIDATE dnode) w
                = Some (interval_verdict (lf_value dnode), w)
              /\ (interval_verdict (lf_value dnode) = NB_ERR_VALIDATION
                  <-> lf_value dnode < 10000 \/ 60000000 < lf_value dnode)
              /\ (interval_verdict (lf_value dnode) = NB_OK
                  <-> 10000 <= lf_value dnode <= 60000000))
         interval_modify_callbacks
  /\ interval_verdict 10000 = NB_OK
  /\ interval_verdict 60000000 = NB_OK
  /\ interval_verdict 9999 = NB_ERR_VALIDATION
  /\ interval_verdict 60000001 = NB_ERR_VALIDATION.
Proof.
  split; [|repeat split; reflexivity].
  unfold interval_modify_callbacks.
  repeat match goal with |- Forall _ _ => constructor end;
    intros dnode w;
    (split; [|split; [apply interval_verdict_error|apply interval_verdict_ok]]);
    cbn; unfold interval_verdict, yang_dnode_get_uint32;
    destruct ((lf_value dnode <? 10000) || (lf_value dnode >? 60000000));
    reflexivity.
Qed.

(** ** Validation of a session create *)

Lemma session_iter_cb_iterate (sibs : list lyd_node) (iter : session_iter) :
  yang_dnode_iterate session_iter_cb iter sibs
  = {| count := count iter + Z.of_nat (length sibs);
       wildcard := wildcard iter || existsb is_wildcard sibs |}.
Proof.
  revert iter. induction sibs as [|n sibs IH]; intros iter.
  - destruct iter as [c wc]. cbn. f_equal; [lia | apply eq_sym, orb_false_r].
  - cbn [yang_dnode_iterate existsb length]. unfold session_iter_cb, is_wildcard at 1.
    destruct (String.eqb (interface n) "*"); rewrite IH; cbn [count wildcard];
      f_equal; try lia; by destruct (wildcard iter).
Qed.

(** VALIDATE of a create, phase by phase of the source. *)
Lemma bfd_session_create_validate (args : nb_cb_create_args) (mhop : bool)
    (w : world) :
  cr_event args = NB_EV_VALIDATE ->
  bfd_session_create args mhop w
  = if link_local_without_interface (cr_dnode args)
    then Some ((NB_ERR_VALIDATION, set_errmsg errmsg_link_local args), w)
    else match session_siblings args mhop with
         | Some sibs => Some (wildcard_verdict args sibs, w)
         | None => None
         end.
Proof.
  intros Hev. unfold bfd_session_create. rewrite Hev.
  unfold link_local_without_interface, yang_dnode_get_prefix.
  destruct (bool_decide _ && _ && _); [reflexivity|].
  unfold session_siblings, wildcard_verdict.
  destruct mhop.
  - destruct (source_addr (cr_dnode args)) as [source|]; [|reflexivity].
    unfold_M. cbn. rewrite session_iter_cb_iterate. cbn.
    destruct (existsb _ _ && _); reflexivity.
  - unfold_M. cbn. rewrite session_iter_cb_iterate. cbn.
    destruct (existsb _ _ && _); reflexivity.
Qed.

(** The code's selection of the siblings is the peer group of the node. *)
Lemma select_single_hop_peer_group (sessions : sessions_node)
    (dnode : lyd_node) :
  select_single_hop sessions (dest_addr dnode) (vrf dnode)
  = peer_group false dnode (single_hop sessions).
Proof.
  unfold select_single_hop.
  induction (single_hop sessions) as [|n l IH]; [reflexivity|].
  rewrite filter_cons, IH. cbn [peer_group].
  destruct (decide (dest_addr n = dest_addr dnode /\ vrf n = vrf dnode))
    as [[Hd Hv]|Hno];
    destruct (decide (same_peer false dnode n)) as [Hp|Hp];
    try reflexivity; exfalso.
  - apply Hp. repeat split; [exact Hd | exact Hv | discriminate].
  - apply Hno. destruct Hp as (Hd & Hv & _). split; assumption.
Qed.

Lemma select_multi_hop_peer_group (sessions : sessions_node)
    (dnode : lyd_node) (source : sockaddr_any) :
  source_addr dnode = Some source ->
  select_multi_hop sessions source (dest_addr dnode) (vrf dnode)
  = peer_group true dnode (multi_hop sessions).
Proof.
  intros Hsrc. unfold select_multi_hop.
  induction (multi_hop sessions) as [|n l IH]; [reflexivity|].
  rewrite filter_cons, IH. cbn [peer_group].
  destruct (decide (source_addr n = Some source /\ dest_addr n = dest_addr dnode
                    /\ vrf n = vrf dnode)) as [(Hs & Hd & Hv)|Hno];
    destruct (decide (same_peer true dnode n)) as [Hp|Hp];
    try reflexivity; exfalso.
  - apply Hp. repeat split; [exact Hd | exact Hv |].
    intros _. rewrite Hs, Hsrc. reflexivity.
  - apply Hno. destruct Hp as (Hd & Hv & Hs).
    repeat split; [|exact Hd | exact Hv].
    rewrite (Hs eq_refl). exact Hsrc.
Qed.

Lemma session_siblings_peer_group (args : nb_cb_create_args) (mhop : bool) :
  (mhop = true -> source_addr (cr_dnode args) <> None) ->
  session_siblings args mhop
  = Some (peer_group mhop (cr_dnode args)
            (session_entries mhop (cr_sessions args))).
Proof.
  intros Hsrc. unfold session_siblings, session_entries.
  destruct mhop.
  - destruct (source_addr (cr_dnode args)) as [source|] eqn:Hs;
      [|exfalso; apply (Hsrc eq_refl); reflexivity].
    rewrite (select_multi_hop_peer_group _ _ _ Hs). reflexivity.
  - rewrite select_single_hop_peer_group. reflexivity.
Qed.

Lemma peer_group_In (mhop : bool) (dnode n : lyd_node) (l : list lyd_node) :
  In n (peer_group mhop dnode l) <-> In n l /\ same_peer mhop dnode n.
Proof.
  induction l as [|m l IH]; cbn [peer_group In]; [tauto|].
  destruct (decide (same_peer mhop dnode m)) as [Hm|Hm]; cbn [In];
    rewrite IH; intuition (subst; tauto).
Qed.

Lemma wildcard_in_peer_group (mhop : bool) (dnode : lyd_node)
    (l : list lyd_node) :
  existsb is_wildcard (peer_group mhop dnode l) = true
  <-> exists n : lyd_node,
        In n l /\ same_peer mhop dnode n /\ interface n = "*".
Proof.
  rewrite existsb_exists. unfold is_wildcard.
  split; intros (n & Hn & Hw).
  - apply peer_group_In in Hn as [Hin Hp]. apply String.eqb_eq in Hw.
    exists n. tauto.
  - exists n. split; [apply peer_group_In; tauto|].
    apply String.eqb_eq. tauto.
Qed.

(** C7: in VALIDATE of a session create that the link-local check lets
    through, let [sibs] be the entries of the candidate tree's list of the
    same kind (single-hop or multi-hop) that have the dest-addr and the vrf
    of the node and, for multi-hop, its source-addr, [count] their number
    and [wildcard] true iff one of them has interface "*".  The callback
    fails with [NB_ERR_VALIDATION] and the wildcard message exactly when
    [wildcard && count > 1], and returns [NB_OK] otherwise; a lone wildcard
    entry is accepted.  The world is not changed.  Entries of another peer,
    of another vrf or, for multi-hop, of another source are not counted. *)
Theorem create_validate_wildcard_ambiguity :
  forall (args : nb_cb_create_args) (mhop : bool) (w : world),
    cr_event args = NB_EV_VALIDATE ->
    link_local_without_interface (cr_dnode args) = false ->
    (mhop = true -> source_addr (cr_dnode args) <> None) ->
    let entries := session_entries mhop (cr_sessions args) in
    let sibs := peer_group mhop (cr_dnode args) entries in
    let count := Z.of_nat (length sibs) in
    let wildcard := existsb is_wildcard sibs in
    (forall n : lyd_node,
       In n sibs <-> In n entries /\ same_peer mhop (cr_dnode args) n)
    /\ (wildcard = true
        <-> exists n : lyd_node,
              In n entries /\ same_peer mhop (cr_dnode args) n
              /\ interface n = "*")
    /\ exists r : nb_error * nb_cb_create_args,
         bfd_session_create args mhop w = Some (r, w)
         /\ (r = (NB_ERR_VALIDATION, set_errmsg errmsg_wildcard args)
             <-> wildcard = true /\ count > 1)
         /\ (r = (NB_OK, args) <-> ~ (wildcard = true /\ count > 1))
         /\ (wildcard = true -> count = 1 -> r = (NB_OK, args)).
Proof.
  intros args mhop w Hev Hll Hsrc entries sibs count wildcard.
  split; [intros n; apply peer_group_In|].
  split; [apply wildcard_in_peer_group|].
  exists (wildcard_verdict args sibs).
  rewrite (bfd_session_create_validate _ _ _ Hev), Hll.
  rewrite (session_siblings_peer_group _ _ Hsrc).
  split; [reflexivity|].
  unfold wildcard_verdict. fold entries. fold sibs. fold count. fold wildcard.
  destruct wildcard; destruct (Z.gtb_spec count 1) as [Hgt|Hle]; cbn [andb];
    intuition (try discriminate; try lia).
Qed.

(** C8: in VALIDATE of a session create whose dest-addr is IPv6 and
    link-local, the wildcard interface "*" makes the callback fail with
    [NB_ERR_VALIDATION] and the link-local message; with any other interface
    name the check is passed: the result is the one of the sibling check
    that follows, never the link-local error. *)
Theorem create_validate_link_local :
  forall (args : nb_cb_create_args) (mhop : bool) (w : world),
    cr_event args = NB_EV_VALIDATE ->
    sa_family (dest_addr (cr_dnode args)) = AF_INET6 ->
    IN6_IS_ADDR_LINKLOCAL (sa_addr (dest_addr (cr_dnode args))) = true ->
    (interface (cr_dnode args) = "*" ->
       bfd_session_create args mhop w
       = Some ((NB_ERR_VALIDATION, set_errmsg errmsg_link_local args), w))
    /\ (interface (cr_dnode args) <> "*" ->
        forall sibs : list lyd_node,
          session_siblings args mhop = Some sibs ->
          bfd_session_create args mhop w = Some (wildcard_verdict args sibs, w)
          /\ wildcard_verdict args sibs
             <> (NB_ERR_VALIDATION, set_errmsg errmsg_link_local args)).
Proof.
  intros args mhop w Hev Hfam Hll.
  rewrite (bfd_session_create_validate _ _ _ Hev).
  unfold link_local_without_interface. rewrite Hfam, Hll.
  rewrite bool_decide_eq_true_2 by reflexivity. cbn [andb].
  split.
  - intros ->. reflexivity.
  - intros Hif sibs Hsibs.
    apply String.eqb_neq in Hif. rewrite Hif, Hsibs.
    split; [reflexivity|].
    unfold wildcard_verdict.
    destruct (existsb _ _ && _); intros Heq; inversion Heq.
Qed.

(** Scenario S2 in a tree that also holds other peers: 10.0.0.1 configured
    with "*" and with "eth0" is rejected, the wildcard entries of 10.0.0.2
    and of vrf red and the multi-hop entries not being counted; without the
    "eth0" entry the wildcard entry is accepted, although two other
    wildcard entries are in the tree.  The same for multi-hop: "*" and
    "eth0" from the source 10.0.0.9 are rejected, "*" from 10.0.0.9 next to
    "eth1" from 10.0.0.8 is accepted. *)
Lemma create_validate_wildcard_ambiguity_witness :
  bfd_session_create
    (Peers.validate_args Scenario.sh_wild
       [Peers.sh_other_wild; Scenario.sh_wild; Peers.sh_wild_red;
        Scenario.sh_eth0]
       [Peers.mh_wild; Peers.mh_eth0])
    false Scenario.world_empty
  = Some ((NB_ERR_VALIDATION,
           set_errmsg errmsg_wildcard
             (Peers.validate_args Scenario.sh_wild
                [Peers.sh_other_wild; Scenario.sh_wild; Peers.sh_wild_red;
                 Scenario.sh_eth0]
                [Peers.mh_wild; Peers.mh_eth0])),
          Scenario.world_empty)
  /\ bfd_session_create
       (Peers.validate_args Scenario.sh_wild
          [Peers.sh_other_wild; Scenario.sh_wild; Peers.sh_wild_red]
          [Peers.mh_wild; Peers.mh_eth0])
       false Scenario.world_empty
     = Some ((NB_OK,
              Peers.validate_args Scenario.sh_wild
                [Peers.sh_other_wild; Scenario.sh_wild; Peers.sh_wild_red]
                [Peers.mh_wild; Peers.mh_eth0]),
             Scenario.world_empty)
  /\ bfd_session_create
       (Peers.validate_args Peers.mh_wild
          [Scenario.sh_wild; Scenario.sh_eth0]
          [Peers.mh_other_source; Peers.mh_wild; Peers.mh_eth0])
       true Scenario.world_empty
     = Some ((NB_ERR_VALIDATION,
              set_errmsg errmsg_wildcard
                (Peers.validate_args Peers.mh_wild
                   [Scenario.sh_wild; Scenario.sh_eth0]
                   [Peers.mh_other_source; Peers.mh_wild; Peers.mh_eth0])),
             Scenario.world_empty)
  /\ bfd_session_create
       (Peers.validate_args Peers.mh_wild
          [Scenario.sh_wild; Scenario.sh_eth0]
          [Peers.mh_other_source; Peers.mh_wild])
       true Scenario.world_empty
     = Some ((NB_OK,
              Peers.validate_args Peers.mh_wild
                [Scenario.sh_wild; Scenario.sh_eth0]
                [Peers.mh_other_source; Peers.mh_wild]),
             Scenario.world_empty).
Proof.
  split; [|split; [|split]].
  - destruct (create_validate_wildcard_ambiguity
                (Peers.validate_args Scenario.sh_wild
                   [Peers.sh_other_wild; Scenario.sh_wild; Peers.sh_wild_red;
                    Scenario.sh_eth0]
                   [Peers.mh_wild; Peers.mh_eth0])
                false Scenario.world_empty eq_refl eq_refl
                ltac:(discriminate))
      as (_ & _ & r & Hrun & Herr & _ & _).
    rewrite Hrun. f_equal. f_equal. apply Herr.
    split; reflexivity.
  - destruct (create_validate_wildcard_ambiguity
                (Peers.validate_args Scenario.sh_wild
                   [Peers.sh_other_wild; Scenario.sh_wild; Peers.sh_wild_red]
                   [Peers.mh_wild; Peers.mh_eth0])
                false Scenario.world_empty eq_refl eq_refl
                ltac:(discriminate))
      as (_ & _ & r & Hrun & _ & _ & Hlone).
    rewrite Hrun. f_equal. f_equal. apply Hlone; reflexivity.
  - destruct (create_validate_wildcard_ambiguity
                (Peers.validate_args Peers.mh_wild
                   [Scenario.sh_wild; Scenario.sh_eth0]
                   [Peers.mh_other_source; Peers.mh_wild; Peers.mh_eth0])
                true Scenario.world_empty eq_refl eq_refl
                ltac:(discriminate))
      as (_ & _ & r & Hrun & Herr & _ & _).
    rewrite Hrun. f_equal. f_equal. apply Herr.
    split; reflexivity.
  - destruct (create_validate_wildcard_ambiguity
                (Peers.validate_args Peers.mh_wild
                   [Scenario.sh_wild; Scenario.sh_eth0]
                   [Peers.mh_other_source; Peers.mh_wild])
                true Scenario.world_empty eq_refl eq_refl
                ltac:(discriminate))
      as (_ & _ & r & Hrun & _ & _ & Hlone).
    rewrite Hrun. f_equal. f_equal. apply Hlone; reflexivity.
Defined.

(** Scenario S3: fe80::1 with interface "*" is rejected; with "eth0" the
    link-local check is passed. *)
Lemma create_validate_link_local_witness :
  bfd_session_create
    (Scenario.create_args NB_EV_VALIDATE Scenario.sh_ll_wild
       [Scenario.sh_ll_wild] None)
    false Scenario.world_empty
  = Some ((NB_ERR_VALIDATION,
           set_errmsg errmsg_link_local
             (Scenario.create_args NB_EV_VALIDATE Scenario.sh_ll_wild
                [Scenario.sh_ll_wild] None)),
          Scenario.world_empty)
  /\ bfd_session_create
       (Scenario.create_args NB_EV_VALIDATE Scenario.sh_ll_eth0
          [Scenario.sh_ll_eth0] None)
       false Scenario.world_empty
     = Some ((NB_OK,
              Scenario.create_args NB_EV_VALIDATE Scenario.sh_ll_eth0
                [Scenario.sh_ll_eth0] None),
             Scenario.world_empty).
Proof.
  split.
  - apply (create_validate_link_local
             (Scenario.create_args NB_EV_VALIDATE Scenario.sh_ll_wild
                [Scenario.sh_ll_wild] None)
             false Scenario.world_empty);
      reflexivity.
  - refine (proj1 (proj2 (create_validate_link_local
             (Scenario.create_args NB_EV_VALIDATE Scenario.sh_ll_eth0
                [Scenario.sh_ll_eth0] None)
             false Scenario.world_empty eq_refl eq_refl eq_refl)
             _ [Scenario.sh_ll_eth0] eq_refl)).
    discriminate.
Defined.

(** ** PREPARE of a session create *)

Lemma with_sessions_insert_twice (p : ptr) (x y : bfd_session) (w : world) :
  with_sessions (insert p x) (with_sessions (insert p y) w)
  = with_sessions (insert p x) w.
Proof.
  unfold with_sessions; cbn. f_equal. apply insert_insert_eq.
Qed.

Lemma fresh_ptr_fresh (w : world) : w_sessions w !! fresh_ptr w = None.
Proof.
  apply not_elem_of_dom. unfold fresh_ptr.
  pose proof (is_fresh (dom (w_sessions w) ∪ dom (w_profiles w))) as H.
  set_solver.
Qed.

Lemma bfd_session_new_run (w : world) :
  bfd_session_new w
  = Some (fresh_ptr w,
          with_calls (fun l => l ++ [Call_bfd_session_new (fresh_ptr w)])
            (with_sessions (insert (fresh_ptr w) bfd_session_zero) w)).
Proof. reflexivity. Qed.

Lemma bind_ret_run {A B : Type} (a : A) (k : A -> M B) (w : world) :
  bind (ret a) k w = k a w.
Proof. reflexivity. Qed.

Lemma bfd_session_get_key_canonical (mhop : bool) (dnode : lyd_node) :
  bfd_session_get_key mhop dnode = canonical_key mhop dnode.
Proof.
  unfold bfd_session_get_key, canonical_key, gen_bfd_key, strtosa.
  destruct (source_addr dnode) as [source|];
    destruct (String.eqb_spec (interface dnode) "*") as [E|E];
    destruct (decide (interface dnode = "*")); try contradiction;
    reflexivity.
Qed.

Lemma prepare_adopts (args : nb_cb_create_args) (mhop : bool) (w : world)
    (p : ptr) (s : bfd_session) :
  cr_event args = NB_EV_PREPARE ->
  w_key_hash w !! bfd_session_get_key mhop (cr_dnode args) = Some p ->
  w_sessions w !! p = Some s ->
  bfd_session_create args mhop w
  = Some ((NB_OK, set_resource (Some p) args),
          with_sessions (insert p (adopted_session s)) w).
Proof.
  intros Hev Hk Hs. unfold bfd_session_create. rewrite Hev.
  erewrite bind_Some by (unfold bfd_key_lookup, gets; rewrite Hk; reflexivity).
  run. unfold ret. rewrite with_sessions_insert_twice. reflexivity.
Qed.

Lemma prepare_allocates (args : nb_cb_create_args) (mhop : bool) (w : world) :
  cr_event args = NB_EV_PREPARE ->
  w_key_hash w !! bfd_session_get_key mhop (cr_dnode args) = None ->
  bfd_session_create args mhop w
  = Some ((NB_OK, set_resource (Some (fresh_ptr w)) args),
          with_sessions
            (insert (fresh_ptr w)
               (new_session mhop (bfd_session_get_key mhop (cr_dnode args))))
            (with_calls (fun l => l ++ [Call_bfd_session_new (fresh_ptr w)]) w)).
Proof.
  intros Hev Hk. unfold bfd_session_create. rewrite Hev.
  erewrite bind_Some by (unfold bfd_key_lookup, gets; rewrite Hk; reflexivity).
  cbv beta iota.
  erewrite bind_Some by apply bfd_session_new_run.
  set (K := bfd_session_get_key mhop (cr_dnode args)).
  set (p := fresh_ptr w).
  run.
  destruct mhop; [run|rewrite bind_ret_run]; run;
    cbn [key set_flags set_refcount set_key];
    fold K; destruct (bool_decide (family K = AF_INET6)) eqn:Hfam;
    [run|rewrite bind_ret_run|run|rewrite bind_ret_run]; unfold ret;
    unfold with_sessions, with_calls; cbn; rewrite ?insert_insert_eq;
    unfold new_session, new_session_flags; rewrite Hfam; reflexivity.
Qed.

Lemma check_set_flag (v f : Z) : f <> 0 -> CHECK_FLAG (SET_FLAG v f) f <> 0.
Proof.
  unfold CHECK_FLAG, SET_FLAG. intros Hf H.
  rewrite Z.land_lor_distr_l, Z.land_diag in H.
  apply Z.lor_eq_0_iff in H. tauto.
Qed.

Lemma new_session_flags_spec (mhop : bool) (k : bfd_key) :
  CHECK_FLAG (new_session_flags mhop k) BFD_SESS_FLAG_CONFIG <> 0
  /\ (CHECK_FLAG (new_session_flags mhop k) BFD_SESS_FLAG_MH <> 0
      <-> mhop = true)
  /\ (CHECK_FLAG (new_session_flags mhop k) BFD_SESS_FLAG_IPV6 <> 0
      <-> family k = AF_INET6)
  /\ new_session_flags mhop k
     = BFD_SESS_FLAG_CONFIG
       + (if mhop then BFD_SESS_FLAG_MH else 0)
       + (if bool_decide (family k = AF_INET6) then BFD_SESS_FLAG_IPV6 else 0).
Proof.
  unfold new_session_flags.
  destruct (bool_decide_reflect (family k = AF_INET6)) as [Hf|Hf];
    destruct mhop; vm_compute; intuition congruence.
Qed.

(** C2: PREPARE of a session create builds the canonical key K of the node
    (dest-addr, optional source-addr, the multihop flag, the interface with
    "*" turned into absent, the vrf) and looks it up.  If the registry has a
    live session S under K, it sets CONFIG on S, adds exactly 1 to S's
    refcount, records S as the resource, and allocates nothing (no engine
    call, same set of objects).  Otherwise it allocates one session, on an
    address that was free, with key K, refcount 1 and the flags CONFIG, MH
    exactly when multihop is asked, IPV6 exactly when K's family is
    AF_INET6, and no other flag, and records it as the resource. *)
Theorem create_prepare_adopts_or_allocates :
  forall (args : nb_cb_create_args) (mhop : bool) (w : world),
    cr_event args = NB_EV_PREPARE ->
    let K := bfd_session_get_key mhop (cr_dnode args) in
    K = canonical_key mhop (cr_dnode args)
    /\ (forall (p : ptr) (s : bfd_session),
          w_key_hash w !! K = Some p ->
          w_sessions w !! p = Some s ->
          exists w' s',
            bfd_session_create args mhop w
              = Some ((NB_OK, set_resource (Some p) args), w')
            /\ w' = with_sessions (insert p s') w
            /\ s' = set_refcount (refcount s + 1)
                      (set_flags (SET_FLAG (flags s) BFD_SESS_FLAG_CONFIG) s)
            /\ CHECK_FLAG (flags s') BFD_SESS_FLAG_CONFIG <> 0
            /\ refcount s' = refcount s + 1
            /\ calls_since w w' = []
            /\ dom (w_sessions w') = dom (w_sessions w))
    /\ (w_key_hash w !! K = None ->
        exists w' p s',
          bfd_session_create args mhop w
            = Some ((NB_OK, set_resource (Some p) args), w')
          /\ w_sessions w !! p = None
          /\ w_sessions w' = <[p := s']> (w_sessions w)
          /\ calls_since w w' = [Call_bfd_session_new p]
          /\ key s' = K
          /\ refcount s' = 1
          /\ my_discr s' = 0
          /\ CHECK_FLAG (flags s') BFD_SESS_FLAG_CONFIG <> 0
          /\ (CHECK_FLAG (flags s') BFD_SESS_FLAG_MH <> 0 <-> mhop = true)
          /\ (CHECK_FLAG (flags s') BFD_SESS_FLAG_IPV6 <> 0
              <-> family K = AF_INET6)
          /\ flags s'
             = BFD_SESS_FLAG_CONFIG
               + (if mhop then BFD_SESS_FLAG_MH else 0)
               + (if bool_decide (family K = AF_INET6)
                  then BFD_SESS_FLAG_IPV6 else 0)).
Proof.
  intros args mhop w Hev K. split; [apply bfd_session_get_key_canonical|].
  split.
  - intros p s Hk Hs.
    exists (with_sessions (insert p (adopted_session s)) w), (adopted_session s).
    split; [exact (prepare_adopts args mhop w p s Hev Hk Hs)|].
    split; [reflexivity|]. split; [reflexivity|].
    split; [apply check_set_flag; discriminate|].
    split; [reflexivity|].
    split; [apply calls_since_same; reflexivity|].
    cbn. apply dom_insert_lookup_L. rewrite Hs. eauto.
  - intros Hk.
    destruct (new_session_flags_spec mhop K) as (Hc & Hm & H6 & Hsum).
    eexists _, (fresh_ptr w), (new_session mhop K).
    split; [exact (prepare_allocates args mhop w Hev Hk)|].
    split; [apply fresh_ptr_fresh|].
    split; [reflexivity|].
    split; [apply calls_since_app; reflexivity|].
    repeat split; try assumption; try apply Hm; try apply H6.
Qed.

(** Scenario S4, first half, and S1: configuring the peer of a session the
    engine already holds adopts it (refcount 1 becomes 2); on an empty
    registry a session is allocated. *)
Lemma create_prepare_adopts_or_allocates_witness :
  (exists w' s',
     bfd_session_create
       (Scenario.create_args NB_EV_PREPARE Scenario.sh_wild
          [Scenario.sh_wild] None)
       false Scenario.world_engine_owned
     = Some ((NB_OK,
              Scenario.create_args NB_EV_PREPARE Scenario.sh_wild
                [Scenario.sh_wild] (Some 1%positive)), w')
     /\ w_sessions w' !! 1%positive = Some s'
     /\ refcount s' = 2
     /\ flags s' = BFD_SESS_FLAG_CONFIG)
  /\ (exists w' p s',
        bfd_session_create
          (Scenario.create_args NB_EV_PREPARE Scenario.sh_wild
             [Scenario.sh_wild] None)
          false Scenario.world_empty
        = Some ((NB_OK,
                 Scenario.create_args NB_EV_PREPARE Scenario.sh_wild
                   [Scenario.sh_wild] (Some p)), w')
        /\ w_sessions w' !! p = Some s'
        /\ refcount s' = 1
        /\ flags s' = BFD_SESS_FLAG_CONFIG).
Proof.
  split.
  - destruct (proj1 (proj2 (create_prepare_adopts_or_allocates
                 (Scenario.create_args NB_EV_PREPARE Scenario.sh_wild
                    [Scenario.sh_wild] None)
                 false Scenario.world_engine_owned eq_refl))
               1%positive Scenario.engine_session eq_refl eq_refl)
      as (w' & s' & Hrun & Hw & Hs & _).
    exists w', s'. split; [exact Hrun|].
    subst w' s'. repeat split.
  - destruct (proj2 (proj2 (create_prepare_adopts_or_allocates
                 (Scenario.create_args NB_EV_PREPARE Scenario.sh_wild
                    [Scenario.sh_wild] None)
                 false Scenario.world_empty eq_refl)) eq_refl)
      as (w' & p & s' & Hrun & _ & Hw & _ & _ & Hr & _ & _ & _ & _ & Hf).
    exists w', p, s'. split; [exact Hrun|].
    rewrite Hw, lookup_insert_eq. repeat split; assumption.
Defined.

(** ** APPLY of a session create *)

Lemma bs_registrate_run (p : ptr) (w : world) (s : bfd_session) :
  w_sessions w !! p = Some s ->
  bs_registrate p w
  = Some
      (match w_discrs w with
       | Some d :: _ =>
           (Some p,
            with_sessions (insert p (set_my_discr d s))
              (with_key_hash (insert (key s) p)
                 (with_discrs (drop 1)
                    (with_calls (fun l => l ++ [Call_bs_registrate p]) w))))
       | _ =>
           (None,
            with_discrs (drop 1)
              (with_calls (fun l => l ++ [Call_bs_registrate p]) w))
       end).
Proof.
  intros Hs. unfold bs_registrate. run.
  unfold called, modify, gets, bind, ret.
  cbn [w_discrs with_calls with_discrs].
  destruct (w_discrs w) as [|[d|] rest]; try reflexivity.
  unfold_M. cbn [w_sessions with_key_hash with_discrs with_calls].
  rewrite Hs. reflexivity.
Qed.

Lemma bs_registrate_calls (p : ptr) (w w1 : world) (r : option ptr) :
  bs_registrate p w = Some (r, w1) ->
  calls_since w w1 = [Call_bs_registrate p]
  /\ (r = None -> w_running w1 = w_running w
                  /\ w_sessions w1 = w_sessions w
                  /\ w_key_hash w1 = w_key_hash w).
Proof.
  intros Hrun.
  destruct (w_sessions w !! p) as [s|] eqn:Hs.
  - rewrite (bs_registrate_run p w s Hs) in Hrun.
    destruct (w_discrs w) as [|[d|] rest]; inversion Hrun; subst;
      (split; [apply calls_since_app; reflexivity|]);
      intros Hr; try discriminate; repeat split.
  - unfold bs_registrate in Hrun. unfold_M. unfold bind at 1 in Hrun.
    revert Hrun. unfold_M. rewrite Hs. discriminate.
Qed.

(** APPLY of a create, case by case of the source. *)
Lemma bfd_session_create_apply (args : nb_cb_create_args) (mhop : bool)
    (w : world) (p : ptr) (s : bfd_session) :
  cr_event args = NB_EV_APPLY ->
  cr_resource args = Some p ->
  w_sessions w !! p = Some s ->
  bfd_session_create args mhop w
  = if my_discr s =? 0
    then match bs_registrate p w with
         | Some (Some _, w1) =>
             Some ((NB_OK, args),
                   with_running (insert (dn_xpath (cr_dnode args)) p) w1)
         | Some (None, w1) => Some ((NB_ERR_RESOURCE, args), w1)
         | None => None
         end
    else Some ((NB_OK, args),
               with_running (insert (dn_xpath (cr_dnode args)) p) w).
Proof.
  intros Hev Hres Hs. unfold bfd_session_create. rewrite Hev, Hres.
  erewrite bind_Some by reflexivity. run.
  destruct (my_discr s =? 0).
  - unfold bind at 1. unfold bind at 1.
    rewrite (bs_registrate_run p w s Hs).
    destruct (w_discrs w) as [|[d|] rest]; reflexivity.
  - reflexivity.
Qed.

(** C9: APPLY of a session create calls the engine's registration exactly
    when the resource session has no discriminator ([my_discr] is 0); a
    session that has one is only bound to the node, with no engine call.
    When registration is attempted and refused (returns null) the callback
    returns [NB_ERR_RESOURCE] and binds nothing; when it succeeds, as when
    it is not needed, the callback returns [NB_OK] and the node is bound to
    the session in the running configuration. *)
Theorem create_apply_registers_when_fresh :
  forall (args : nb_cb_create_args) (mhop : bool) (w : world)
         (p : ptr) (s : bfd_session),
    cr_event args = NB_EV_APPLY ->
    cr_resource args = Some p ->
    w_sessions w !! p = Some s ->
    exists (res : nb_error * nb_cb_create_args) (w' : world),
      bfd_session_create args mhop w = Some (res, w')
      /\ (In (Call_bs_registrate p) (calls_since w w') <-> my_discr s = 0)
      /\ (my_discr s <> 0 ->
          res = (NB_OK, args)
          /\ w' = with_running (insert (dn_xpath (cr_dnode args)) p) w)
      /\ (my_discr s = 0 ->
          exists (r : option ptr) (w1 : world),
            bs_registrate p w = Some (r, w1)
            /\ calls_since w w' = [Call_bs_registrate p]
            /\ (r = None ->
                res = (NB_ERR_RESOURCE, args) /\ w' = w1
                /\ w_running w' = w_running w)
            /\ (r <> None ->
                res = (NB_OK, args)
                /\ w' = with_running (insert (dn_xpath (cr_dnode args)) p) w1))
      /\ (fst res = NB_OK ->
          w_running w' !! dn_xpath (cr_dnode args) = Some p).
Proof.
  intros args mhop w p s Hev Hres Hs.
  rewrite (bfd_session_create_apply args mhop w p s Hev Hres Hs).
  destruct (Z.eqb_spec (my_discr s) 0) as [Hz|Hnz].
  - destruct (bs_registrate p w) as [[r w1]|] eqn:Hreg.
    2: { rewrite (bs_registrate_run p w s Hs) in Hreg. discriminate. }
    destruct (bs_registrate_calls p w w1 r Hreg) as [Hcalls Hnone].
    destruct r as [q|].
    + eexists _, _. split; [reflexivity|].
      assert (Hc : calls_since w
                     (with_running (insert (dn_xpath (cr_dnode args)) p) w1)
                   = [Call_bs_registrate p]) by exact Hcalls.
      split; [rewrite Hc; cbn; tauto|].
      split; [intros; contradiction|].
      split.
      * intros _. exists (Some q), w1. split; [reflexivity|].
        split; [exact Hc|]. split; [discriminate|]. intros _. split; reflexivity.
      * intros _. cbn. apply lookup_insert_eq.
    + eexists _, _. split; [reflexivity|].
      split; [rewrite Hcalls; cbn; tauto|].
      split; [intros; contradiction|].
      split.
      * intros _. exists None, w1. split; [reflexivity|].
        split; [exact Hcalls|]. split.
        -- intros _. repeat split. apply Hnone. reflexivity.
        -- intros Hne. contradiction.
      * cbn. discriminate.
  - eexists _, _. split; [reflexivity|].
    split.
    + rewrite calls_since_same by reflexivity. cbn. tauto.
    + split; [intros _; split; reflexivity|].
      split; [intros; contradiction|].
      intros _. cbn. apply lookup_insert_eq.
Qed.

(** Scenario S1, APPLY: the freshly allocated session is registered and
    bound when the engine accepts, and the change fails with
    [NB_ERR_RESOURCE] when the engine refuses; the engine-owned session of
    S4 is bound without any call. *)
Lemma create_apply_registers_when_fresh_witness :
  (exists w',
     bfd_session_create
       (Scenario.create_args NB_EV_APPLY Scenario.sh_wild [Scenario.sh_wild]
          (Some 1%positive))
       false (Scenario.world_prepared [Some 8])
     = Some ((NB_OK,
              Scenario.create_args NB_EV_APPLY Scenario.sh_wild
                [Scenario.sh_wild] (Some 1%positive)), w')
     /\ calls_since (Scenario.world_prepared [Some 8]) w'
        = [Call_bs_registrate 1%positive])
  /\ (exists w',
        bfd_session_create
          (Scenario.create_args NB_EV_APPLY Scenario.sh_wild [Scenario.sh_wild]
             (Some 1%positive))
          false (Scenario.world_prepared [None])
        = Some ((NB_ERR_RESOURCE,
                 Scenario.create_args NB_EV_APPLY Scenario.sh_wild
                   [Scenario.sh_wild] (Some 1%positive)), w')
        /\ w_running w' = ∅)
  /\ bfd_session_create
       (Scenario.create_args NB_EV_APPLY Scenario.sh_wild [Scenario.sh_wild]
          (Some 1%positive))
       false Scenario.world_engine_owned
     = Some ((NB_OK,
              Scenario.create_args NB_EV_APPLY Scenario.sh_wild
                [Scenario.sh_wild] (Some 1%positive)),
             with_running (insert (dn_xpath Scenario.sh_wild) 1%positive)
               Scenario.world_engine_owned).
Proof.
  split; [|split].
  - destruct (create_apply_registers_when_fresh
                (Scenario.create_args NB_EV_APPLY Scenario.sh_wild
                   [Scenario.sh_wild] (Some 1%positive))
                false (Scenario.world_prepared [Some 8]) 1%positive
                Scenario.prepared_session eq_refl eq_refl eq_refl)
      as (res & w' & Hrun & _ & _ & Hfresh & _).
    destruct (Hfresh eq_refl) as (r & w1 & Hreg & Hcalls & _ & Hok).
    assert (Hr : r <> None).
    { intros ->. vm_compute in Hreg. discriminate. }
    destruct (Hok Hr) as [-> ->].
    exists (with_running (insert (dn_xpath (cr_dnode
              (Scenario.create_args NB_EV_APPLY Scenario.sh_wild
                 [Scenario.sh_wild] (Some 1%positive)))) 1%positive) w1).
    split; [exact Hrun | exact Hcalls].
  - destruct (create_apply_registers_when_fresh
                (Scenario.create_args NB_EV_APPLY Scenario.sh_wild
                   [Scenario.sh_wild] (Some 1%positive))
                false (Scenario.world_prepared [None]) 1%positive
                Scenario.prepared_session eq_refl eq_refl eq_refl)
      as (res & w' & Hrun & _ & _ & Hfresh & _).
    destruct (Hfresh eq_refl) as (r & w1 & Hreg & _ & Hnone & _).
    assert (Hr : r = None).
    { vm_compute in Hreg. injection Hreg as Hr _. symmetry. exact Hr. }
    destruct (Hnone Hr) as (-> & -> & Hrunning).
    exists w1. split; [exact Hrun | exact Hrunning].
  - destruct (create_apply_registers_when_fresh
                (Scenario.create_args NB_EV_APPLY Scenario.sh_wild
                   [Scenario.sh_wild] (Some 1%positive))
                false Scenario.world_engine_owned 1%positive
                Scenario.engine_session eq_refl eq_refl eq_refl)
      as (res & w' & Hrun & _ & Hold & _).
    destruct Hold as [-> ->]; [discriminate|]. exact Hrun.
Defined.

(** ** Session destroy and the ownership round trip *)

Lemma nb_running_unset_entry_run (x : xpath) (w : world) (p : ptr) :
  w_running w !! x = Some p ->
  nb_running_unset_entry x w = Some (p, with_running (delete x) w).
Proof.
  intros H. unfold nb_running_unset_entry. unfold_M. rewrite H. reflexivity.
Qed.

Lemma unset_set_flag (v f : Z) :
  CHECK_FLAG v f = 0 -> UNSET_FLAG (SET_FLAG v f) f = v.
Proof.
  unfold CHECK_FLAG, UNSET_FLAG, SET_FLAG. intros H.
  apply Z.bits_inj'. intros n Hn.
  rewrite Z.land_spec, Z.lor_spec, Z.lnot_spec by exact Hn.
  assert (Hbit : Z.testbit (Z.land v f) n = false) by (rewrite H; apply Z.bits_0).
  rewrite Z.land_spec in Hbit.
  destruct (Z.testbit v n), (Z.testbit f n); cbn in *; congruence.
Qed.

Lemma check_unset_flag (v f : Z) : CHECK_FLAG (UNSET_FLAG v f) f = 0.
Proof.
  unfold CHECK_FLAG, UNSET_FLAG.
  rewrite <- Z.land_assoc, (Z.land_comm (Z.lnot f)), Z.land_lnot_diag.
  apply Z.land_0_r.
Qed.

(** APPLY of a destroy on a session the configuration no longer owns. *)
Lemma destroy_apply_not_configured (dnode : lyd_node) (mhop : bool)
    (w : world) (p : ptr) (s : bfd_session) :
  w_running w !! dn_xpath dnode = Some p ->
  w_sessions w !! p = Some s ->
  CHECK_FLAG (flags s) BFD_SESS_FLAG_CONFIG = 0 ->
  bfd_session_destroy NB_EV_APPLY dnode mhop w
  = Some (NB_OK, with_running (delete (dn_xpath dnode)) w).
Proof.
  intros Hr Hs Hc. unfold bfd_session_destroy.
  erewrite bind_Some by (apply nb_running_unset_entry_run; exact Hr).
  run. rewrite Hc. reflexivity.
Qed.

(** APPLY of a destroy on a configured session that has other owners. *)
Lemma destroy_apply_shared (dnode : lyd_node) (mhop : bool)
    (w : world) (p : ptr) (s : bfd_session) :
  w_running w !! dn_xpath dnode = Some p ->
  w_sessions w !! p = Some s ->
  CHECK_FLAG (flags s) BFD_SESS_FLAG_CONFIG <> 0 ->
  1 < refcount s ->
  bfd_session_destroy NB_EV_APPLY dnode mhop w
  = Some (NB_OK,
          with_sessions (insert p (released_session s))
            (with_running (delete (dn_xpath dnode)) w)).
Proof.
  intros Hr Hs Hc Hn. unfold bfd_session_destroy.
  erewrite bind_Some by (apply nb_running_unset_entry_run; exact Hr).
  run. apply Z.eqb_neq in Hc. rewrite Hc. run.
  cbn [refcount set_refcount set_flags].
  destruct (Z.gtb_spec (refcount s - 1) 0) as [_|Hle]; [|lia].
  unfold ret. rewrite with_sessions_insert_twice. reflexivity.
Qed.

(** APPLY of a destroy on a configured session with no other owner. *)
Lemma destroy_apply_last (dnode : lyd_node) (mhop : bool)
    (w : world) (p : ptr) (s : bfd_session) :
  w_running w !! dn_xpath dnode = Some p ->
  w_sessions w !! p = Some s ->
  CHECK_FLAG (flags s) BFD_SESS_FLAG_CONFIG <> 0 ->
  refcount s <= 1 ->
  bfd_session_destroy NB_EV_APPLY dnode mhop w
  = Some (NB_OK,
          with_calls (fun l => l ++ [Call_bfd_session_free p])
            (with_sessions (delete p)
               (with_key_hash
                  (fun h => if decide (h !! key s = Some p)
                            then delete (key s) h else h)
                  (with_running (delete (dn_xpath dnode)) w)))).
Proof.
  intros Hr Hs Hc Hn. unfold bfd_session_destroy.
  erewrite bind_Some by (apply nb_running_unset_entry_run; exact Hr).
  run. apply Z.eqb_neq in Hc. rewrite Hc. run.
  cbn [refcount set_refcount set_flags].
  destruct (Z.gtb_spec (refcount s - 1) 0) as [Hgt|_]; [lia|].
  erewrite bind_Some by (apply bfd_session_free_run; lookup_now).
  unfold ret. do 2 f_equal.
  unfold with_calls, with_sessions, with_key_hash, with_running; cbn.
  rewrite !delete_insert_eq. reflexivity.
Qed.

Lemma create_validate_keeps_world (args : nb_cb_create_args) (mhop : bool)
    (w w' : world) (r : nb_error * nb_cb_create_args) :
  cr_event args = NB_EV_VALIDATE ->
  bfd_session_create args mhop w = Some (r, w') -> w' = w.
Proof.
  intros Hev. rewrite (bfd_session_create_validate _ _ _ Hev).
  destruct (link_local_without_interface _); [congruence|].
  destruct (session_siblings _ _); congruence.
Qed.

(** What a committed create that adopts [s] leaves: the adopted session,
    possibly with a discriminator from a late registration, bound to the
    node; the registry still answers the node's key. *)
Lemma commit_create_adopting (dnode : lyd_node) (sessions : sessions_node)
    (mhop : bool) (w w1 : world) (p : ptr) (s : bfd_session) :
  w_key_hash w !! bfd_session_get_key mhop dnode = Some p ->
  w_sessions w !! p = Some s ->
  nb_commit_create (fun a => bfd_session_create a mhop) dnode sessions w
    = Some (NB_OK, w1) ->
  w_running w1 !! dn_xpath dnode = Some p
  /\ w_key_hash w1 !! bfd_session_get_key mhop dnode = Some p
  /\ (exists d : Z,
        w_sessions w1 = <[p := set_my_discr d (adopted_session s)]> (w_sessions w))
  /\ (calls_since w w1 = [] \/ calls_since w w1 = [Call_bs_registrate p]).
Proof.
  intros Hk Hs. unfold nb_commit_create.
  set (va := CreateArgs NB_EV_VALIDATE dnode sessions None "").
  set (pa := CreateArgs NB_EV_PREPARE dnode sessions None "").
  unfold bind at 1.
  destruct (bfd_session_create va mhop w) as [[[rv av] wv]|] eqn:Hv;
    [|discriminate].
  apply create_validate_keeps_world in Hv; [subst wv|reflexivity].
  destruct rv; try (cbn; unfold ret; congruence).
  cbn [fst]. unfold bind at 1.
  rewrite (prepare_adopts pa mhop w p s eq_refl Hk Hs).
  cbn [fst snd set_resource cr_resource]. unfold bind at 1.
  set (wp := with_sessions (insert p (adopted_session s)) w).
  assert (Hsp : w_sessions wp !! p = Some (adopted_session s))
    by apply lookup_insert_eq.
  rewrite (bfd_session_create_apply
             (CreateArgs NB_EV_APPLY dnode sessions (Some p) "")
             mhop wp p _ eq_refl eq_refl Hsp).
  cbn [my_discr adopted_session set_refcount set_flags cr_dnode].
  destruct (my_discr s =? 0).
  - rewrite (bs_registrate_run p wp _ Hsp).
    destruct (w_discrs wp) as [|[d|] rest]; unfold ret; cbn [fst];
      intros Hw1; inversion Hw1; subst w1; clear Hw1.
    split; [apply lookup_insert_eq|].
    split.
    { cbn. destruct (decide (key s = bfd_session_get_key mhop dnode)) as [->|Hne].
      - apply lookup_insert_eq.
      - rewrite lookup_insert_ne by exact Hne. exact Hk. }
    split.
    { exists d. cbn. rewrite insert_insert_eq. reflexivity. }
    right. apply calls_since_app. reflexivity.
  - unfold ret; cbn [fst]. intros Hw1; inversion Hw1; subst w1; clear Hw1.
    split; [apply lookup_insert_eq|].
    split; [exact Hk|].
    split.
    { exists (my_discr s). destruct s. reflexivity. }
    left. apply calls_since_same. reflexivity.
Qed.

(** C3: let S be a session the engine owns on its own (CONFIG clear,
    refcount n >= 1) and that the registry holds under the node's key.  A
    committed create adopts S (refcount n + 1, CONFIG set); the destroy of
    the same node then commits too, and afterwards S is still alive with
    refcount n again and CONFIG clear (all its flags as before), no call of
    the engine's free having been made.  Whenever APPLY of a destroy finds
    CONFIG already clear on the session bound to the node, it only unbinds
    the node: no refcount changes and nothing is freed.  When it finds
    CONFIG set on a session with refcount >= 1, it frees the session exactly
    when the decremented refcount is not above 0, and otherwise leaves it
    alive with CONFIG clear and one reference less. *)
Theorem config_ownership_round_trip :
  forall (dnode : lyd_node) (sessions : sessions_node) (mhop : bool)
         (w : world) (p : ptr) (s : bfd_session),
    w_sessions w !! p = Some s ->
    (CHECK_FLAG (flags s) BFD_SESS_FLAG_CONFIG = 0 ->
     w_key_hash w !! bfd_session_get_key mhop dnode = Some p ->
     1 <= refcount s ->
     forall w1 : world,
       nb_commit_create (fun a => bfd_session_create a mhop) dnode sessions w
         = Some (NB_OK, w1) ->
       (exists s1 : bfd_session,
          w_sessions w1 !! p = Some s1
          /\ refcount s1 = refcount s + 1
          /\ CHECK_FLAG (flags s1) BFD_SESS_FLAG_CONFIG <> 0)
       /\ exists (w2 : world) (s2 : bfd_session),
            nb_commit_destroy
              (fun a => bfd_session_destroy (ds_event a) (ds_dnode a) mhop)
              dnode w1
              = Some (NB_OK, w2)
            /\ w_sessions w2 !! p = Some s2
            /\ refcount s2 = refcount s
            /\ CHECK_FLAG (flags s2) BFD_SESS_FLAG_CONFIG = 0
            /\ flags s2 = flags s
            /\ ~ In (Call_bfd_session_free p) (calls_since w w2))
    /\ (CHECK_FLAG (flags s) BFD_SESS_FLAG_CONFIG = 0 ->
        w_running w !! dn_xpath dnode = Some p ->
        bfd_session_destroy NB_EV_APPLY dnode mhop w
          = Some (NB_OK, with_running (delete (dn_xpath dnode)) w)
        /\ w_sessions (with_running (delete (dn_xpath dnode)) w) = w_sessions w
        /\ calls_since w (with_running (delete (dn_xpath dnode)) w) = [])
    /\ (CHECK_FLAG (flags s) BFD_SESS_FLAG_CONFIG <> 0 ->
        1 <= refcount s ->
        w_running w !! dn_xpath dnode = Some p ->
        exists w' : world,
          bfd_session_destroy NB_EV_APPLY dnode mhop w = Some (NB_OK, w')
          /\ (In (Call_bfd_session_free p) (calls_since w w')
              <-> refcount s - 1 <= 0)
          /\ (refcount s - 1 <= 0 -> w_sessions w' !! p = None)
          /\ (0 < refcount s - 1 ->
              w_sessions w' !! p = Some (released_session s)
              /\ refcount (released_session s) = refcount s - 1
              /\ CHECK_FLAG (flags (released_session s)) BFD_SESS_FLAG_CONFIG
                 = 0)).
Proof.
  intros dnode sessions mhop w p s Hs. split; [|split].
  - intros Hc Hk Hn w1 Hcommit.
    destruct (commit_create_adopting dnode sessions mhop w w1 p s Hk Hs Hcommit)
      as (Hrun1 & Hk1 & [d Hs1] & Hcalls1).
    set (s1 := set_my_discr d (adopted_session s)).
    assert (Hp1 : w_sessions w1 !! p = Some s1)
      by (rewrite Hs1; apply lookup_insert_eq).
    assert (Hc1 : CHECK_FLAG (flags s1) BFD_SESS_FLAG_CONFIG <> 0)
      by (apply check_set_flag; discriminate).
    split.
    { exists s1. repeat split; [exact Hp1|exact Hc1]. }
    exists (with_sessions (insert p (released_session s1))
              (with_running (delete (dn_xpath dnode)) w1)),
           (released_session s1).
    split.
    { unfold nb_commit_destroy.
      erewrite bind_Some
        by (cbn [bfd_session_destroy ds_event ds_dnode];
            unfold bfd_key_lookup, gets, bind; rewrite Hk1; reflexivity).
      cbv beta iota. erewrite bind_Some by reflexivity. cbv beta iota.
      cbn [ds_event ds_dnode].
      apply (destroy_apply_shared dnode mhop w1 p s1 Hrun1 Hp1 Hc1).
      cbn. lia. }
    split; [apply lookup_insert_eq|].
    split; [cbn; lia|].
    split; [apply check_unset_flag|].
    split; [cbn; apply unset_set_flag; exact Hc|].
    assert (Hcs : calls_since w
                    (with_sessions (insert p (released_session s1))
                       (with_running (delete (dn_xpath dnode)) w1))
                  = calls_since w w1) by reflexivity.
    rewrite Hcs. destruct Hcalls1 as [-> | ->]; cbn; intuition discriminate.
  - intros Hc Hr.
    split; [exact (destroy_apply_not_configured dnode mhop w p s Hr Hs Hc)|].
    split; [reflexivity|]. apply calls_since_same. reflexivity.
  - intros Hc _ Hr.
    destruct (Z.le_gt_cases (refcount s) 1) as [Hle|Hgt].
    + eexists. split; [exact (destroy_apply_last dnode mhop w p s Hr Hs Hc Hle)|].
      split.
      { rewrite (calls_since_app w _ [Call_bfd_session_free p]) by reflexivity.
        cbn. split; [lia|tauto]. }
      split; [intros _; cbn; apply lookup_delete_eq|lia].
    + eexists. split; [exact (destroy_apply_shared dnode mhop w p s Hr Hs Hc Hgt)|].
      split.
      { rewrite calls_since_same by reflexivity. cbn. split; [tauto|lia]. }
      split; [lia|]. intros _.
      split; [apply lookup_insert_eq|].
      split; [reflexivity|apply check_unset_flag].
Qed.

(** Scenario S4: the engine holds the session of [sh_wild] with refcount 1;
    configuring and then unconfiguring the peer leaves it alive with
    refcount 1 and CONFIG clear.  A destroy that finds CONFIG clear only
    unbinds the node, and the destroy of a session that only the
    configuration owns frees it. *)
Lemma config_ownership_round_trip_witness :
  (exists (w1 w2 : world) (s2 : bfd_session),
     nb_commit_create (fun a => bfd_session_create a false)
       Scenario.sh_wild (SessionsNode [Scenario.sh_wild] [])
       Scenario.world_engine_owned
     = Some (NB_OK, w1)
     /\ nb_commit_destroy
          (fun a => bfd_session_destroy (ds_event a) (ds_dnode a) false)
          Scenario.sh_wild w1
        = Some (NB_OK, w2)
     /\ w_sessions w2 !! 1%positive = Some s2
     /\ refcount s2 = 1
     /\ CHECK_FLAG (flags s2) BFD_SESS_FLAG_CONFIG = 0)
  /\ bfd_session_destroy NB_EV_APPLY Scenario.sh_wild false
       (with_running (insert (dn_xpath Scenario.sh_wild) 1%positive)
          Scenario.world_engine_owned)
     = Some (NB_OK,
             with_running (delete (dn_xpath Scenario.sh_wild))
               (with_running (insert (dn_xpath Scenario.sh_wild) 1%positive)
                  Scenario.world_engine_owned))
  /\ (exists w' : world,
        bfd_session_destroy NB_EV_APPLY Scenario.sh_wild false
          Scenario.world_configured
        = Some (NB_OK, w')
        /\ w_sessions w' !! 1%positive = None).
Proof.
  split; [|split].
  - set (w1 := match nb_commit_create (fun a => bfd_session_create a false)
                       Scenario.sh_wild (SessionsNode [Scenario.sh_wild] [])
                       Scenario.world_engine_owned with
               | Some (_, w) => w
               | None => Scenario.world_empty
               end).
    assert (Hcommit : nb_commit_create (fun a => bfd_session_create a false)
                        Scenario.sh_wild (SessionsNode [Scenario.sh_wild] [])
                        Scenario.world_engine_owned
                      = Some (NB_OK, w1))
      by (vm_compute; reflexivity).
    destruct (proj1 (config_ownership_round_trip Scenario.sh_wild
                       (SessionsNode [Scenario.sh_wild] []) false
                       Scenario.world_engine_owned 1%positive
                       Scenario.engine_session eq_refl)
                eq_refl eq_refl ltac:(cbn; lia) w1 Hcommit)
      as (_ & w2 & s2 & Hdestroy & Hs2 & Hn & Hc & _).
    exists w1, w2, s2. repeat split; assumption.
  - apply (proj1 (proj2 (config_ownership_round_trip Scenario.sh_wild
                    (SessionsNode [Scenario.sh_wild] []) false
                    (with_running (insert (dn_xpath Scenario.sh_wild) 1%positive)
                       Scenario.world_engine_owned)
                    1%positive Scenario.engine_session eq_refl)));
      reflexivity.
  - destruct (proj2 (proj2 (config_ownership_round_trip Scenario.sh_wild
                       (SessionsNode [Scenario.sh_wild] []) false
                       Scenario.world_configured 1%positive
                       Scenario.configured_session eq_refl))
                ltac:(discriminate) ltac:(cbn; lia) eq_refl)
      as (w' & Hrun & _ & Hgone & _).
    exists w'. split; [exact Hrun|]. apply Hgone. cbn. lia.
Defined.

(** ** ABORT of a session create *)

(** ABORT of a create, case by case of the source. *)
Lemma bfd_session_create_abort (args : nb_cb_create_args) (mhop : bool)
    (w : world) (p : ptr) (s : bfd_session) :
  cr_event args = NB_EV_ABORT ->
  cr_resource args = Some p ->
  w_sessions w !! p = Some s ->
  bfd_session_create args mhop w
  = Some ((NB_OK, args),
          if refcount s <=? 1
          then with_calls (fun l => l ++ [Call_bfd_session_free p])
                 (with_sessions (delete p)
                    (with_key_hash
                       (fun h => if decide (h !! key s = Some p)
                                 then delete (key s) h else h)
                       w))
          else w).
Proof.
  intros Hev Hres Hs. unfold bfd_session_create. rewrite Hev, Hres.
  erewrite bind_Some by reflexivity. run.
  destruct (refcount s <=? 1).
  - erewrite bind_Some by (apply bfd_session_free_run; exact Hs). reflexivity.
  - reflexivity.
Qed.





(** ** Profile field callbacks *)

(** Run a profile or session field callback in APPLY up to its result. *)
Ltac run_calls :=
  run;
  repeat first
    [ erewrite bind_Some by (eapply bfd_profile_update_run; lookup_now)
    | erewrite bind_Some by (eapply bfd_session_apply_run; lookup_now) ];
  cbv beta iota.

Ltac run_field Hr :=
  erewrite bind_Some by (apply nb_running_get_entry_run; exact Hr);
  run_calls.

(** The detection-multiplier setter of a profile has no comparison: it
    always assigns and notifies. *)
Lemma profile_detection_multiplier_apply (dnode : lyd_leaf Z) (w : world)
    (bp : ptr) (p : bfd_profile) :
  running_find (w_running w) (lf_xpaths dnode) = Some bp ->
  w_profiles w !! bp = Some p ->
  bfdd_bfd_profile_detection_multiplier_modify (ModifyArgs NB_EV_APPLY dnode) w
  = Some (NB_OK,
          profile_updated bp (set_detection_multiplier (lf_value dnode) p) w).
Proof.
  intros Hr Hp. unfold bfdd_bfd_profile_detection_multiplier_modify.
  cbn [md_event md_dnode]. run_field Hr. reflexivity.
Qed.

(** X1: in APPLY, on a node bound to a live profile, the seven setters other
    than detection-multiplier compare first: a value equal to the field's
    current one returns [NB_OK] at once with the world untouched, a
    different one is assigned and [bfd_profile_update] is called once. *)
Lemma profile_setters_compare (w : world) (bp : ptr) (p : bfd_profile) :
  w_profiles w !! bp = Some p ->
  (forall dnode : lyd_leaf Z,
     running_find (w_running w) (lf_xpaths dnode) = Some bp ->
     bfdd_bfd_profile_desired_transmission_interval_modify
       (ModifyArgs NB_EV_APPLY dnode) w
     = Some (NB_OK,
             if min_tx p =? lf_value dnode then w
             else profile_updated bp (set_min_tx (lf_value dnode) p) w))
  /\ (forall dnode : lyd_leaf Z,
        running_find (w_running w) (lf_xpaths dnode) = Some bp ->
        bfdd_bfd_profile_required_receive_interval_modify
          (ModifyArgs NB_EV_APPLY dnode) w
        = Some (NB_OK,
                if min_rx p =? lf_value dnode then w
                else profile_updated bp (set_min_rx (lf_value dnode) p) w))
  /\ (forall dnode : lyd_leaf Z,
        running_find (w_running w) (lf_xpaths dnode) = Some bp ->
        bfdd_bfd_profile_desired_echo_transmission_interval_modify
          (ModifyArgs NB_EV_APPLY dnode) w
        = Some (NB_OK,
                if min_echo_rx p =? lf_value dnode then w
                else profile_updated bp (set_min_echo_rx (lf_value dnode) p) w))
  /\ (forall dnode : lyd_leaf Z,
        running_find (w_running w) (lf_xpaths dnode) = Some bp ->
        bfdd_bfd_profile_minimum_ttl_modify (ModifyArgs NB_EV_APPLY dnode) w
        = Some (NB_OK,
                if minimum_ttl p =? lf_value dnode then w
                else profile_updated bp (set_minimum_ttl (lf_value dnode) p) w))
  /\ (forall dnode : lyd_leaf bool,
        running_find (w_running w) (lf_xpaths dnode) = Some bp ->
        bfdd_bfd_profile_administrative_down_modify
          (ModifyArgs NB_EV_APPLY dnode) w
        = Some (NB_OK,
                if Bool.eqb (admin_shutdown p) (lf_value dnode) then w
                else profile_updated bp
                       (set_admin_shutdown (lf_value dnode) p) w))
  /\ (forall dnode : lyd_leaf bool,
        running_find (w_running w) (lf_xpaths dnode) = Some bp ->
        bfdd_bfd_profile_passive_mode_modify (ModifyArgs NB_EV_APPLY dnode) w
        = Some (NB_OK,
                if Bool.eqb (passive p) (lf_value dnode) then w
                else profile_updated bp (set_passive (lf_value dnode) p) w))
  /\ (forall dnode : lyd_leaf bool,
        running_find (w_running w) (lf_xpaths dnode) = Some bp ->
        bfdd_bfd_profile_echo_mode_modify (ModifyArgs NB_EV_APPLY dnode) w
        = Some (NB_OK,
                if Bool.eqb (echo_mode p) (lf_value dnode) then w
                else profile_updated bp (set_echo_mode (lf_value dnode) p) w)).
Proof.
  intros Hp.
  repeat split; intros dnode Hr;
    match goal with |- ?cb _ _ = _ => unfold cb end;
    cbn [md_event md_dnode];
    unfold yang_dnode_get_uint32, yang_dnode_get_uint8, yang_dnode_get_bool;
    run_field Hr;
    match goal with |- context [if ?c then _ else _] => destruct c end;
    try reflexivity; run_calls; reflexivity.
Qed.

(** C4, the code at the failing input: the profile fast has
    detection-multiplier 3, and committing the value 3 again still calls
    [bfd_profile_update] once, where the claim asks for no call; the
    profile itself is unchanged.  The sibling setter of minimum-ttl, given
    the value the profile already has, returns without any call. *)
Theorem profile_detection_multiplier_noop_notifies :
  detection_multiplier Scenario.profile_fast = 3
  /\ bfdd_bfd_profile_detection_multiplier_modify
       (ModifyArgs NB_EV_APPLY (Scenario.profile_leaf "detection-multiplier" 3))
       Scenario.world_profile
     = Some (NB_OK,
             with_calls (fun l => l ++ [Call_bfd_profile_update 2%positive])
               Scenario.world_profile)
  /\ calls_since Scenario.world_profile
       (with_calls (fun l => l ++ [Call_bfd_profile_update 2%positive])
          Scenario.world_profile)
     = [Call_bfd_profile_update 2%positive]
  /\ minimum_ttl Scenario.profile_fast = 254
  /\ bfdd_bfd_profile_minimum_ttl_modify
       (ModifyArgs NB_EV_APPLY (Scenario.profile_leaf "minimum-ttl" 254))
       Scenario.world_profile
     = Some (NB_OK, Scenario.world_profile).
Proof.
  split; [reflexivity|].
  split.
  - rewrite (profile_detection_multiplier_apply _ _ 2%positive
               Scenario.profile_fast) by reflexivity.
    vm_compute. reflexivity.
  - split; [reflexivity|]. split; [reflexivity|].
    vm_compute. reflexivity.
Qed.

(** Scenario S5, APPLY: setting min_tx of the profile fast to 10000
    notifies once; setting it to the value it has notifies nobody. *)
Lemma profile_setters_compare_witness :
  bfdd_bfd_profile_desired_transmission_interval_modify
    (ModifyArgs NB_EV_APPLY
       (Scenario.profile_leaf "desired-transmission-interval" 10000))
    Scenario.world_profile
  = Some (NB_OK,
          profile_updated 2%positive (set_min_tx 10000 Scenario.profile_fast)
            Scenario.world_profile)
  /\ bfdd_bfd_profile_desired_transmission_interval_modify
       (ModifyArgs NB_EV_APPLY
          (Scenario.profile_leaf "desired-transmission-interval" 300000))
       Scenario.world_profile
     = Some (NB_OK, Scenario.world_profile).
Proof.
  split.
  - exact (proj1 (profile_setters_compare Scenario.world_profile 2%positive
                    Scenario.profile_fast eq_refl)
             (Scenario.profile_leaf "desired-transmission-interval" 10000)
             eq_refl).
  - exact (proj1 (profile_setters_compare Scenario.world_profile 2%positive
                    Scenario.profile_fast eq_refl)
             (Scenario.profile_leaf "desired-transmission-interval" 300000)
             eq_refl).
Defined.

(** ** Session field callbacks *)

(** C5 (as amended): in APPLY, on a node bound to a live session, the three
    interval callbacks of a session (desired-transmission-interval,
    required-receive-interval, desired-echo-transmission-interval) return
    [NB_OK] with the world untouched when the new value equals the installed
    [timers] value of their field, and otherwise assign the field of
    [peer_profile] and call [bfd_session_apply] once.  The four other
    callbacks (detection-multiplier, administrative-down, passive-mode,
    echo-mode) have no installed value to compare with: they always assign
    their field of [peer_profile] and call [bfd_session_apply] once. *)
Theorem session_field_apply :
  forall (w : world) (bs : ptr) (s : bfd_session),
    w_sessions w !! bs = Some s ->
    (forall dnode : lyd_leaf Z,
       running_find (w_running w) (lf_xpaths dnode) = Some bs ->
       bfdd_bfd_sessions_single_hop_desired_transmission_interval_modify
         (ModifyArgs NB_EV_APPLY dnode) w
       = Some (NB_OK,
               if lf_value dnode =? desired_min_tx (timers s) then w
               else session_applied bs s
                      (set_min_tx (lf_value dnode) (peer_profile s)) w))
    /\ (forall dnode : lyd_leaf Z,
          running_find (w_running w) (lf_xpaths dnode) = Some bs ->
          bfdd_bfd_sessions_single_hop_required_receive_interval_modify
            (ModifyArgs NB_EV_APPLY dnode) w
          = Some (NB_OK,
                  if lf_value dnode =? required_min_rx (timers s) then w
                  else session_applied bs s
                         (set_min_rx (lf_value dnode) (peer_profile s)) w))
    /\ (forall dnode : lyd_leaf Z,
          running_find (w_running w) (lf_xpaths dnode) = Some bs ->
          bfdd_bfd_sessions_single_hop_desired_echo_transmission_interval_modify
            (ModifyArgs NB_EV_APPLY dnode) w
          = Some (NB_OK,
                  if lf_value dnode =? required_min_echo (timers s) then w
                  else session_applied bs s
                         (set_min_echo_rx (lf_value dnode) (peer_profile s)) w))
    /\ (forall dnode : lyd_leaf Z,
          running_find (w_running w) (lf_xpaths dnode) = Some bs ->
          bfdd_bfd_sessions_single_hop_detection_multiplier_modify
            (ModifyArgs NB_EV_APPLY dnode) w
          = Some (NB_OK,
                  session_applied bs s
                    (set_detection_multiplier (lf_value dnode) (peer_profile s))
                    w))
    /\ (forall dnode : lyd_leaf bool,
          running_find (w_running w) (lf_xpaths dnode) = Some bs ->
          bfdd_bfd_sessions_single_hop_administrative_down_modify
            (ModifyArgs NB_EV_APPLY dnode) w
          = Some (NB_OK,
                  session_applied bs s
                    (set_admin_shutdown (lf_value dnode) (peer_profile s)) w))
    /\ (forall dnode : lyd_leaf bool,
          running_find (w_running w) (lf_xpaths dnode) = Some bs ->
          bfdd_bfd_sessions_single_hop_passive_mode_modify
            (ModifyArgs NB_EV_APPLY dnode) w
          = Some (NB_OK,
                  session_applied bs s
                    (set_passive (lf_value dnode) (peer_profile s)) w))
    /\ (forall dnode : lyd_leaf bool,
          running_find (w_running w) (lf_xpaths dnode) = Some bs ->
          bfdd_bfd_sessions_single_hop_echo_mode_modify
            (ModifyArgs NB_EV_APPLY dnode) w
          = Some (NB_OK,
                  session_applied bs s
                    (set_echo_mode (lf_value dnode) (peer_profile s)) w))
    /\ (forall pp : bfd_profile,
          calls_since w (session_applied bs s pp w) = [Call_bfd_session_apply bs]
          /\ w_sessions (session_applied bs s pp w) !! bs
             = Some (set_peer_profile pp s)).
Proof.
  intros w bs s Hs.
  repeat split; try (intros dnode Hr;
    match goal with |- ?cb _ _ = _ => unfold cb end;
    cbn [md_event md_dnode];
    unfold yang_dnode_get_uint32, yang_dnode_get_uint8, yang_dnode_get_bool;
    run_field Hr;
    try match goal with |- context [if ?c then _ else _] => destruct c end;
    try reflexivity; run_calls; reflexivity).
  - apply calls_since_app. reflexivity.
  - apply lookup_insert_eq.
Qed.

(** On the configured session of [sh_wild], whose installed
    desired_min_tx is 300000: committing 300000 again changes nothing,
    committing 10000 assigns [peer_profile.min_tx] and re-applies the
    session. *)
Lemma session_field_apply_witness :
  bfdd_bfd_sessions_single_hop_desired_transmission_interval_modify
    (ModifyArgs NB_EV_APPLY
       (Scenario.session_leaf "desired-transmission-interval" 300000))
    Scenario.world_configured
  = Some (NB_OK, Scenario.world_configured)
  /\ bfdd_bfd_sessions_single_hop_desired_transmission_interval_modify
       (ModifyArgs NB_EV_APPLY
          (Scenario.session_leaf "desired-transmission-interval" 10000))
       Scenario.world_configured
     = Some (NB_OK,
             session_applied 1%positive Scenario.configured_session
               (set_min_tx 10000 Scenario.profile_fast)
               Scenario.world_configured).
Proof.
  split.
  - exact (proj1 (session_field_apply Scenario.world_configured 1%positive
                    Scenario.configured_session eq_refl)
             (Scenario.session_leaf "desired-transmission-interval" 300000)
             eq_refl).
  - exact (proj1 (session_field_apply Scenario.world_configured 1%positive
                    Scenario.configured_session eq_refl)
             (Scenario.session_leaf "desired-transmission-interval" 10000)
             eq_refl).
Defined.

(** C5, counterexample to the claim as stated: on the configured session of
    [sh_wild] the administrative-down callback calls [bfd_session_apply]
    for the new value false and for the new value true, so it does so for
    the value that is installed, whichever of the two that is; for false,
    which [peer_profile] already holds, the session object is left as it
    was and the call is still made.  The same with detection-multiplier 3,
    which [peer_profile] already holds. *)
Lemma session_noop_still_applies :
  admin_shutdown (peer_profile Scenario.configured_session) = false
  /\ (exists w' : world,
        bfdd_bfd_sessions_single_hop_administrative_down_modify
          (ModifyArgs NB_EV_APPLY
             (Scenario.session_leaf "administrative-down" false))
          Scenario.world_configured
        = Some (NB_OK, w')
        /\ calls_since Scenario.world_configured w'
           = [Call_bfd_session_apply 1%positive]
        /\ w_sessions w' = w_sessions Scenario.world_configured)
  /\ (exists w' : world,
        bfdd_bfd_sessions_single_hop_administrative_down_modify
          (ModifyArgs NB_EV_APPLY
             (Scenario.session_leaf "administrative-down" true))
          Scenario.world_configured
        = Some (NB_OK, w')
        /\ calls_since Scenario.world_configured w'
           = [Call_bfd_session_apply 1%positive])
  /\ detection_multiplier (peer_profile Scenario.configured_session) = 3
  /\ (exists w' : world,
        bfdd_bfd_sessions_single_hop_detection_multiplier_modify
          (ModifyArgs NB_EV_APPLY
             (Scenario.session_leaf "detection-multiplier" 3))
          Scenario.world_configured
        = Some (NB_OK, w')
        /\ calls_since Scenario.world_configured w'
           = [Call_bfd_session_apply 1%positive]
        /\ w_sessions w' = w_sessions Scenario.world_configured).
Proof.
  split; [reflexivity|].
  split; [eexists; repeat split; vm_compute; reflexivity|].
  split; [eexists; repeat split; vm_compute; reflexivity|].
  split; [reflexivity|].
  eexists; repeat split; vm_compute; reflexivity.
Qed.

(** * Further properties *)

(** ** Phases without effect *)

(** X2: the phases without effect.  A session create in VALIDATE either
    has no result, which only
    happens for a multi-hop node without source-addr, or returns with the
    world and the resource slot as they were.  In every phase other than
    APPLY each of the following returns with the world as it was: the
    session destroy; the modify callbacks of the eight leaves of a profile
    and of the leaves detection-multiplier, desired-transmission-interval,
    required-receive-interval, desired-echo-transmission-interval,
    administrative-down, passive-mode, echo-mode and (multi-hop)
    minimum-ttl of a session; the two minimum-ttl destroy callbacks; and,
    whatever the engine functions they call in APPLY do, the modify and
    the destroy of the session leaf profile, the destroy of the bfd
    container and the create and the destroy of a profile.  The create of
    the bfd container and the modify and the destroy of the session leaf
    source-addr do so in every phase. *)
Theorem only_apply_and_prepare_change_the_world :
  forall (w : world),
    (forall (args : nb_cb_create_args) (mhop : bool),
       cr_event args = NB_EV_VALIDATE ->
       match bfd_session_create args mhop w with
       | Some (r, w') => w' = w /\ cr_resource (snd r) = cr_resource args
       | None => mhop = true /\ source_addr (cr_dnode args) = None
       end)
    /\ (forall args : nb_cb_create_args,
          bfdd_bfd_create args w = Some (NB_OK, w))
    /\ (forall (event : nb_event) (dnode : lyd_node) (mhop : bool),
          event <> NB_EV_APPLY ->
          exists r : nb_error,
            bfd_session_destroy event dnode mhop w = Some (r, w))
    /\ (forall (event : nb_event) (dnode : lyd_leaf Z),
          event <> NB_EV_APPLY ->
          Forall (fun cb : nb_cb_modify_args Z -> M nb_error =>
                    exists r : nb_error,
                      cb (ModifyArgs event dnode) w = Some (r, w))
                 (profile_modify_callbacks_Z ++ session_modify_callbacks_Z))
    /\ (forall (event : nb_event) (dnode : lyd_leaf bool),
          event <> NB_EV_APPLY ->
          Forall (fun cb : nb_cb_modify_args bool -> M nb_error =>
                    cb (ModifyArgs event dnode) w = Some (NB_OK, w))
                 (profile_modify_callbacks_bool
                    ++ session_modify_callbacks_bool))
    /\ (forall (event : nb_event) (dnode : lyd_leaf Z),
          event <> NB_EV_APPLY ->
          Forall (fun cb : nb_cb_destroy_args (lyd_leaf Z) -> M nb_error =>
                    cb (DestroyArgs event dnode) w = Some (NB_OK, w))
                 minimum_ttl_destroy_callbacks)
    /\ (forall (event : nb_event) (dnode : lyd_leaf sockaddr_any),
          bfdd_bfd_sessions_single_hop_source_addr_modify
            (ModifyArgs event dnode) w = Some (NB_OK, w)
          /\ bfdd_bfd_sessions_single_hop_source_addr_destroy
               (DestroyArgs event dnode) w = Some (NB_OK, w))
    /\ (forall (bfd_profile_apply : string -> ptr -> M unit)
               (bfd_profile_remove : ptr -> M unit)
               (event : nb_event) (dnode : lyd_leaf string),
          event <> NB_EV_APPLY ->
          bfdd_bfd_sessions_single_hop_profile_modify bfd_profile_apply
            (ModifyArgs event dnode) w = Some (NB_OK, w)
          /\ bfdd_bfd_sessions_single_hop_profile_destroy bfd_profile_remove
               (DestroyArgs event dnode) w = Some (NB_OK, w))
    /\ (forall (bfd_sessions_remove_manual : M unit)
               (bfd_profile_new : string -> M ptr)
               (bfd_profile_free : ptr -> M unit)
               (event : nb_event) (dnode : profile_node),
          event <> NB_EV_APPLY ->
          bfdd_bfd_destroy bfd_sessions_remove_manual
            (DestroyArgs event dnode) w = Some (NB_OK, w)
          /\ bfdd_bfd_profile_create bfd_profile_new
               (ProfileCreateArgs event dnode) w = Some (NB_OK, w)
          /\ bfdd_bfd_profile_destroy bfd_profile_free
               (DestroyArgs event dnode) w = Some (NB_OK, w)).
Proof.
  intros w.
  split; [|split; [reflexivity|split; [|split; [|split; [|split;
    [|split; [|split]]]]]]].
  - intros args mhop Hev.
    rewrite (bfd_session_create_validate args mhop w Hev).
    destruct (link_local_without_interface _); [split; reflexivity|].
    unfold session_siblings, wildcard_verdict.
    destruct mhop.
    + destruct (source_addr (cr_dnode args)); [|split; reflexivity].
      destruct (existsb _ _ && _); split; reflexivity.
    + destruct (existsb _ _ && _); split; reflexivity.
  - intros event dnode mhop Hev.
    destruct event; try contradiction; cbn [bfd_session_destroy];
      try (exists NB_OK; reflexivity).
    unfold bfd_key_lookup, gets, bind.
    destruct (w_key_hash w !! _); eexists; reflexivity.
  - intros event dnode Hev.
    unfold profile_modify_callbacks_Z, session_modify_callbacks_Z.
    cbn [app].
    repeat match goal with |- Forall _ _ => constructor end;
      destruct event; try contradiction;
      match goal with |- exists _, ?cb _ _ = _ => unfold cb end;
      cbn [md_event md_dnode];
      try (exists NB_OK; reflexivity);
      match goal with
      | |- context [if ?c then _ else _] =>
          destruct c; eexists; reflexivity
      end.
  - intros event dnode Hev.
    unfold profile_modify_callbacks_bool, session_modify_callbacks_bool.
    cbn [app].
    repeat match goal with |- Forall _ _ => constructor end;
      destruct event; try contradiction; reflexivity.
  - intros event dnode Hev.
    unfold minimum_ttl_destroy_callbacks.
    repeat match goal with |- Forall _ _ => constructor end;
      destruct event; try contradiction; reflexivity.
  - intros event dnode. split; reflexivity.
  - intros apply_ remove_ event dnode Hev.
    destruct event; try contradiction; split; reflexivity.
  - intros remove_manual new_ free_ event dnode Hev.
    destruct event; try contradiction; repeat split.
Qed.

(** ** Life of a session that only the configuration owns *)

(** What a committed create leaves when the registry does not know the
    node's key: one new session, registered by the engine and bound to the
    node. *)
Lemma commit_create_allocating (dnode : lyd_node) (sessions : sessions_node)
    (mhop : bool) (w w1 : world) :
  w_key_hash w !! bfd_session_get_key mhop dnode = None ->
  nb_commit_create (fun a => bfd_session_create a mhop) dnode sessions w
    = Some (NB_OK, w1) ->
  exists d : Z,
    w1 = with_running (insert (dn_xpath dnode) (fresh_ptr w))
           (with_sessions
              (insert (fresh_ptr w)
                 (set_my_discr d
                    (new_session mhop (bfd_session_get_key mhop dnode))))
              (with_key_hash
                 (insert (bfd_session_get_key mhop dnode) (fresh_ptr w))
                 (with_discrs (drop 1)
                    (with_calls
                       (fun l => l ++ [Call_bfd_session_new (fresh_ptr w);
                                       Call_bs_registrate (fresh_ptr w)])
                       w)))).
Proof.
  intros Hk. unfold nb_commit_create.
  set (K := bfd_session_get_key mhop dnode) in *.
  set (p := fresh_ptr w).
  unfold bind at 1.
  destruct (bfd_session_create
              (CreateArgs NB_EV_VALIDATE dnode sessions None "") mhop w)
    as [[[rv av] wv]|] eqn:Hv; [|discriminate].
  apply create_validate_keeps_world in Hv; [subst wv|reflexivity].
  destruct rv; try (cbn; unfold ret; congruence).
  cbn [fst]. unfold bind at 1.
  rewrite (prepare_allocates
             (CreateArgs NB_EV_PREPARE dnode sessions None "") mhop w
             eq_refl Hk).
  cbn [fst snd set_resource cr_resource cr_dnode]. fold K. fold p.
  unfold bind at 1.
  set (wp := with_sessions (insert p (new_session mhop K))
               (with_calls (fun l => l ++ [Call_bfd_session_new p]) w)).
  assert (Hsp : w_sessions wp !! p = Some (new_session mhop K))
    by apply lookup_insert_eq.
  rewrite (bfd_session_create_apply
             (CreateArgs NB_EV_APPLY dnode sessions (Some p) "")
             mhop wp p _ eq_refl eq_refl Hsp).
  cbn [my_discr new_session Z.eqb cr_dnode].
  rewrite (bs_registrate_run p wp _ Hsp).
  destruct (w_discrs wp) as [|[d|] rest]; unfold ret; cbn [fst];
    intros Hw1; inversion Hw1; subst w1; clear Hw1.
  exists d.
  unfold with_running, with_sessions, with_key_hash, with_discrs, with_calls;
    cbn.
  rewrite insert_insert_eq, <- app_assoc. reflexivity.
Qed.

(** X3: create and destroy of a peer the engine does not know.  When the
    registry has no session under the node's key, a committed create leaves
    exactly one new session: on an address that was free, with refcount 1
    and CONFIG set, registered under the key and bound to the node, the
    engine having been asked to allocate and to register once each.  The
    destroy of the node then commits and frees that session: heap, registry
    and profiles are exactly as before the create and the node is unbound.
    A second destroy is rejected in VALIDATE with
    [NB_ERR_INCONSISTENCY] and changes nothing. *)
Theorem create_destroy_round_trip :
  forall (dnode : lyd_node) (sessions : sessions_node) (mhop : bool)
         (w w1 : world),
    w_key_hash w !! bfd_session_get_key mhop dnode = None ->
    nb_commit_create (fun a => bfd_session_create a mhop) dnode sessions w
      = Some (NB_OK, w1) ->
    exists (p : ptr) (s1 : bfd_session) (w2 : world),
      w_sessions w !! p = None
      /\ w_sessions w1 = <[p := s1]> (w_sessions w)
      /\ refcount s1 = 1
      /\ CHECK_FLAG (flags s1) BFD_SESS_FLAG_CONFIG <> 0
      /\ key s1 = bfd_session_get_key mhop dnode
      /\ w_key_hash w1 !! bfd_session_get_key mhop dnode = Some p
      /\ w_running w1 !! dn_xpath dnode = Some p
      /\ calls_since w w1 = [Call_bfd_session_new p; Call_bs_registrate p]
      /\ nb_commit_destroy
           (fun a => bfd_session_destroy (ds_event a) (ds_dnode a) mhop)
           dnode w1
         = Some (NB_OK, w2)
      /\ w_sessions w2 = w_sessions w
      /\ w_key_hash w2 = w_key_hash w
      /\ w_profiles w2 = w_profiles w
      /\ w_running w2 = delete (dn_xpath dnode) (w_running w)
      /\ calls_since w1 w2 = [Call_bfd_session_free p]
      /\ nb_commit_destroy
           (fun a => bfd_session_destroy (ds_event a) (ds_dnode a) mhop)
           dnode w2
         = Some (NB_ERR_INCONSISTENCY, w2).
Proof.
  intros dnode sessions mhop w w1 Hk Hcommit.
  destruct (commit_create_allocating dnode sessions mhop w w1 Hk Hcommit)
    as [d Hw1].
  set (K := bfd_session_get_key mhop dnode) in *.
  set (p := fresh_ptr w) in *.
  set (s1 := set_my_discr d (new_session mhop K)) in *.
  assert (Hfresh : w_sessions w !! p = None) by apply fresh_ptr_fresh.
  assert (Hs1 : w_sessions w1 !! p = Some s1)
    by (rewrite Hw1; apply lookup_insert_eq).
  assert (Hr1 : w_running w1 !! dn_xpath dnode = Some p)
    by (rewrite Hw1; apply lookup_insert_eq).
  assert (Hk1 : w_key_hash w1 !! K = Some p)
    by (rewrite Hw1; apply lookup_insert_eq).
  assert (Hc1 : CHECK_FLAG (flags s1) BFD_SESS_FLAG_CONFIG <> 0)
    by (apply (new_session_flags_spec mhop K)).
  pose proof (destroy_apply_last dnode mhop w1 p s1 Hr1 Hs1 Hc1
                ltac:(cbn; lia)) as Happly.
  match type of Happly with _ = Some (_, ?x) => set (w2 := x) in * end.
  assert (Hk2 : w_key_hash w2 = w_key_hash w).
  { unfold w2. cbn [w_key_hash with_calls with_sessions with_key_hash
                      with_running].
    change (key s1) with K. rewrite Hk1.
    rewrite decide_True by reflexivity.
    rewrite Hw1. cbn. apply delete_insert_id. exact Hk. }
  exists p, s1, w2.
  split; [exact Hfresh|].
  split; [rewrite Hw1; reflexivity|].
  split; [reflexivity|].
  split; [exact Hc1|].
  split; [reflexivity|].
  split; [exact Hk1|].
  split; [exact Hr1|].
  split; [rewrite Hw1; apply calls_since_app; reflexivity|].
  split.
  { unfold nb_commit_destroy.
    erewrite bind_Some
      by (cbn [bfd_session_destroy ds_event ds_dnode];
          unfold bfd_key_lookup, gets, bind; fold K; rewrite Hk1;
          reflexivity).
    cbv beta iota. erewrite bind_Some by reflexivity. cbv beta iota.
    exact Happly. }
  split.
  { unfold w2. cbn. rewrite Hw1. cbn. apply delete_insert_id. exact Hfresh. }
  split; [exact Hk2|].
  split; [unfold w2; rewrite Hw1; reflexivity|].
  split.
  { unfold w2. cbn. rewrite Hw1. cbn. apply delete_insert_eq. }
  split; [apply calls_since_app; reflexivity|].
  unfold nb_commit_destroy.
  erewrite bind_Some
    by (cbn [bfd_session_destroy ds_event ds_dnode];
        unfold bfd_key_lookup, gets, bind; fold K; rewrite Hk2, Hk;
        reflexivity).
  reflexivity.
Qed.

(** Scenario S1: the single-hop peer 10.0.0.1 with interface "*" on an
    empty daemon whose engine hands out discriminator 8. *)
Lemma create_destroy_round_trip_witness :
  exists (w1 w2 : world),
    nb_commit_create (fun a => bfd_session_create a false)
      Scenario.sh_wild (SessionsNode [Scenario.sh_wild] [])
      (with_discrs (fun _ => [Some 8]) Scenario.world_empty)
    = Some (NB_OK, w1)
    /\ nb_commit_destroy
         (fun a => bfd_session_destroy (ds_event a) (ds_dnode a) false)
         Scenario.sh_wild w1
       = Some (NB_OK, w2)
    /\ w_sessions w2 = ∅
    /\ w_key_hash w2 = ∅.
Proof.
  set (w0 := with_discrs (fun _ => [Some 8]) Scenario.world_empty).
  set (w1 := match nb_commit_create (fun a => bfd_session_create a false)
                     Scenario.sh_wild (SessionsNode [Scenario.sh_wild] [])
                     w0 with
             | Some (_, w) => w
             | None => Scenario.world_empty
             end).
  assert (Hcommit : nb_commit_create (fun a => bfd_session_create a false)
                      Scenario.sh_wild (SessionsNode [Scenario.sh_wild] [])
                      w0
                    = Some (NB_OK, w1))
    by (vm_compute; reflexivity).
  destruct (create_destroy_round_trip Scenario.sh_wild
              (SessionsNode [Scenario.sh_wild] []) false w0 w1
              eq_refl Hcommit)
    as (p & s1 & w2 & _ & _ & _ & _ & _ & _ & _ & _ & Hd & Hs & Hk & _).
  exists w1, w2. repeat split; assumption.
Defined.

(** X4: a refused registration leaves nothing behind once the change is
    aborted.  When the registry has no session under the node's key and the
    engine refuses the registration, PREPARE allocates a session, APPLY
    returns [NB_ERR_RESOURCE] without binding the node, and the ABORT of
    the change frees the session: heap, registry, running configuration and
    profiles are as before PREPARE, and the engine was asked to allocate,
    to register and to free the same object, in this order. *)
Theorem refused_registration_is_undone_by_abort :
  forall (dnode : lyd_node) (sessions : sessions_node) (mhop : bool)
         (w : world),
    w_key_hash w !! bfd_session_get_key mhop dnode = None ->
    engine_refuses w = true ->
    exists (p : ptr) (w1 w2 w3 : world),
      bfd_session_create (CreateArgs NB_EV_PREPARE dnode sessions None "")
        mhop w
      = Some ((NB_OK, CreateArgs NB_EV_PREPARE dnode sessions (Some p) ""), w1)
      /\ bfd_session_create
           (CreateArgs NB_EV_APPLY dnode sessions (Some p) "") mhop w1
         = Some ((NB_ERR_RESOURCE,
                  CreateArgs NB_EV_APPLY dnode sessions (Some p) ""), w2)
      /\ w_running w2 = w_running w
      /\ bfd_session_create
           (CreateArgs NB_EV_ABORT dnode sessions (Some p) "") mhop w2
         = Some ((NB_OK, CreateArgs NB_EV_ABORT dnode sessions (Some p) ""), w3)
      /\ w_sessions w3 = w_sessions w
      /\ w_key_hash w3 = w_key_hash w
      /\ w_running w3 = w_running w
      /\ w_profiles w3 = w_profiles w
      /\ calls_since w w3
         = [Call_bfd_session_new p; Call_bs_registrate p;
            Call_bfd_session_free p].
Proof.
  intros dnode sessions mhop w Hk Href.
  set (K := bfd_session_get_key mhop dnode) in *.
  set (p := fresh_ptr w).
  set (w1 := with_sessions (insert p (new_session mhop K))
               (with_calls (fun l => l ++ [Call_bfd_session_new p]) w)).
  set (w2 := with_discrs (drop 1)
               (with_calls (fun l => l ++ [Call_bs_registrate p]) w1)).
  assert (Hs1 : w_sessions w1 !! p = Some (new_session mhop K))
    by apply lookup_insert_eq.
  assert (Hs2 : w_sessions w2 !! p = Some (new_session mhop K))
    by apply lookup_insert_eq.
  assert (Hreg : bs_registrate p w1 = Some (None, w2)).
  { rewrite (bs_registrate_run p w1 _ Hs1).
    unfold engine_refuses in Href.
    change (w_discrs w1) with (w_discrs w).
    destruct (w_discrs w) as [|[d|] rest]; try discriminate; reflexivity. }
  eexists p, w1, w2, _.
  split.
  { exact (prepare_allocates
             (CreateArgs NB_EV_PREPARE dnode sessions None "") mhop w
             eq_refl Hk). }
  split.
  { rewrite (bfd_session_create_apply
               (CreateArgs NB_EV_APPLY dnode sessions (Some p) "")
               mhop w1 p _ eq_refl eq_refl Hs1).
    cbn [my_discr new_session Z.eqb]. rewrite Hreg. reflexivity. }
  split; [reflexivity|].
  split.
  { rewrite (bfd_session_create_abort
               (CreateArgs NB_EV_ABORT dnode sessions (Some p) "")
               mhop w2 p _ eq_refl eq_refl Hs2).
    cbn [refcount new_session Z.leb Z.compare Pos.compare]. reflexivity. }
  split; [cbn; apply delete_insert_id, fresh_ptr_fresh|].
  split.
  { cbn. change (w_key_hash w !! K) with (w_key_hash w !! K). rewrite Hk.
    rewrite decide_False by discriminate. reflexivity. }
  split; [reflexivity|]. split; [reflexivity|].
  apply calls_since_app. cbn. rewrite <- !app_assoc. reflexivity.
Qed.

(** The peer of [sh_wild] on an empty daemon whose engine refuses. *)
Lemma refused_registration_is_undone_by_abort_witness :
  exists (p : ptr) (w1 w2 w3 : world),
    bfd_session_create
      (CreateArgs NB_EV_PREPARE Scenario.sh_wild
         (SessionsNode [Scenario.sh_wild] []) None "")
      false Scenario.world_empty
    = Some ((NB_OK,
             CreateArgs NB_EV_PREPARE Scenario.sh_wild
               (SessionsNode [Scenario.sh_wild] []) (Some p) ""), w1)
    /\ bfd_session_create
         (CreateArgs NB_EV_APPLY Scenario.sh_wild
            (SessionsNode [Scenario.sh_wild] []) (Some p) "")
         false w1
       = Some ((NB_ERR_RESOURCE,
                CreateArgs NB_EV_APPLY Scenario.sh_wild
                  (SessionsNode [Scenario.sh_wild] []) (Some p) ""), w2)
    /\ bfd_session_create
         (CreateArgs NB_EV_ABORT Scenario.sh_wild
            (SessionsNode [Scenario.sh_wild] []) (Some p) "")
         false w2
       = Some ((NB_OK,
                CreateArgs NB_EV_ABORT Scenario.sh_wild
                  (SessionsNode [Scenario.sh_wild] []) (Some p) ""), w3)
    /\ w_sessions w3 = ∅.
Proof.
  destruct (refused_registration_is_undone_by_abort Scenario.sh_wild
              (SessionsNode [Scenario.sh_wild] []) false
              Scenario.world_empty eq_refl eq_refl)
    as (p & w1 & w2 & w3 & Hp & Ha & _ & Hb & Hs & _).
  exists p, w1, w2, w3. repeat split; assumption.
Defined.

(** ** Repeating and undoing a profile change *)

(** X7: the comparing setters are idempotent.  For each profile setter
    other than detection-multiplier, on a node bound to a live profile,
    APPLY returns [NB_OK], and running the same APPLY again on the resulting
    world returns [NB_OK] and changes nothing at all: the repeated commit of
    a value makes no further [bfd_profile_update] call. *)
Theorem comparing_profile_setters_idempotent :
  forall (w : world) (bp : ptr) (p : bfd_profile),
    w_profiles w !! bp = Some p ->
    (forall dnode : lyd_leaf Z,
       running_find (w_running w) (lf_xpaths dnode) = Some bp ->
       Forall (fun cb : nb_cb_modify_args Z -> M nb_error =>
                 exists w1 : world,
                   cb (ModifyArgs NB_EV_APPLY dnode) w = Some (NB_OK, w1)
                   /\ cb (ModifyArgs NB_EV_APPLY dnode) w1 = Some (NB_OK, w1))
              comparing_profile_callbacks_Z)
    /\ (forall dnode : lyd_leaf bool,
          running_find (w_running w) (lf_xpaths dnode) = Some bp ->
          Forall (fun cb : nb_cb_modify_args bool -> M nb_error =>
                    exists w1 : world,
                      cb (ModifyArgs NB_EV_APPLY dnode) w = Some (NB_OK, w1)
                      /\ cb (ModifyArgs NB_EV_APPLY dnode) w1
                         = Some (NB_OK, w1))
                 profile_modify_callbacks_bool).
Proof.
  intros w bp p Hp.
  split; intros dnode Hr;
    unfold comparing_profile_callbacks_Z, profile_modify_callbacks_bool;
    repeat match goal with |- Forall _ _ => constructor end;
    match goal with |- exists _, ?cb _ _ = _ /\ _ => unfold cb end;
    cbn [md_event md_dnode];
    unfold yang_dnode_get_uint32, yang_dnode_get_uint8, yang_dnode_get_bool;
    cbv beta iota zeta;
    run_field Hr;
    match goal with |- context [if ?c then _ else _] => destruct c eqn:Hc end.
  all: try (exists w; split; [reflexivity|]; run_field Hr; rewrite Hc;
            reflexivity).
  all: run_calls; eexists; (split; [reflexivity|]);
    (erewrite bind_Some by (apply nb_running_get_entry_run; exact Hr));
    run_calls;
    cbn [min_tx min_rx min_echo_rx minimum_ttl admin_shutdown passive echo_mode
         set_min_tx set_min_rx set_min_echo_rx set_minimum_ttl
         set_admin_shutdown set_passive set_echo_mode];
    rewrite ?Z.eqb_refl, ?eqb_reflx; reflexivity.
Qed.

(** Scenario S5: setting min_tx of the profile fast to 10000 twice. *)
Lemma comparing_profile_setters_idempotent_witness :
  exists w1 : world,
    bfdd_bfd_profile_desired_transmission_interval_modify
      (ModifyArgs NB_EV_APPLY
         (Scenario.profile_leaf "desired-transmission-interval" 10000))
      Scenario.world_profile
    = Some (NB_OK, w1)
    /\ bfdd_bfd_profile_desired_transmission_interval_modify
         (ModifyArgs NB_EV_APPLY
            (Scenario.profile_leaf "desired-transmission-interval" 10000))
         w1
       = Some (NB_OK, w1).
Proof.
  pose proof (proj1 (comparing_profile_setters_idempotent
                       Scenario.world_profile 2%positive
                       Scenario.profile_fast eq_refl)
                (Scenario.profile_leaf "desired-transmission-interval" 10000)
                eq_refl) as H.
  unfold comparing_profile_callbacks_Z in H.
  apply Forall_cons_1 in H as [H _]. exact H.
Defined.

(** X8: destroying minimum-ttl restores the default, whatever was set.  On
    a node bound to a live profile, APPLY of the minimum-ttl destroy sets
    the field to [BFD_DEF_MHOP_TTL] (254) and calls [bfd_profile_update],
    also when the field already holds the default; a modify to any value
    followed by the destroy leaves the same profile as the destroy alone.
    The multi-hop session leaf behaves alike on [peer_profile], with
    [bfd_session_apply] called by the modify and by the destroy. *)
Theorem minimum_ttl_destroy_restores_default :
  forall (w : world) (entry : ptr) (mnode dnode : lyd_leaf Z),
    running_find (w_running w) (lf_xpaths mnode) = Some entry ->
    running_find (w_running w) (lf_xpaths dnode) = Some entry ->
    (forall p : bfd_profile,
       w_profiles w !! entry = Some p ->
       bfdd_bfd_profile_minimum_ttl_destroy (DestroyArgs NB_EV_APPLY dnode) w
       = Some (NB_OK,
               profile_updated entry (set_minimum_ttl BFD_DEF_MHOP_TTL p) w)
       /\ exists w1 w2 : world,
            bfdd_bfd_profile_minimum_ttl_modify
              (ModifyArgs NB_EV_APPLY mnode) w
            = Some (NB_OK, w1)
            /\ bfdd_bfd_profile_minimum_ttl_destroy
                 (DestroyArgs NB_EV_APPLY dnode) w1
               = Some (NB_OK, w2)
            /\ w_profiles w2
               = <[entry := set_minimum_ttl BFD_DEF_MHOP_TTL p]> (w_profiles w)
            /\ In (Call_bfd_profile_update entry) (calls_since w1 w2))
    /\ (forall s : bfd_session,
          w_sessions w !! entry = Some s ->
          bfdd_bfd_sessions_multi_hop_minimum_ttl_destroy
            (DestroyArgs NB_EV_APPLY dnode) w
          = Some (NB_OK,
                  session_applied entry s
                    (set_minimum_ttl BFD_DEF_MHOP_TTL (peer_profile s)) w)
          /\ exists w1 w2 : world,
               bfdd_bfd_sessions_multi_hop_minimum_ttl_modify
                 (ModifyArgs NB_EV_APPLY mnode) w
               = Some (NB_OK, w1)
               /\ calls_since w w1 = [Call_bfd_session_apply entry]
               /\ bfdd_bfd_sessions_multi_hop_minimum_ttl_destroy
                    (DestroyArgs NB_EV_APPLY dnode) w1
                  = Some (NB_OK, w2)
               /\ calls_since w1 w2 = [Call_bfd_session_apply entry]
               /\ w_sessions w2
                  = <[entry := set_peer_profile
                                (set_minimum_ttl BFD_DEF_MHOP_TTL
                                   (peer_profile s)) s]> (w_sessions w)).
Proof.
  intros w bp mnode dnode Hm Hd. split.
  - intros p Hp. split.
    + unfold bfdd_bfd_profile_minimum_ttl_destroy. cbn [ds_event ds_dnode].
      run_field Hd. reflexivity.
    + unfold bfdd_bfd_profile_minimum_ttl_modify,
        bfdd_bfd_profile_minimum_ttl_destroy.
      cbn [md_event md_dnode ds_event ds_dnode]. cbv beta iota zeta.
      run_field Hm.
      destruct (minimum_ttl p =? yang_dnode_get_uint8 mnode).
      * eexists _, _. split; [reflexivity|].
        run_field Hd. split; [reflexivity|].
        split; [reflexivity|].
        rewrite (calls_since_app w _ [Call_bfd_profile_update bp])
          by reflexivity.
        apply in_eq.
      * run_calls. eexists _, _. split; [reflexivity|].
        erewrite bind_Some by (apply nb_running_get_entry_run; exact Hd).
        run_calls. split; [reflexivity|].
        split; [cbn; apply insert_insert_eq|].
        erewrite calls_since_app; [apply in_eq|].
        cbn. reflexivity.
  - intros s Hs. split.
    + unfold bfdd_bfd_sessions_multi_hop_minimum_ttl_destroy.
      cbn [ds_event ds_dnode]. run_field Hd. reflexivity.
    + unfold bfdd_bfd_sessions_multi_hop_minimum_ttl_modify,
        bfdd_bfd_sessions_multi_hop_minimum_ttl_destroy.
      cbn [md_event md_dnode ds_event ds_dnode]. cbv beta iota zeta.
      run_field Hm. eexists _, _. split; [reflexivity|].
      split; [apply calls_since_app; reflexivity|].
      erewrite bind_Some by (apply nb_running_get_entry_run; exact Hd).
      run_calls. split; [reflexivity|].
      split; [apply calls_since_app; reflexivity|].
      cbn. rewrite insert_insert_eq. reflexivity.
Qed.

(** On the profile fast: minimum-ttl set to 10, then destroyed. *)
Lemma minimum_ttl_destroy_restores_default_witness :
  exists w1 w2 : world,
    bfdd_bfd_profile_minimum_ttl_modify
      (ModifyArgs NB_EV_APPLY (Scenario.profile_leaf "minimum-ttl" 10))
      Scenario.world_profile
    = Some (NB_OK, w1)
    /\ bfdd_bfd_profile_minimum_ttl_destroy
         (DestroyArgs NB_EV_APPLY (Scenario.profile_leaf "minimum-ttl" 10)) w1
       = Some (NB_OK, w2)
    /\ w_profiles w2
       = <[2%positive := set_minimum_ttl BFD_DEF_MHOP_TTL Scenario.profile_fast]>
           (w_profiles Scenario.world_profile).
Proof.
  destruct (proj2 (proj1 (minimum_ttl_destroy_restores_default
                            Scenario.world_profile 2%positive
                            (Scenario.profile_leaf "minimum-ttl" 10)
                            (Scenario.profile_leaf "minimum-ttl" 10)
                            eq_refl eq_refl)
                     Scenario.profile_fast eq_refl))
    as (w1 & w2 & H1 & H2 & H3 & _).
  exists w1, w2. repeat split; assumption.
Defined.

(** ** Intervals stay in range *)

(** X9: a committed interval change keeps the intervals in range.  Take a
    node bound to a live profile (or session) whose three intervals lie in
    [10000, 60000000], and run one of the three interval setters through
    VALIDATE, PREPARE and APPLY with any value.  The run returns; it ends
    with [NB_ERR_VALIDATION] exactly when the value is out of range, and
    then the world is untouched; otherwise it ends with [NB_OK].  In both
    cases the three intervals of the profile (of the session's
    [peer_profile]) lie in the range afterwards, and after an in-range
    change of a profile the field holds the new value. *)
Theorem committed_interval_keeps_range :
  forall (w : world) (entry : ptr) (dnode : lyd_leaf Z),
    running_find (w_running w) (lf_xpaths dnode) = Some entry ->
    (forall p : bfd_profile,
       w_profiles w !! entry = Some p ->
       intervals_in_range p ->
       Forall (fun cf : (nb_cb_modify_args Z -> M nb_error)
                        * (bfd_profile -> Z) =>
                 exists (r : nb_error) (w' : world) (p' : bfd_profile),
                   nb_commit_modify (fst cf) dnode w = Some (r, w')
                   /\ w_profiles w' !! entry = Some p'
                   /\ intervals_in_range p'
                   /\ (r = NB_ERR_VALIDATION
                       <-> lf_value dnode < 10000 \/ 60000000 < lf_value dnode)
                   /\ (r = NB_OK <-> 10000 <= lf_value dnode <= 60000000)
                   /\ (r = NB_ERR_VALIDATION -> w' = w)
                   /\ (r = NB_OK -> snd cf p' = lf_value dnode))
              profile_interval_callbacks)
    /\ (forall s : bfd_session,
          w_sessions w !! entry = Some s ->
          intervals_in_range (peer_profile s) ->
          Forall (fun cf : (nb_cb_modify_args Z -> M nb_error)
                           * (bfd_profile -> Z) =>
                    exists (r : nb_error) (w' : world) (s' : bfd_session),
                      nb_commit_modify (fst cf) dnode w = Some (r, w')
                      /\ w_sessions w' !! entry = Some s'
                      /\ intervals_in_range (peer_profile s')
                      /\ (r = NB_ERR_VALIDATION
                          <-> lf_value dnode < 10000
                              \/ 60000000 < lf_value dnode)
                      /\ (r = NB_OK <-> 10000 <= lf_value dnode <= 60000000)
                      /\ (r = NB_ERR_VALIDATION -> w' = w))
                 session_interval_callbacks).
Proof.
  intros w entry dnode Hr. split.
  - intros p Hp (Htx & Hrx & Hecho).
    unfold profile_interval_callbacks.
    repeat match goal with |- Forall _ _ => constructor end;
      cbn [fst snd]; unfold nb_commit_modify;
      match goal with
      | |- context [bind (?cb _)] => unfold cb
      end;
      cbn [md_event md_dnode]; unfold yang_dnode_get_uint32;
      cbv beta iota zeta;
      destruct (Z.ltb_spec (lf_value dnode) 10000) as [Hlo|Hlo];
      destruct (Z.gtb_spec (lf_value dnode) 60000000) as [Hhi|Hhi];
      cbn [orb]; rewrite bind_ret_run; cbv beta iota;
      try (exists NB_ERR_VALIDATION, w, p;
           split; [reflexivity|]; split; [exact Hp|];
           split; [repeat split; lia|];
           repeat split; intros; try discriminate; try lia; auto).
    all: rewrite bind_ret_run; cbv beta iota; run_field Hr;
      match goal with |- context [if ?c then _ else _] =>
        destruct c eqn:Hc end;
      [ exists NB_OK, w, p; apply Z.eqb_eq in Hc;
        split; [reflexivity|]; split; [exact Hp|];
        split; [repeat split; lia|];
        repeat split; intros; try discriminate; try lia; auto
      | run_calls; eexists NB_OK, _, _;
        split; [reflexivity|]; split; [apply lookup_insert_eq|];
        split; [repeat split; cbn; lia|];
        repeat split; intros; try discriminate; try lia; auto ].
  - intros s Hs (Htx & Hrx & Hecho).
    unfold session_interval_callbacks.
    repeat match goal with |- Forall _ _ => constructor end;
      cbn [fst snd]; unfold nb_commit_modify;
      match goal with
      | |- context [bind (?cb _)] => unfold cb
      end;
      cbn [md_event md_dnode]; unfold yang_dnode_get_uint32;
      cbv beta iota zeta;
      destruct (Z.ltb_spec (lf_value dnode) 10000) as [Hlo|Hlo];
      destruct (Z.gtb_spec (lf_value dnode) 60000000) as [Hhi|Hhi];
      cbn [orb]; rewrite bind_ret_run; cbv beta iota;
      try (exists NB_ERR_VALIDATION, w, s;
           split; [reflexivity|]; split; [exact Hs|];
           split; [repeat split; lia|];
           repeat split; intros; try discriminate; try lia; auto).
    all: rewrite bind_ret_run; cbv beta iota; run_field Hr;
      match goal with |- context [if ?c then _ else _] =>
        destruct c eqn:Hc end;
      [ exists NB_OK, w, s;
        split; [reflexivity|]; split; [exact Hs|];
        split; [repeat split; lia|];
        repeat split; intros; try discriminate; try lia; auto
      | run_calls; eexists NB_OK, _, _;
        split; [reflexivity|]; split; [apply lookup_insert_eq|];
        split; [repeat split; cbn; lia|];
        repeat split; intros; try discriminate; try lia; auto ].
Qed.

(** Scenario S5 as a whole commit: 9999 is rejected before any change,
    10000 is stored. *)
Lemma committed_interval_keeps_range_witness :
  nb_commit_modify bfdd_bfd_profile_desired_transmission_interval_modify
    (Scenario.profile_leaf "desired-transmission-interval" 9999)
    Scenario.world_profile
  = Some (NB_ERR_VALIDATION, Scenario.world_profile)
  /\ exists (w' : world) (p' : bfd_profile),
       nb_commit_modify bfdd_bfd_profile_desired_transmission_interval_modify
         (Scenario.profile_leaf "desired-transmission-interval" 10000)
         Scenario.world_profile
       = Some (NB_OK, w')
       /\ w_profiles w' !! 2%positive = Some p'
       /\ min_tx p' = 10000
       /\ intervals_in_range p'.
Proof.
  assert (Hrange : intervals_in_range Scenario.profile_fast)
    by (repeat split; cbn; lia).
  split.
  - pose proof (proj1 (committed_interval_keeps_range
                         Scenario.world_profile 2%positive
                         (Scenario.profile_leaf
                            "desired-transmission-interval" 9999)
                         eq_refl)
                  Scenario.profile_fast eq_refl Hrange) as H.
    unfold profile_interval_callbacks in H.
    apply Forall_cons_1 in H as [H _].
    destruct H as (r & w' & p' & Hrun & _ & _ & Herr & _ & Hsame & _).
    assert (Hr : r = NB_ERR_VALIDATION) by (apply Herr; cbn; lia).
    rewrite (Hsame Hr), Hr in Hrun. exact Hrun.
  - pose proof (proj1 (committed_interval_keeps_range
                         Scenario.world_profile 2%positive
                         (Scenario.profile_leaf
                            "desired-transmission-interval" 10000)
                         eq_refl)
                  Scenario.profile_fast eq_refl Hrange) as H.
    unfold profile_interval_callbacks in H.
    apply Forall_cons_1 in H as [H _].
    destruct H as (r & w' & p' & Hrun & Hp' & Hin & _ & Hok & _ & Hval).
    assert (Hr : r = NB_OK) by (apply Hok; cbn; lia).
    subst r. exists w', p'.
    split; [exact Hrun|]. split; [exact Hp'|].
    split; [exact (Hval eq_refl)|exact Hin].
Defined.

(** ** The wildcard check across the entries of a peer *)

Lemma two_entries_length {A : Type} (a b : A) (l : list A) :
  In a l -> In b l -> a <> b -> (2 <= length l)%nat.
Proof.
  destruct l as [|x [|y l]]; cbn [In length]; intros Ha Hb Hab.
  - contradiction.
  - exfalso. apply Hab. destruct Ha as [<-|[]]. destruct Hb as [<-|[]].
    reflexivity.
  - lia.
Qed.

(** X11: a peer configured with and without interface is rejected on both
    entries.  When the list of the candidate tree that a create enumerates
    holds, for the peer of the node being created (same dest-addr, same vrf
    and, for multi-hop, same source-addr), an entry with interface "*" and
    an entry with a named interface, VALIDATE of the create fails with
    [NB_ERR_VALIDATION] and the wildcard message, and leaves the world as
    it was, provided the link-local check lets the node through and a
    multi-hop node has its source-addr.  The node may be either of the two
    entries, so both are rejected. *)
Theorem wildcard_and_named_entry_rejected :
  forall (args : nb_cb_create_args) (mhop : bool) (w : world)
         (e1 e2 : lyd_node),
    cr_event args = NB_EV_VALIDATE ->
    link_local_without_interface (cr_dnode args) = false ->
    (mhop = true -> source_addr (cr_dnode args) <> None) ->
    In e1 (session_entries mhop (cr_sessions args)) ->
    In e2 (session_entries mhop (cr_sessions args)) ->
    same_peer mhop (cr_dnode args) e1 ->
    same_peer mhop (cr_dnode args) e2 ->
    interface e1 = "*" ->
    interface e2 <> "*" ->
    bfd_session_create args mhop w
    = Some ((NB_ERR_VALIDATION, set_errmsg errmsg_wildcard args), w).
Proof.
  intros args mhop w e1 e2 Hev Hll Hsrc Hin1 Hin2 Hp1 Hp2 Hw1 Hn2.
  rewrite (bfd_session_create_validate _ _ _ Hev), Hll.
  rewrite (session_siblings_peer_group _ _ Hsrc).
  unfold wildcard_verdict.
  assert (Hwild : existsb is_wildcard
                    (peer_group mhop (cr_dnode args)
                       (session_entries mhop (cr_sessions args))) = true).
  { apply wildcard_in_peer_group. exists e1. tauto. }
  assert (Hlen : (2 <= length (peer_group mhop (cr_dnode args)
                                 (session_entries mhop (cr_sessions args))))%nat).
  { apply (two_entries_length e1 e2).
    - apply peer_group_In. tauto.
    - apply peer_group_In. tauto.
    - intros Heq. apply Hn2. rewrite <- Heq. exact Hw1. }
  rewrite Hwild.
  assert (Hgt : (Z.of_nat (length (peer_group mhop (cr_dnode args)
                                     (session_entries mhop (cr_sessions args))))
                 >? 1) = true).
  { apply Z.gtb_lt. lia. }
  rewrite Hgt. reflexivity.
Qed.

(** Scenario S2 in a tree with other peers: the create of the wildcard
    entry of 10.0.0.1 and the create of its eth0 entry are both rejected;
    so is, for multi-hop, the create of the eth0 entry from 10.0.0.9. *)
Lemma wildcard_and_named_entry_rejected_witness :
  bfd_session_create
    (Peers.validate_args Scenario.sh_wild
       [Peers.sh_other_wild; Scenario.sh_wild; Scenario.sh_eth0]
       [Peers.mh_other_source])
    false Scenario.world_empty
  = Some ((NB_ERR_VALIDATION,
           set_errmsg errmsg_wildcard
             (Peers.validate_args Scenario.sh_wild
                [Peers.sh_other_wild; Scenario.sh_wild; Scenario.sh_eth0]
                [Peers.mh_other_source])),
          Scenario.world_empty)
  /\ bfd_session_create
       (Peers.validate_args Scenario.sh_eth0
          [Peers.sh_other_wild; Scenario.sh_wild; Scenario.sh_eth0]
          [Peers.mh_other_source])
       false Scenario.world_empty
     = Some ((NB_ERR_VALIDATION,
              set_errmsg errmsg_wildcard
                (Peers.validate_args Scenario.sh_eth0
                   [Peers.sh_other_wild; Scenario.sh_wild; Scenario.sh_eth0]
                   [Peers.mh_other_source])),
             Scenario.world_empty)
  /\ bfd_session_create
       (Peers.validate_args Peers.mh_eth0
          [Scenario.sh_eth0]
          [Peers.mh_other_source; Peers.mh_eth0; Peers.mh_wild])
       true Scenario.world_empty
     = Some ((NB_ERR_VALIDATION,
              set_errmsg errmsg_wildcard
                (Peers.validate_args Peers.mh_eth0
                   [Scenario.sh_eth0]
                   [Peers.mh_other_source; Peers.mh_eth0; Peers.mh_wild])),
             Scenario.world_empty).
Proof.
  split; [|split].
  - apply (wildcard_and_named_entry_rejected
             (Peers.validate_args Scenario.sh_wild
                [Peers.sh_other_wild; Scenario.sh_wild; Scenario.sh_eth0]
                [Peers.mh_other_source])
             false Scenario.world_empty Scenario.sh_wild Scenario.sh_eth0);
      try reflexivity; try discriminate.
    + right. left. reflexivity.
    + right. right. left. reflexivity.
    + repeat split; discriminate.
    + repeat split; discriminate.
  - apply (wildcard_and_named_entry_rejected
             (Peers.validate_args Scenario.sh_eth0
                [Peers.sh_other_wild; Scenario.sh_wild; Scenario.sh_eth0]
                [Peers.mh_other_source])
             false Scenario.world_empty Scenario.sh_wild Scenario.sh_eth0);
      try reflexivity; try discriminate.
    + right. left. reflexivity.
    + right. right. left. reflexivity.
    + repeat split; discriminate.
    + repeat split; discriminate.
  - apply (wildcard_and_named_entry_rejected
             (Peers.validate_args Peers.mh_eth0
                [Scenario.sh_eth0]
                [Peers.mh_other_source; Peers.mh_eth0; Peers.mh_wild])
             true Scenario.world_empty Peers.mh_wild Peers.mh_eth0);
      try reflexivity; try discriminate.
    + right. right. left. reflexivity.
    + right. left. reflexivity.
    + repeat split.
    + repeat split.
Defined.

Lemma no_wildcard_in_filter (P : lyd_node -> Prop)
    `{forall n, Decision (P n)} (l : list lyd_node) :
  (forall n, In n l -> interface n <> "*") ->
  existsb is_wildcard (filter P l) = false.
Proof.
  intros Hno. induction l as [|n l IH]; [reflexivity|].
  rewrite filter_cons.
  assert (Hn : is_wildcard n = false).
  { unfold is_wildcard. apply String.eqb_neq. apply Hno. left. reflexivity. }
  assert (IH' : existsb is_wildcard (filter P l) = false).
  { apply IH. intros m Hm. apply Hno. right. exact Hm. }
  destruct (decide (P n)); cbn [existsb]; rewrite ?Hn; exact IH'.
Qed.

(** X12: a tree without wildcard always validates.  When no single-hop and
    no multi-hop entry of the candidate tree has interface "*", and the
    node being created has a named interface (and, for multi-hop, its
    source-addr), VALIDATE of the create returns [NB_OK] and leaves the
    arguments and the world as they were, whatever the addresses are and
    however many entries share the peer. *)
Theorem tree_without_wildcard_validates :
  forall (args : nb_cb_create_args) (mhop : bool) (w : world),
    cr_event args = NB_EV_VALIDATE ->
    interface (cr_dnode args) <> "*" ->
    (forall n : lyd_node,
       In n (single_hop (cr_sessions args) ++ multi_hop (cr_sessions args)) ->
       interface n <> "*") ->
    (mhop = true -> source_addr (cr_dnode args) <> None) ->
    bfd_session_create args mhop w = Some ((NB_OK, args), w).
Proof.
  intros args mhop w Hev Hif Hno Hsrc.
  rewrite (bfd_session_create_validate args mhop w Hev).
  unfold link_local_without_interface.
  apply String.eqb_neq in Hif. rewrite Hif, andb_false_r.
  unfold session_siblings, wildcard_verdict.
  destruct mhop.
  - destruct (source_addr (cr_dnode args)) as [source|];
      [|exfalso; apply (Hsrc eq_refl); reflexivity].
    unfold select_multi_hop.
    rewrite no_wildcard_in_filter; [reflexivity|].
    intros n Hn. apply Hno, in_or_app. right. exact Hn.
  - unfold select_single_hop.
    rewrite no_wildcard_in_filter; [reflexivity|].
    intros n Hn. apply Hno, in_or_app. left. exact Hn.
Qed.

(** The link-local peer fe80::1 on eth0, in a tree with the entry
    10.0.0.1 on eth0. *)
Lemma tree_without_wildcard_validates_witness :
  bfd_session_create
    (Scenario.create_args NB_EV_VALIDATE Scenario.sh_ll_eth0
       [Scenario.sh_ll_eth0; Scenario.sh_eth0] None)
    false Scenario.world_empty
  = Some ((NB_OK,
           Scenario.create_args NB_EV_VALIDATE Scenario.sh_ll_eth0
             [Scenario.sh_ll_eth0; Scenario.sh_eth0] None),
          Scenario.world_empty).
Proof.
  apply (tree_without_wildcard_validates
           (Scenario.create_args NB_EV_VALIDATE Scenario.sh_ll_eth0
              [Scenario.sh_ll_eth0; Scenario.sh_eth0] None)
           false Scenario.world_empty).
  - reflexivity.
  - discriminate.
  - intros n [<-|[<-|[]]]; discriminate.
  - discriminate.
Defined.

(** ** What a committed create guarantees *)

Lemma prepare_dangling (args : nb_cb_create_args) (mhop : bool) (w : world)
    (p : ptr) :
  cr_event args = NB_EV_PREPARE ->
  w_key_hash w !! bfd_session_get_key mhop (cr_dnode args) = Some p ->
  w_sessions w !! p = None ->
  bfd_session_create args mhop w = None.
Proof.
  intros Hev Hk Hs. unfold bfd_session_create. rewrite Hev.
  erewrite bind_Some by (unfold bfd_key_lookup, gets; rewrite Hk; reflexivity).
  cbv beta iota. unfold bind at 1. unfold store_session at 1.
  unfold bind at 1. unfold load_session. unfold_M. rewrite Hs. reflexivity.
Qed.

(** X13: after a committed session create, whether it adopted a session of
    the registry or allocated one, the node is bound to a live session that
    has CONFIG set and that the registry returns for the node's key; every
    other session and every profile is as before, and no other node's
    binding changed. *)
Theorem committed_create_binds_configured_session :
  forall (dnode : lyd_node) (sessions : sessions_node) (mhop : bool)
         (w w1 : world),
    nb_commit_create (fun a => bfd_session_create a mhop) dnode sessions w
      = Some (NB_OK, w1) ->
    exists (p : ptr) (s1 : bfd_session),
      w_running w1 !! dn_xpath dnode = Some p
      /\ w_key_hash w1 !! bfd_session_get_key mhop dnode = Some p
      /\ w_sessions w1 !! p = Some s1
      /\ CHECK_FLAG (flags s1) BFD_SESS_FLAG_CONFIG <> 0
      /\ (forall q : ptr, q <> p -> w_sessions w1 !! q = w_sessions w !! q)
      /\ w_profiles w1 = w_profiles w
      /\ (forall x : xpath,
            x <> dn_xpath dnode -> w_running w1 !! x = w_running w !! x)
      /\ ~ In (Call_bfd_session_free p) (calls_since w w1).
Proof.
  intros dnode sessions mhop w w1 Hcommit.
  destruct (w_key_hash w !! bfd_session_get_key mhop dnode) as [p|] eqn:Hk.
  - destruct (w_sessions w !! p) as [s|] eqn:Hs.
    + destruct (commit_create_adopting dnode sessions mhop w w1 p s
                  Hk Hs Hcommit) as (Hr1 & Hk1 & [d Hs1] & Hcalls).
      exists p, (set_my_discr d (adopted_session s)).
      split; [exact Hr1|]. split; [exact Hk1|].
      split; [rewrite Hs1; apply lookup_insert_eq|].
      split; [apply check_set_flag; discriminate|].
      split.
      { intros q Hq. rewrite Hs1. apply lookup_insert_ne. congruence. }
      revert Hcommit. unfold nb_commit_create. unfold bind at 1.
      destruct (bfd_session_create
                  (CreateArgs NB_EV_VALIDATE dnode sessions None "") mhop w)
        as [[[rv av] wv]|] eqn:Hv; [|discriminate].
      apply create_validate_keeps_world in Hv; [subst wv|reflexivity].
      destruct rv; try (cbn; unfold ret; congruence).
      cbn [fst]. unfold bind at 1.
      rewrite (prepare_adopts
                 (CreateArgs NB_EV_PREPARE dnode sessions None "") mhop w p s
                 eq_refl Hk Hs).
      cbn [fst snd set_resource cr_resource]. unfold bind at 1.
      set (wp := with_sessions (insert p (adopted_session s)) w).
      assert (Hsp : w_sessions wp !! p = Some (adopted_session s))
        by apply lookup_insert_eq.
      rewrite (bfd_session_create_apply
                 (CreateArgs NB_EV_APPLY dnode sessions (Some p) "")
                 mhop wp p _ eq_refl eq_refl Hsp).
      cbn [cr_dnode].
      destruct (my_discr (adopted_session s) =? 0).
      * rewrite (bs_registrate_run p wp _ Hsp).
        destruct (w_discrs wp) as [|[d'|] rest]; unfold ret; cbn [fst];
          intros Hw1; inversion Hw1; subst w1.
        split; [reflexivity|].
        split; [intros x Hx; cbn; apply lookup_insert_ne; congruence|].
        destruct Hcalls as [Hc|Hc]; rewrite Hc; cbn; intuition discriminate.
      * unfold ret; cbn [fst]. intros Hw1; inversion Hw1; subst w1.
        split; [reflexivity|].
        split; [intros x Hx; cbn; apply lookup_insert_ne; congruence|].
        destruct Hcalls as [Hc|Hc]; rewrite Hc; cbn; intuition discriminate.
    + exfalso. revert Hcommit. unfold nb_commit_create. unfold bind at 1.
      destruct (bfd_session_create
                  (CreateArgs NB_EV_VALIDATE dnode sessions None "") mhop w)
        as [[[rv av] wv]|] eqn:Hv; [|discriminate].
      apply create_validate_keeps_world in Hv; [subst wv|reflexivity].
      destruct rv; try (cbn; unfold ret; congruence).
      cbn [fst]. unfold bind at 1.
      rewrite (prepare_dangling
                 (CreateArgs NB_EV_PREPARE dnode sessions None "") mhop w p
                 eq_refl Hk Hs).
      discriminate.
  - destruct (commit_create_allocating dnode sessions mhop w w1 Hk Hcommit)
      as [d Hw1].
    exists (fresh_ptr w),
      (set_my_discr d (new_session mhop (bfd_session_get_key mhop dnode))).
    rewrite Hw1.
    split; [apply lookup_insert_eq|].
    split; [apply lookup_insert_eq|].
    split; [apply lookup_insert_eq|].
    split; [apply (new_session_flags_spec mhop)|].
    split; [intros q Hq; cbn; apply lookup_insert_ne; congruence|].
    split; [reflexivity|].
    split; [intros x Hx; cbn; apply lookup_insert_ne; congruence|].
    rewrite (calls_since_app w _
               [Call_bfd_session_new (fresh_ptr w);
                Call_bs_registrate (fresh_ptr w)]) by reflexivity.
    cbn. intuition discriminate.
Qed.

(** Scenario S4: configuring the peer of the engine's session. *)
Lemma committed_create_binds_configured_session_witness :
  exists (w1 : world) (p : ptr) (s1 : bfd_session),
    nb_commit_create (fun a => bfd_session_create a false)
      Scenario.sh_wild (SessionsNode [Scenario.sh_wild] [])
      Scenario.world_engine_owned
    = Some (NB_OK, w1)
    /\ w_running w1 !! dn_xpath Scenario.sh_wild = Some p
    /\ w_sessions w1 !! p = Some s1
    /\ CHECK_FLAG (flags s1) BFD_SESS_FLAG_CONFIG <> 0.
Proof.
  set (w1 := match nb_commit_create (fun a => bfd_session_create a false)
                     Scenario.sh_wild (SessionsNode [Scenario.sh_wild] [])
                     Scenario.world_engine_owned with
             | Some (_, w) => w
             | None => Scenario.world_empty
             end).
  assert (Hcommit : nb_commit_create (fun a => bfd_session_create a false)
                      Scenario.sh_wild (SessionsNode [Scenario.sh_wild] [])
                      Scenario.world_engine_owned
                    = Some (NB_OK, w1))
    by (vm_compute; reflexivity).
  destruct (committed_create_binds_configured_session Scenario.sh_wild
              (SessionsNode [Scenario.sh_wild] []) false
              Scenario.world_engine_owned w1 Hcommit)
    as (p & s1 & Hr & _ & Hs & Hc & _).
  exists w1, p, s1. repeat split; assumption.
Defined.
